(** * Trading SDK: order execution and portfolio accounting

    A shallow embedding of the order-management engine of the trading SDK
    ([app/models.py], [app/storage.py], [app/services/*.py]) together with the
    properties of its specification.

    Modelling conventions.
    - Python [int] is [Z]; [str] is [string]; [Optional[T]] is [option T].
    - [decimal.Decimal] is modelled by [Dec.t]: a signed coefficient and an
      exponent, with the arithmetic of the default context (precision 28,
      ROUND_HALF_EVEN).  NaN, the infinities, the sign of zero and the
      exponent limits of the context (Emin/Emax = -/+999999) are left out.
    - A Python [dict] is an insertion-ordered association list ([Dict.t]):
      iteration ([values]) follows insertion order, assignment to a present
      key keeps its position.
    - [Order] objects are shared by reference between callers and the store
      ([save_order] stores the object itself and [update_order_status]
      mutates the stored object), so orders live in an object heap and the
      store maps ids to references.  Holdings, trades and instruments are
      only reached through the store by key; their in-place updates are
      modelled as replacing the dict entry.
    - Code runs in a state-and-exception monad over the [World]; an
      exception leaves the mutations made so far in place.
    - [uuid.uuid4()] and [datetime.now()] read oracles carried by the world.
*)

From Stdlib Require Import ZArith QArith Qpower String List Bool Lia.
From stdpp Require Import base option list.
Import ListNotations.

Close Scope Q_scope.

Local Open Scope string_scope.
Local Open Scope list_scope.

(** ** decimal.Decimal under the default context *)

Module Dec.
Local Open Scope Z_scope.

(** The value of [mk c e] is [c * 10^e]. *)
Record t : Type := mk { coeff : Z; exponent : Z }.

(** getcontext().prec *)
Definition prec : Z := 28.

Fixpoint ndigits_aux (fuel : nat) (n acc : Z) : Z :=
  match fuel with
  | O => acc
  | S fuel' => if n <? 10 then acc else ndigits_aux fuel' (n / 10) (acc + 1)
  end.

(** [len(str(n))] for [n >= 0]. *)
Definition ndigits (n : Z) : Z :=
  ndigits_aux (Z.to_nat (Z.log2 n + 1)) n 1.

(** Drop the last [k] digits of [m >= 0], rounding half to even. *)
Definition round_half_even (m k : Z) : Z :=
  let q := m / 10 ^ k in
  let r := m mod 10 ^ k in
  let half := 5 * 10 ^ (k - 1) in
  if (half <? r) || ((r =? half) && Z.odd q) then q + 1 else q.

(** [Decimal._fix]: round to at most [prec] digits. *)
Definition fix_ (d : t) : t :=
  let m := Z.abs (coeff d) in
  let n := ndigits m in
  if n <=? prec then d
  else
    let k := n - prec in
    let q := round_half_even m k in
    if prec <? ndigits q
    then mk (Z.sgn (coeff d) * (q / 10)) (exponent d + k + 1)
    else mk (Z.sgn (coeff d) * q) (exponent d + k).

(** [Decimal(n)] for an [int]: exact. *)
Definition of_int (n : Z) : t := mk n 0.

Definition mul (a b : t) : t :=
  fix_ (mk (coeff a * coeff b) (exponent a + exponent b)).

Definition add (a b : t) : t :=
  let e := Z.min (exponent a) (exponent b) in
  fix_ (mk (coeff a * 10 ^ (exponent a - e) + coeff b * 10 ^ (exponent b - e)) e).

(** The loop of [__truediv__] that strips trailing zeros of an exact
    quotient while the exponent is below the ideal one. *)
Fixpoint strip_zeros (fuel : nat) (c e ideal : Z) : Z * Z :=
  match fuel with
  | O => (c, e)
  | S fuel' =>
      if (e <? ideal) && (c mod 10 =? 0)
      then strip_zeros fuel' (c / 10) (e + 1) ideal
      else (c, e)
  end.

Inductive div_error : Type := DivisionByZero | DivisionUndefined.

Definition div (a b : t) : div_error + t :=
  if coeff b =? 0 then
    inl (if coeff a =? 0 then DivisionUndefined else DivisionByZero)
  else if coeff a =? 0 then
    inr (fix_ (mk 0 (exponent a - exponent b)))
  else
    let sign := Z.sgn (coeff a) * Z.sgn (coeff b) in
    let n1 := Z.abs (coeff a) in
    let n2 := Z.abs (coeff b) in
    let shift := ndigits n2 - ndigits n1 + prec + 1 in
    let e := exponent a - exponent b - shift in
    let '(q, r) :=
      if 0 <=? shift
      then (n1 * 10 ^ shift / n2, (n1 * 10 ^ shift) mod n2)
      else (n1 / (n2 * 10 ^ (- shift)), n1 mod (n2 * 10 ^ (- shift))) in
    let '(q, e) :=
      if r =? 0
      then strip_zeros (Z.to_nat (exponent a - exponent b - e)) q e (exponent a - exponent b)
      else (if q mod 5 =? 0 then q + 1 else q, e) in
    inr (fix_ (mk (sign * q) e)).

(** Numeric comparison ([<], [<=], [==] compare values, not representations). *)
Definition compare (a b : t) : comparison :=
  let e := Z.min (exponent a) (exponent b) in
  Z.compare (coeff a * 10 ^ (exponent a - e)) (coeff b * 10 ^ (exponent b - e)).

Definition leb (a b : t) : bool :=
  match compare a b with Gt => false | _ => true end.

Definition eqb (a b : t) : bool :=
  match compare a b with Eq => true | _ => false end.

(** [Decimal.copy_negate] *)
Definition neg (a : t) : t := mk (- coeff a) (exponent a).

(** [a - b] is [a.__add__(b.copy_negate())]. *)
Definition sub (a b : t) : t := add a (neg b).

(** The rational number a Decimal denotes. *)
Definition value (d : t) : Q := (inject_Z (coeff d) * (10 # 1) ^ exponent d)%Q.

End Dec.

Abbreviation Decimal := Dec.t.

(** ** Python dict: insertion-ordered association list *)

Module Dict.
Definition t (V : Type) : Type := list (string * V).

Section ops.
Context {V : Type}.

Definition empty : t V := [].

(** [d.get(k)] *)
Fixpoint get (k : string) (d : t V) : option V :=
  match d with
  | [] => None
  | (k', v) :: d' => if String.eqb k k' then Some v else get k d'
  end.

(** [d[k] = v]: a present key keeps its position, a new key goes last. *)
Fixpoint set (k : string) (v : V) (d : t V) : t V :=
  match d with
  | [] => [(k, v)]
  | (k', v') :: d' =>
      if String.eqb k k' then (k, v) :: d' else (k', v') :: set k v d'
  end.

(** [del d[k]] (only ever executed on a present key). *)
Definition del (k : string) (d : t V) : t V :=
  List.filter (fun kv => negb (String.eqb k (fst kv))) d.

(** [list(d.values())] and [list(d.keys())] *)
Definition values (d : t V) : list V := List.map snd d.
Definition keys (d : t V) : list string := List.map fst d.
End ops.
End Dict.

(** ** app/models.py *)

Inductive OrderType : Type := BUY | SELL.
Inductive OrderStyle : Type := MARKET | LIMIT.
Inductive OrderStatus : Type := NEW | PLACED | EXECUTED | CANCELLED.
Inductive InstrumentType : Type := STOCK | BOND | ETF | OPTION.

(** [OrderType.value] *)
Definition OrderType_value (t : OrderType) : string :=
  match t with BUY => "BUY" | SELL => "SELL" end.

Definition OrderStyle_eqb (a b : OrderStyle) : bool :=
  match a, b with MARKET, MARKET | LIMIT, LIMIT => true | _, _ => false end.

Definition OrderStatus_eqb (a b : OrderStatus) : bool :=
  match a, b with
  | NEW, NEW | PLACED, PLACED | EXECUTED, EXECUTED | CANCELLED, CANCELLED => true
  | _, _ => false
  end.

(** A [datetime] value, as an opaque instant. *)
Definition datetime : Type := Z.

(** Exceptions raised by the engine ([app/exceptions.py], [ValueError], and
    the trapped signals of the decimal context). *)
Inductive exn : Type :=
| ValueError (msg : string)
| OrderValidationError (message : string)
| InstrumentNotFoundError (symbol : string)
| DecimalException (signal : Dec.div_error).

(** [TradingAPIException.message] / [str(e)] *)
Definition exn_message (e : exn) : string :=
  match e with
  | ValueError msg => msg
  | OrderValidationError message => message
  | InstrumentNotFoundError symbol => String.concat "" ["Instrument "; symbol; " not found"]
  | DecimalException Dec.DivisionByZero => "[<class 'decimal.DivisionByZero'>]"
  | DecimalException Dec.DivisionUndefined => "[<class 'decimal.DivisionUndefined'>]"
  end.

(** [TradingAPIException.error_code] *)
Definition error_code (e : exn) : option string :=
  match e with
  | OrderValidationError _ => Some "VALIDATION_ERROR"
  | InstrumentNotFoundError _ => Some "INSTRUMENT_NOT_FOUND"
  | _ => None
  end.

Inductive outcome (A : Type) : Type :=
| Return (a : A)
| Raise (e : exn).
Arguments Return {A} a.
Arguments Raise {A} e.

Module Instrument.
Record t : Type := mk {
  symbol : string;
  exchange : string;
  instrument_type : InstrumentType;
  last_traded_price : Decimal
}.
End Instrument.

Module Order.
Record t : Type := mk {
  id : string;
  symbol : string;
  order_type : OrderType;
  order_style : OrderStyle;
  quantity : Z;
  price : option Decimal;
  status : OrderStatus;
  created_at : datetime
}.

(** [self.status = s] *)
Definition set_status (s : OrderStatus) (self : t) : t :=
  mk (id self) (symbol self) (order_type self) (order_style self)
     (quantity self) (price self) s (created_at self).
End Order.

Module Trade.
Record t : Type := mk {
  id : string;
  order_id : string;
  symbol : string;
  quantity : Z;
  price : Decimal;
  executed_at : datetime
}.
End Trade.

Module PortfolioHolding.
Record t : Type := mk {
  symbol : string;
  quantity : Z;
  average_price : Decimal;
  current_value : Decimal
}.

(** [int * Decimal] dispatches to [Decimal.__rmul__]. *)
Definition int_mul (n : Z) (d : Decimal) : Decimal := Dec.mul d (Dec.of_int n).

(** [update_position] mutates [self]; the result is the outcome of the
    call and the object as the call leaves it. *)
Definition update_position (self : t) (trade_quantity : Z)
    (trade_price current_market_price : Decimal) : outcome unit * t :=
  if (quantity self + trade_quantity =? 0)%Z then
    (Return tt, mk (symbol self) 0 (Dec.of_int 0) (Dec.of_int 0))
  else
    let total_cost :=
      Dec.add (int_mul (quantity self) (average_price self))
              (int_mul trade_quantity trade_price) in
    let quantity' := (quantity self + trade_quantity)%Z in
    if negb (quantity' =? 0)%Z then
      match Dec.div total_cost (Dec.of_int quantity') with
      | inl signal =>
          (Raise (DecimalException signal),
           mk (symbol self) quantity' (average_price self) (current_value self))
      | inr average_price' =>
          (Return tt,
           mk (symbol self) quantity' average_price'
              (int_mul quantity' current_market_price))
      end
    else
      (Return tt,
       mk (symbol self) quantity' (Dec.of_int 0)
          (int_mul quantity' current_market_price)).
End PortfolioHolding.

(** ** app/schemas.py *)

Module OrderRequest.
(** The pydantic constraint [Field(gt=0)] on [quantity] is checked when a
    request is parsed; [_validate_order_request] re-checks it, so the
    record itself carries no constraint. *)
Record t : Type := mk {
  symbol : string;
  order_type : OrderType;
  order_style : OrderStyle;
  quantity : Z;
  price : option Decimal
}.
End OrderRequest.

(** ** The process state *)

(** A reference to an [Order] object. *)
Definition ref : Type := nat.

Record World : Type := mkWorld {
  (** the [Order] objects, and the next unused reference *)
  heap : ref -> Order.t;
  next_ref : ref;
  (** the fields of the [storage] singleton *)
  _instruments : Dict.t Instrument.t;
  _orders : Dict.t ref;
  _trades : Dict.t Trade.t;
  _portfolio : Dict.t PortfolioHolding.t;
  (** the values [uuid.uuid4()] and [datetime.now()] return, call by call *)
  uuid4_oracle : nat -> string;
  uuid4_calls : nat;
  now_oracle : nat -> datetime;
  now_calls : nat;
  (** lines written by [print] *)
  stdout : list string
}.

Definition set_heap (h : ref -> Order.t) (w : World) : World :=
  mkWorld h (next_ref w) (_instruments w) (_orders w) (_trades w) (_portfolio w)
          (uuid4_oracle w) (uuid4_calls w) (now_oracle w) (now_calls w) (stdout w).
Definition set_next_ref (n : ref) (w : World) : World :=
  mkWorld (heap w) n (_instruments w) (_orders w) (_trades w) (_portfolio w)
          (uuid4_oracle w) (uuid4_calls w) (now_oracle w) (now_calls w) (stdout w).
Definition set_instruments (d : Dict.t Instrument.t) (w : World) : World :=
  mkWorld (heap w) (next_ref w) d (_orders w) (_trades w) (_portfolio w)
          (uuid4_oracle w) (uuid4_calls w) (now_oracle w) (now_calls w) (stdout w).
Definition set_orders (d : Dict.t ref) (w : World) : World :=
  mkWorld (heap w) (next_ref w) (_instruments w) d (_trades w) (_portfolio w)
          (uuid4_oracle w) (uuid4_calls w) (now_oracle w) (now_calls w) (stdout w).
Definition set_trades (d : Dict.t Trade.t) (w : World) : World :=
  mkWorld (heap w) (next_ref w) (_instruments w) (_orders w) d (_portfolio w)
          (uuid4_oracle w) (uuid4_calls w) (now_oracle w) (now_calls w) (stdout w).
Definition set_portfolio (d : Dict.t PortfolioHolding.t) (w : World) : World :=
  mkWorld (heap w) (next_ref w) (_instruments w) (_orders w) (_trades w) d
          (uuid4_oracle w) (uuid4_calls w) (now_oracle w) (now_calls w) (stdout w).
Definition set_uuid4_calls (n : nat) (w : World) : World :=
  mkWorld (heap w) (next_ref w) (_instruments w) (_orders w) (_trades w) (_portfolio w)
          (uuid4_oracle w) n (now_oracle w) (now_calls w) (stdout w).
Definition set_now_calls (n : nat) (w : World) : World :=
  mkWorld (heap w) (next_ref w) (_instruments w) (_orders w) (_trades w) (_portfolio w)
          (uuid4_oracle w) (uuid4_calls w) (now_oracle w) n (stdout w).
Definition set_stdout (l : list string) (w : World) : World :=
  mkWorld (heap w) (next_ref w) (_instruments w) (_orders w) (_trades w) (_portfolio w)
          (uuid4_oracle w) (uuid4_calls w) (now_oracle w) (now_calls w) l.

(** [heap[r] := f heap[r]] *)
Definition heap_alter (f : Order.t -> Order.t) (r : ref) (h : ref -> Order.t)
  : ref -> Order.t :=
  fun r' => if Nat.eqb r' r then f (h r') else h r'.

(** ** The monad of Python code: state and exceptions *)

Definition M (A : Type) : Type := World -> outcome A * World.

Definition ret {A} (a : A) : M A := fun w => (Return a, w).

Definition bind {A B} (m : M A) (k : A -> M B) : M B :=
  fun w =>
    match m w with
    | (Return a, w') => k a w'
    | (Raise e, w') => (Raise e, w')
    end.

Definition raise {A} (e : exn) : M A := fun w => (Raise e, w).

(** [try: m  except Exception as e: handler e] *)
Definition try_except {A} (m : M A) (handler : exn -> M A) : M A :=
  fun w =>
    match m w with
    | (Return a, w') => (Return a, w')
    | (Raise e, w') => handler e w'
    end.

Definition modify (f : World -> World) : M unit := fun w => (Return tt, f w).

Definition gets {A} (f : World -> A) : M A := fun w => (Return (f w), w).

Declare Scope py_scope.
Delimit Scope py_scope with py.
Notation "x <- m ;; k" := (bind m (fun x => k))
  (at level 100, m at next level, right associativity) : py_scope.
Notation "m ;;; k" := (bind m (fun _ => k))
  (at level 100, right associativity) : py_scope.
Local Open Scope py_scope.

(** [if b: m] *)
Definition when (b : bool) (m : M unit) : M unit := if b then m else ret tt.

Definition is_None {A} (o : option A) : bool :=
  match o with None => true | Some _ => false end.

(** A [for] loop that threads the local variable [acc]. *)
Fixpoint for_each {A B} (l : list A) (acc : B) (body : B -> A -> M B) : M B :=
  match l with
  | [] => ret acc
  | x :: l' => acc' <- body acc x ;; for_each l' acc' body
  end.

(** [order.attr] for an [Order] object *)
Definition getattr {A} (attr : Order.t -> A) (order : ref) : M A :=
  gets (fun w => attr (heap w order)).

(** [order.status = s] *)
Definition setattr_status (order : ref) (s : OrderStatus) : M unit :=
  modify (fun w => set_heap (heap_alter (Order.set_status s) order (heap w)) w).

(** [str(uuid.uuid4())] *)
Definition uuid4 : M string :=
  fun w => (Return (uuid4_oracle w (uuid4_calls w)), set_uuid4_calls (S (uuid4_calls w)) w).

(** [datetime.now()] *)
Definition now : M datetime :=
  fun w => (Return (now_oracle w (now_calls w)), set_now_calls (S (now_calls w)) w).

(** [print(line)] *)
Definition print (line : string) : M unit :=
  modify (fun w => set_stdout (stdout w ++ [line]) w).

(** [Order.create] (the new object is in state NEW) *)
Definition Order_create (symbol : string) (order_type : OrderType)
    (order_style : OrderStyle) (quantity : Z) (price : option Decimal) : M ref :=
  id <- uuid4 ;;
  created_at <- now ;;
  fun w =>
    let r := next_ref w in
    let o := Order.mk id symbol order_type order_style quantity price NEW created_at in
    (Return r,
     set_next_ref (S r) (set_heap (fun r' => if Nat.eqb r' r then o else heap w r') w)).

(** [Trade.create] *)
Definition Trade_create (order : ref) (execution_price : Decimal) : M Trade.t :=
  id <- uuid4 ;;
  order_id <- getattr Order.id order ;;
  symbol <- getattr Order.symbol order ;;
  quantity <- getattr Order.quantity order ;;
  executed_at <- now ;;
  ret (Trade.mk id order_id symbol quantity execution_price executed_at).

(** ** app/storage.py *)

Module InMemoryStorage.
Definition save_instrument (instrument : Instrument.t) : M unit :=
  modify (fun w =>
    set_instruments (Dict.set (Instrument.symbol instrument) instrument (_instruments w)) w).

Definition get_instrument (symbol : string) : M (option Instrument.t) :=
  gets (fun w => Dict.get symbol (_instruments w)).

Definition save_order (order : ref) : M unit :=
  id <- getattr Order.id order ;;
  modify (fun w => set_orders (Dict.set id order (_orders w)) w).

Definition get_order (order_id : string) : M (option ref) :=
  gets (fun w => Dict.get order_id (_orders w)).

Definition get_all_orders : M (list ref) :=
  gets (fun w => Dict.values (_orders w)).

Definition update_order_status (order_id : string) (status : OrderStatus) : M bool :=
  fun w =>
    match Dict.get order_id (_orders w) with
    | Some order =>
        (Return true, set_heap (heap_alter (Order.set_status status) order (heap w)) w)
    | None => (Return false, w)
    end.

Definition save_trade (trade : Trade.t) : M unit :=
  modify (fun w => set_trades (Dict.set (Trade.id trade) trade (_trades w)) w).

Definition get_trade (trade_id : string) : M (option Trade.t) :=
  gets (fun w => Dict.get trade_id (_trades w)).

Definition get_all_trades : M (list Trade.t) :=
  gets (fun w => Dict.values (_trades w)).

Definition save_portfolio_holding (holding : PortfolioHolding.t) : M unit :=
  modify (fun w =>
    set_portfolio (Dict.set (PortfolioHolding.symbol holding) holding (_portfolio w)) w).

Definition get_portfolio_holding (symbol : string) : M (option PortfolioHolding.t) :=
  gets (fun w => Dict.get symbol (_portfolio w)).

Definition get_all_portfolio_holdings : M (list PortfolioHolding.t) :=
  gets (fun w => Dict.values (_portfolio w)).

Definition update_portfolio_position (symbol : string) (quantity_change : Z)
    (trade_price : Decimal) : M unit :=
  fun w =>
    let current_market_price :=
      match Dict.get symbol (_instruments w) with
      | Some instrument => Instrument.last_traded_price instrument
      | None => trade_price
      end in
    match Dict.get symbol (_portfolio w) with
    | Some holding =>
        let '(res, holding') :=
          PortfolioHolding.update_position holding quantity_change trade_price
            current_market_price in
        let w' := set_portfolio (Dict.set symbol holding' (_portfolio w)) w in
        match res with
        | Raise e => (Raise e, w')
        | Return _ =>
            if (PortfolioHolding.quantity holding' =? 0)%Z
            then (Return tt, set_portfolio (Dict.del symbol (_portfolio w')) w')
            else (Return tt, w')
        end
    | None =>
        if (quantity_change >? 0)%Z then
          (Return tt,
           set_portfolio
             (Dict.set symbol
                (PortfolioHolding.mk symbol quantity_change trade_price
                   (PortfolioHolding.int_mul quantity_change current_market_price))
                (_portfolio w)) w)
        else (Return tt, w)
    end.

Definition get_all_instruments : M (list Instrument.t) :=
  gets (fun w => Dict.values (_instruments w)).

(** Alias of [get_all_portfolio_holdings]. *)
Definition get_portfolio_holdings : M (list PortfolioHolding.t) :=
  get_all_portfolio_holdings.
End InMemoryStorage.

(** ** app/services/trade_service.py *)

Module TradeService.
(** [order.quantity if order.order_type.value == "BUY" else -order.quantity] *)
Definition quantity_change_of (order_type : OrderType) (quantity : Z) : Z :=
  if String.eqb (OrderType_value order_type) "BUY" then quantity else (- quantity)%Z.

Definition execute_market_order (order : ref) : M Trade.t :=
  order_style <- getattr Order.order_style order ;;
  if negb (OrderStyle_eqb order_style MARKET) then
    raise (ValueError "Only market orders can be executed immediately")
  else
    symbol <- getattr Order.symbol order ;;
    instrument <- InMemoryStorage.get_instrument symbol ;;
    match instrument with
    | None =>
        symbol <- getattr Order.symbol order ;;
        raise (ValueError (String.concat "" ["Instrument "; symbol; " not found"]))
    | Some instrument =>
        let execution_price := Instrument.last_traded_price instrument in
        trade <- Trade_create order execution_price ;;
        InMemoryStorage.save_trade trade ;;;
        id <- getattr Order.id order ;;
        _ <- InMemoryStorage.update_order_status id EXECUTED ;;
        quantity <- getattr Order.quantity order ;;
        order_type <- getattr Order.order_type order ;;
        let quantity_change := quantity_change_of order_type quantity in
        symbol <- getattr Order.symbol order ;;
        InMemoryStorage.update_portfolio_position symbol quantity_change execution_price ;;;
        ret trade
    end.

(** The guard [order.order_style != LIMIT or order.price is None] is the
    first two cases below; [market_price >= order.price] is
    [order.price <= market_price]. *)
Definition execute_limit_order (order : ref) (market_price : Decimal)
  : M (option Trade.t) :=
  order_style <- getattr Order.order_style order ;;
  price <- getattr Order.price order ;;
  match price with
  | None => raise (ValueError "Order must be a limit order with price")
  | Some price =>
      if negb (OrderStyle_eqb order_style LIMIT) then
        raise (ValueError "Order must be a limit order with price")
      else
        order_type <- getattr Order.order_type order ;;
        let can_execute :=
          if String.eqb (OrderType_value order_type) "BUY" && Dec.leb market_price price
          then true
          else if String.eqb (OrderType_value order_type) "SELL" && Dec.leb price market_price
          then true
          else false in
        if negb can_execute then ret None
        else
          trade <- Trade_create order price ;;
          InMemoryStorage.save_trade trade ;;;
          id <- getattr Order.id order ;;
          _ <- InMemoryStorage.update_order_status id EXECUTED ;;
          quantity <- getattr Order.quantity order ;;
          let quantity_change := quantity_change_of order_type quantity in
          symbol <- getattr Order.symbol order ;;
          InMemoryStorage.update_portfolio_position symbol quantity_change price ;;;
          ret (Some trade)
  end.

Definition get_all_trades : M (list Trade.t) := InMemoryStorage.get_all_trades.

(** The comprehension that selects the pending market orders. *)
Definition is_pending_market (w : World) (order : ref) : bool :=
  OrderStatus_eqb (Order.status (heap w order)) PLACED
  && OrderStyle_eqb (Order.order_style (heap w order)) MARKET.

(** The body of the loop of [simulate_market_execution], for one [order]. *)
Definition simulate_body (executed_trades : list Trade.t) (order : ref)
  : M (list Trade.t) :=
  try_except
    (trade <- execute_market_order order ;;
     ret (executed_trades ++ [trade]))
    (fun e =>
       id <- getattr Order.id order ;;
       print (String.concat "" ["Failed to execute order "; id; ": "; exn_message e]) ;;;
       ret executed_trades).

Definition simulate_market_execution : M (list Trade.t) :=
  all_orders <- InMemoryStorage.get_all_orders ;;
  market_orders <- gets (fun w => List.filter (is_pending_market w) all_orders) ;;
  for_each market_orders [] simulate_body.

Definition get_trade_by_id (trade_id : string) : M (option Trade.t) :=
  InMemoryStorage.get_trade trade_id.

Definition get_trades_for_symbol (symbol : string) : M (list Trade.t) :=
  all_trades <- InMemoryStorage.get_all_trades ;;
  ret (List.filter (fun trade => String.eqb (Trade.symbol trade) symbol) all_trades).
End TradeService.

(** ** app/services/order_service.py *)

Module OrderService.
Definition _validate_order_request (order_request : OrderRequest.t) : M unit :=
  when (OrderRequest.quantity order_request <=? 0)%Z
    (raise (OrderValidationError "Order quantity must be greater than zero")) ;;;
  when (OrderStyle_eqb (OrderRequest.order_style order_request) LIMIT
        && is_None (OrderRequest.price order_request))
    (raise (OrderValidationError "Price is required for limit orders")) ;;;
  match OrderRequest.order_style order_request, OrderRequest.price order_request with
  | LIMIT, Some price =>
      when (Dec.leb price (Dec.of_int 0))
        (raise (OrderValidationError "Price must be greater than zero for limit orders"))
  | _, _ => ret tt
  end ;;;
  instrument <- InMemoryStorage.get_instrument (OrderRequest.symbol order_request) ;;
  match instrument with
  | None => raise (InstrumentNotFoundError (OrderRequest.symbol order_request))
  | Some _ => ret tt
  end.

Definition _execute_market_order (order : ref) : M unit :=
  try_except
    (_ <- TradeService.execute_market_order order ;; ret tt)
    (fun e => ret tt).

Definition place_order (order_request : OrderRequest.t) : M ref :=
  _validate_order_request order_request ;;;
  order <- Order_create (OrderRequest.symbol order_request)
             (OrderRequest.order_type order_request)
             (OrderRequest.order_style order_request)
             (OrderRequest.quantity order_request)
             (OrderRequest.price order_request) ;;
  setattr_status order PLACED ;;;
  InMemoryStorage.save_order order ;;;
  order_style <- getattr Order.order_style order ;;
  (if OrderStyle_eqb order_style MARKET then _execute_market_order order else ret tt) ;;;
  ret order.

Definition get_order_status (order_id : string) : M (option ref) :=
  InMemoryStorage.get_order order_id.

Definition update_order_status (order_id : string) (status : OrderStatus) : M bool :=
  InMemoryStorage.update_order_status order_id status.

Definition get_all_orders : M (list ref) := InMemoryStorage.get_all_orders.
End OrderService.

(** ** app/services/portfolio_service.py *)

Module PortfolioService.
(** The body of the loop of [get_portfolio], for one [holding]. *)
Definition get_portfolio_body (updated_holdings : list PortfolioHolding.t)
    (holding : PortfolioHolding.t) : M (list PortfolioHolding.t) :=
  instrument <- InMemoryStorage.get_instrument (PortfolioHolding.symbol holding) ;;
  match instrument with
  | Some instrument =>
      let current_market_price := Instrument.last_traded_price instrument in
      let updated_holding :=
        PortfolioHolding.mk (PortfolioHolding.symbol holding)
          (PortfolioHolding.quantity holding)
          (PortfolioHolding.average_price holding)
          (PortfolioHolding.int_mul (PortfolioHolding.quantity holding)
             current_market_price) in
      let updated_holdings := updated_holdings ++ [updated_holding] in
      InMemoryStorage.save_portfolio_holding updated_holding ;;;
      ret updated_holdings
  | None => ret updated_holdings
  end.

Definition get_portfolio : M (list PortfolioHolding.t) :=
  holdings <- InMemoryStorage.get_all_portfolio_holdings ;;
  for_each holdings [] get_portfolio_body.

Definition get_holding (symbol : string) : M (option PortfolioHolding.t) :=
  holding <- InMemoryStorage.get_portfolio_holding symbol ;;
  match holding with
  | None => ret None
  | Some holding =>
      instrument <- InMemoryStorage.get_instrument symbol ;;
      match instrument with
      | Some instrument =>
          let current_market_price := Instrument.last_traded_price instrument in
          let updated_holding :=
            PortfolioHolding.mk (PortfolioHolding.symbol holding)
              (PortfolioHolding.quantity holding)
              (PortfolioHolding.average_price holding)
              (PortfolioHolding.int_mul (PortfolioHolding.quantity holding)
                 current_market_price) in
          InMemoryStorage.save_portfolio_holding updated_holding ;;;
          ret (Some updated_holding)
      | None => ret (Some holding)
      end
  end.

(** [order.order_type == OrderType.BUY] *)
Definition is_BUY (order_type : OrderType) : bool :=
  match order_type with BUY => true | SELL => false end.

Definition update_portfolio_from_trade (trade : Trade.t) : M unit :=
  order <- InMemoryStorage.get_order (Trade.order_id trade) ;;
  match order with
  | None =>
      raise (ValueError (String.concat "" ["Order "; Trade.order_id trade; " not found"]))
  | Some order =>
      order_type <- getattr Order.order_type order ;;
      let quantity_change :=
        if is_BUY order_type then Trade.quantity trade else (- Trade.quantity trade)%Z in
      InMemoryStorage.update_portfolio_position (Trade.symbol trade) quantity_change
        (Trade.price trade)
  end.

Definition calculate_portfolio_value : M Decimal :=
  holdings <- get_portfolio ;;
  for_each holdings (Dec.of_int 0)
    (fun total_value holding =>
       ret (Dec.add total_value (PortfolioHolding.current_value holding))).

Definition calculate_portfolio_pnl : M Decimal :=
  holdings <- get_portfolio ;;
  for_each holdings (Dec.of_int 0)
    (fun total_pnl holding =>
       let cost_basis :=
         PortfolioHolding.int_mul (PortfolioHolding.quantity holding)
           (PortfolioHolding.average_price holding) in
       let current_value := PortfolioHolding.current_value holding in
       let pnl := Dec.sub current_value cost_basis in
       ret (Dec.add total_pnl pnl)).

(** The dict [get_portfolio_summary] returns. *)
Record summary : Type := mk_summary {
  holdings : list PortfolioHolding.t;
  total_value : Decimal;
  total_pnl : Decimal;
  holdings_count : nat
}.

Definition get_portfolio_summary : M summary :=
  holdings <- get_portfolio ;;
  total_value <- calculate_portfolio_value ;;
  total_pnl <- calculate_portfolio_pnl ;;
  ret (mk_summary holdings total_value total_pnl (length holdings)).
End PortfolioService.

(** ** app/services/instrument_service.py *)

Module InstrumentService.
Definition get_all_instruments : M (list Instrument.t) :=
  InMemoryStorage.get_all_instruments.

Definition get_instrument_by_symbol (symbol : string) : M Instrument.t :=
  instrument <- InMemoryStorage.get_instrument symbol ;;
  match instrument with
  | None =>
      raise (ValueError (String.concat "" ["Instrument with symbol "; symbol; " not found"]))
  | Some instrument => ret instrument
  end.
End InstrumentService.

(** ** Initial state and fixtures *)

(** [InMemoryStorage._initialize_sample_data] *)
Definition sample_instruments : list Instrument.t :=
  [ Instrument.mk "TCS" "NSE" STOCK (Dec.mk 345025 (-2));
    Instrument.mk "INFY" "NSE" STOCK (Dec.mk 152040 (-2));
    Instrument.mk "RELIANCE" "NSE" STOCK (Dec.mk 285010 (-2));
    Instrument.mk "HDFC" "NSE" STOCK (Dec.mk 168075 (-2));
    Instrument.mk "ICICIBANK" "NSE" STOCK (Dec.mk 95030 (-2)) ].

(** The process state right after [storage = InMemoryStorage()], for given
    oracles.  No [Order] object exists yet: the heap content is immaterial. *)
Definition initial_world (uuids : nat -> string) (clock : nat -> datetime) : World :=
  mkWorld (fun _ => Order.mk "" "" BUY MARKET 0 None NEW 0%Z) 0
    (List.fold_left (fun d i => Dict.set (Instrument.symbol i) i d) sample_instruments Dict.empty)
    Dict.empty Dict.empty Dict.empty
    uuids 0 clock 0 [].

Definition sample_uuid (n : nat) : string :=
  String.append "uuid-" (String (Ascii.ascii_of_nat (48 + n)) "").

Definition sample_clock (n : nat) : datetime := (1700000000 + Z.of_nat n)%Z.

Definition world0 : World := initial_world sample_uuid sample_clock.

(** What the unit tests do before executing an order by hand:
    [order = Order.create(...); order.status = PLACED; storage.save_order(order)]. *)
Definition placed_order (symbol : string) (order_type : OrderType)
    (order_style : OrderStyle) (quantity : Z) (price : option Decimal) : M ref :=
  order <- Order_create symbol order_type order_style quantity price ;;
  setattr_status order PLACED ;;;
  InMemoryStorage.save_order order ;;;
  ret order.

(** The state a computation leaves behind. *)
Definition exec {A} (m : M A) (w : World) : World := snd (m w).

(** ** Vocabulary of the specification *)

(** The net position in [symbol]: the stored holding's quantity, zero when
    no holding is stored. *)
Definition held_quantity (symbol : string) (w : World) : Z :=
  match Dict.get symbol (_portfolio w) with
  | Some h => PortfolioHolding.quantity h
  | None => 0%Z
  end.

(** The live price of [symbol], when the catalog has the instrument. *)
Definition live_price (symbol : string) (w : World) : option Decimal :=
  match Dict.get symbol (_instruments w) with
  | Some instrument => Some (Instrument.last_traded_price instrument)
  | None => None
  end.

(** The price [update_portfolio_position] marks a position to: the live
    price, or the trade price when the catalog lacks the instrument. *)
Definition marking_price (symbol : string) (trade_price : Decimal) (w : World) : Decimal :=
  match live_price symbol w with
  | Some p => p
  | None => trade_price
  end.

(** The weighted-average cost of the specification, in Decimal arithmetic:
    [(old_qty*old_avg + dq*p) / (old_qty+dq)]. *)
Definition weighted_average (old_qty : Z) (old_avg : Decimal) (dq : Z) (p : Decimal)
  : Dec.div_error + Decimal :=
  Dec.div (Dec.add (PortfolioHolding.int_mul old_qty old_avg) (PortfolioHolding.int_mul dq p))
          (Dec.of_int (old_qty + dq)).

(** A holding marked to the price [P]. *)
Definition marked_to (P : Decimal) (h : PortfolioHolding.t) : PortfolioHolding.t :=
  PortfolioHolding.mk (PortfolioHolding.symbol h) (PortfolioHolding.quantity h)
    (PortfolioHolding.average_price h)
    (PortfolioHolding.int_mul (PortfolioHolding.quantity h) P).

(** The entry a snapshot returns for a stored holding: the holding marked
    to the live price of its symbol, none when the symbol has no instrument. *)
Definition snapshot_entry (w : World) (h : PortfolioHolding.t) : option PortfolioHolding.t :=
  match live_price (PortfolioHolding.symbol h) w with
  | Some P => Some (marked_to P h)
  | None => None
  end.

(** What a snapshot leaves in the store for a holding. *)
Definition after_snapshot (w : World) (h : PortfolioHolding.t) : PortfolioHolding.t :=
  match snapshot_entry w h with
  | Some h' => h'
  | None => h
  end.

(** The same keys, in the same order, with [f] applied to every value. *)
Definition map_values {V} (f : V -> V) (d : Dict.t V) : Dict.t V :=
  List.map (fun kv => (fst kv, f (snd kv))) d.

(** A dict has one entry per key. *)
Definition unique_keys {V} (d : Dict.t V) : Prop := NoDup (Dict.keys d).

(** Holdings are stored under their own symbol (what [save_portfolio_holding]
    and [update_portfolio_position] establish). *)
Definition portfolio_wf (d : Dict.t PortfolioHolding.t) : Prop :=
  unique_keys d /\ Forall (fun kv => PortfolioHolding.symbol (snd kv) = fst kv) d.

(** Orders are stored under their own id (what [save_order] establishes). *)
Definition orders_wf (w : World) : Prop :=
  unique_keys (_orders w)
  /\ Forall (fun kv => Order.id (heap w (snd kv)) = fst kv) (_orders w).

(** No stored holding has quantity zero. *)
Definition no_zero_holding (d : Dict.t PortfolioHolding.t) : Prop :=
  Forall (fun kv => PortfolioHolding.quantity (snd kv) <> 0%Z) d.

(** The limit-order eligibility rule in the words of the specification. *)
Definition limit_eligible (order_type : OrderType) (reference_price limit_price : Decimal)
  : Prop :=
  (order_type = BUY /\ Dec.leb reference_price limit_price = true)
  \/ (order_type = SELL /\ Dec.leb limit_price reference_price = true).

(** [needle in haystack] on strings. *)
Fixpoint str_contains (needle haystack : string) : bool :=
  String.prefix needle haystack
  || match haystack with
     | EmptyString => false
     | String _ rest => str_contains needle rest
     end.

(** The statements both [execute_market_order] and [execute_limit_order]
    run once an order is cleared to fill at [execution_price]: create and
    save the trade, mark the order EXECUTED, apply the position delta. *)
Definition settle (order : ref) (execution_price : Decimal) : M Trade.t :=
  trade <- Trade_create order execution_price ;;
  InMemoryStorage.save_trade trade ;;;
  id <- getattr Order.id order ;;
  _ <- InMemoryStorage.update_order_status id EXECUTED ;;
  quantity <- getattr Order.quantity order ;;
  order_type <- getattr Order.order_type order ;;
  symbol <- getattr Order.symbol order ;;
  InMemoryStorage.update_portfolio_position symbol
    (TradeService.quantity_change_of order_type quantity) execution_price ;;;
  ret trade.

(** The trade [settle] creates for [order] in [w]. *)
Definition fill (order : ref) (execution_price : Decimal) (w : World) : Trade.t :=
  Trade.mk (uuid4_oracle w (uuid4_calls w)) (Order.id (heap w order))
    (Order.symbol (heap w order)) (Order.quantity (heap w order))
    execution_price (now_oracle w (now_calls w)).

(** The signed quantity an order moves the position by. *)
Definition signed_quantity (o : Order.t) : Z :=
  match Order.order_type o with
  | BUY => Order.quantity o
  | SELL => (- Order.quantity o)%Z
  end.

(** The orders [simulate_market_execution] attempts: the stored orders that
    are PLACED and MARKET-style when the sweep starts, in store order. *)
Definition sweep_targets (w : World) : list ref :=
  List.filter (TradeService.is_pending_market w) (Dict.values (_orders w)).

(** What identifies a trade apart from its own id and timestamp. *)
Definition trade_facts (t : Trade.t) : string * string * Z * Decimal :=
  (Trade.order_id t, Trade.symbol t, Trade.quantity t, Trade.price t).

(** The trade an attempt on [order] produces: none when the order's symbol
    has no instrument, else a fill at the live price. *)
Definition expected_fill (w : World) (order : ref) : option (string * string * Z * Decimal) :=
  let o := heap w order in
  match live_price (Order.symbol o) w with
  | Some P => Some (Order.id o, Order.symbol o, Order.quantity o, P)
  | None => None
  end.

(** The object a successful attempt on [order] marks EXECUTED: the one
    stored under the order's id. *)
Definition marked_executed (w : World) (order : ref) : option ref :=
  match live_price (Order.symbol (heap w order)) w with
  | Some _ => Dict.get (Order.id (heap w order)) (_orders w)
  | None => None
  end.

(** Two states of an [Order] object that differ at most in status. *)
Definition same_order (a b : Order.t) : Prop :=
  Order.set_status NEW a = Order.set_status NEW b.

(** What a sweep started in [w0] keeps fixed while it runs: the catalog,
    the order index, and every order object up to its status. *)
Definition sweep_inv (w0 w : World) : Prop :=
  _instruments w = _instruments w0
  /\ _orders w = _orders w0
  /\ forall r, same_order (heap w r) (heap w0 r).

(** A run of position deltas [(symbol, quantity_change, trade_price)]. *)
Fixpoint apply_deltas (deltas : list (string * Z * Decimal)) (w : World) : World :=
  match deltas with
  | [] => w
  | (symbol, quantity_change, trade_price) :: rest =>
      apply_deltas rest
        (exec (InMemoryStorage.update_portfolio_position symbol quantity_change trade_price) w)
  end.

(** ** Vocabulary of the further properties *)

(** A run of placements that collects the ids of the orders placed, as the
    loop of the uniqueness test does; a request that fails ends the run. *)
Definition place_all (requests : list OrderRequest.t) : M (list string) :=
  for_each requests []
    (fun ids request =>
       order <- OrderService.place_order request ;;
       id <- getattr Order.id order ;;
       ret (ids ++ [id])).

(** [uuid4] never returns the same value twice. *)
Definition uuid4_unique (w : World) : Prop :=
  forall m n, uuid4_oracle w m = uuid4_oracle w n -> m = n.

(** Every stored reference is an allocated object. *)
Definition refs_allocated (w : World) : Prop :=
  Forall (fun kv => snd kv < next_ref w) (_orders w).

(** Trades are stored under their own id. *)
Definition trades_wf (d : Dict.t Trade.t) : Prop :=
  unique_keys d /\ Forall (fun kv => Trade.id (snd kv) = fst kv) d.

(** Every stored trade names an order id that is stored. *)
Definition trades_reference_orders (w : World) : Prop :=
  Forall (fun kv => Dict.get (Trade.order_id (snd kv)) (_orders w) <> None) (_trades w).

(** The representation invariant of the store. *)
Definition store_ok (w : World) : Prop :=
  orders_wf w /\ refs_allocated w /\ trades_wf (_trades w)
  /\ portfolio_wf (_portfolio w) /\ no_zero_holding (_portfolio w)
  /\ trades_reference_orders w.

(** The calls of the service layer that take plain data. *)
Inductive service_call : Type :=
| PlaceOrder (order_request : OrderRequest.t)
| UpdateOrderStatus (order_id : string) (status : OrderStatus)
| SimulateMarketExecution
| GetPortfolio
| GetHolding (symbol : string)
| GetPortfolioSummary
| SaveInstrument (instrument : Instrument.t).

(** The state one call leaves behind, whatever it returns or raises. *)
Definition run_call (c : service_call) (w : World) : World :=
  match c with
  | PlaceOrder order_request => exec (OrderService.place_order order_request) w
  | UpdateOrderStatus order_id status =>
      exec (OrderService.update_order_status order_id status) w
  | SimulateMarketExecution => exec TradeService.simulate_market_execution w
  | GetPortfolio => exec PortfolioService.get_portfolio w
  | GetHolding symbol => exec (PortfolioService.get_holding symbol) w
  | GetPortfolioSummary => exec PortfolioService.get_portfolio_summary w
  | SaveInstrument instrument => exec (InMemoryStorage.save_instrument instrument) w
  end.

Definition run_calls (calls : list service_call) (w : World) : World :=
  List.fold_left (fun w c => run_call c w) calls w.

(** The [Order] object [place_order] creates for a request in [w], once it
    is PLACED. *)
Definition new_order (req : OrderRequest.t) (w : World) : Order.t :=
  Order.mk (uuid4_oracle w (uuid4_calls w)) (OrderRequest.symbol req)
    (OrderRequest.order_type req) (OrderRequest.order_style req)
    (OrderRequest.quantity req) (OrderRequest.price req) PLACED
    (now_oracle w (now_calls w)).

(** The state in which the object [order] has status [s]. *)
Definition with_status (s : OrderStatus) (order : ref) (w : World) : World :=
  set_heap (heap_alter (Order.set_status s) order (heap w)) w.

(** The Decimal sum [0 + x1 + x2 + ...], added left to right. *)
Definition decimal_sum (l : list Decimal) : Decimal :=
  List.fold_left Dec.add l (Dec.of_int 0).

(** The profit or loss of one holding: [current_value - quantity * average_price]. *)
Definition holding_pnl (h : PortfolioHolding.t) : Decimal :=
  Dec.sub (PortfolioHolding.current_value h)
    (PortfolioHolding.int_mul (PortfolioHolding.quantity h)
       (PortfolioHolding.average_price h)).

(** A request that passes [_validate_order_request] in [w]. *)
Definition valid_request (req : OrderRequest.t) (w : World) : Prop :=
  (0 < OrderRequest.quantity req)%Z
  /\ (OrderRequest.order_style req = LIMIT ->
      exists p, OrderRequest.price req = Some p /\ Dec.leb p (Dec.of_int 0) = false)
  /\ Dict.get (OrderRequest.symbol req) (_instruments w) <> None.

(** Worlds used to exercise the properties. *)

(** A position of 100 TCS bought at 3000. *)
Definition world_tcs_100 : World :=
  exec (InMemoryStorage.update_portfolio_position "TCS" 100 (Dec.of_int 3000)) world0.

(** A position of 10 TCS bought at 100. *)
Definition world_tcs_10 : World :=
  exec (InMemoryStorage.update_portfolio_position "TCS" 10 (Dec.of_int 100)) world0.

(** A placed BUY LIMIT order (reference 0) for 10 units at 5 on NOPE, a
    symbol the catalog does not have. *)
Definition world_limit_unlisted : World :=
  exec (placed_order "NOPE" BUY LIMIT 10 (Some (Dec.of_int 5))) world0.

(** That order executed against a reference price of 5. *)
Definition world_unlisted : World :=
  exec (TradeService.execute_limit_order 0 (Dec.of_int 5)) world_limit_unlisted.

(** A placed SELL MARKET order (reference 0) for 50 TCS, nothing held. *)
Definition world_sell_unheld : World :=
  exec (placed_order "TCS" SELL MARKET 50 None) world0.

(** Three placed MARKET orders (references 0, 1, 2); the second is on NOPE,
    a symbol the catalog does not have. *)
Definition world_three_orders : World :=
  exec (placed_order "TCS" BUY MARKET 10 None ;;;
        placed_order "NOPE" BUY MARKET 5 None ;;;
        placed_order "INFY" BUY MARKET 7 None) world0.

(** A placed BUY MARKET order (reference 0) for 100 TCS. *)
Definition world_buy_market : World :=
  exec (placed_order "TCS" BUY MARKET 100 None) world0.

(** A placed SELL LIMIT order (reference 0) for 100 TCS at 3500.00. *)
Definition world_sell_limit : World :=
  exec (placed_order "TCS" SELL LIMIT 100 (Some (Dec.mk 350000 (-2)))) world0.

(** A placed BUY LIMIT order (reference 0) for 100 TCS at 3500.00. *)
Definition world_buy_limit : World :=
  exec (placed_order "TCS" BUY LIMIT 100 (Some (Dec.mk 350000 (-2)))) world0.

(** The quantity a run of requests buys of [symbol] at the market. *)
Fixpoint bought (symbol : string) (requests : list OrderRequest.t) : Z :=
  match requests with
  | [] => 0%Z
  | req :: rest =>
      match OrderRequest.order_style req, OrderRequest.order_type req with
      | MARKET, BUY =>
          if String.eqb (OrderRequest.symbol req) symbol
          then (OrderRequest.quantity req + bought symbol rest)%Z
          else bought symbol rest
      | _, _ => bought symbol rest
      end
  end.

(** A uuid source that never repeats: [n] strokes after a prefix. *)
Fixpoint tally (n : nat) : string :=
  match n with
  | O => ""
  | S n' => String.append "i" (tally n')
  end.

Definition tally_uuid (n : nat) : string := String.append "uuid-" (tally n).

(** The initial state with that source. *)
Definition world_unique : World := initial_world tally_uuid sample_clock.

(** * Properties *)

(** ** Dict *)

Module DictFacts.
Section facts.
Context {V : Type}.
Implicit Types (d : Dict.t V) (k : string) (v : V).

Lemma get_set_eq d k v : Dict.get k (Dict.set k v d) = Some v.
Proof.
  induction d as [|[k' v'] d IH]; cbn.
  - now rewrite String.eqb_refl.
  - destruct (String.eqb k k') eqn:E; cbn.
    + now rewrite String.eqb_refl.
    + now rewrite E.
Qed.

Lemma get_set_ne d k k' v : k <> k' -> Dict.get k' (Dict.set k v d) = Dict.get k' d.
Proof.
  intros Hne.
  assert (String.eqb k' k = false) as Hk by (apply String.eqb_neq; congruence).
  induction d as [|[k0 v0] d IH]; cbn.
  - now rewrite Hk.
  - destruct (String.eqb k k0) eqn:E; cbn.
    + apply String.eqb_eq in E. subst k0. now rewrite Hk.
    + now rewrite IH.
Qed.

Lemma get_del_eq d k : Dict.get k (Dict.del k d) = None.
Proof.
  unfold Dict.del. induction d as [|[k' v'] d IH]; cbn; [reflexivity|].
  destruct (String.eqb k k') eqn:E; cbn; [assumption|].
  now rewrite E.
Qed.

Lemma get_del_ne d k k' : k <> k' -> Dict.get k' (Dict.del k d) = Dict.get k' d.
Proof.
  intros Hne.
  assert (String.eqb k' k = false) as Hk by (apply String.eqb_neq; congruence).
  unfold Dict.del. induction d as [|[k0 v0] d IH]; cbn; [reflexivity|].
  destruct (String.eqb k k0) eqn:E; cbn.
  - apply String.eqb_eq in E. subst k0. now rewrite Hk.
  - now rewrite IH.
Qed.

Lemma get_Some_In d k v : Dict.get k d = Some v -> In (k, v) d.
Proof.
  induction d as [|[k' v'] d IH]; cbn; [discriminate|].
  destruct (String.eqb k k') eqn:E.
  - apply String.eqb_eq in E. intros [= ->]. subst. now left.
  - intros H. right. auto.
Qed.

Lemma In_keys d k v : In (k, v) d -> In k (Dict.keys d).
Proof. intros H. unfold Dict.keys. apply in_map_iff. now exists (k, v). Qed.

Lemma get_None_keys d k : Dict.get k d = None -> ~ In k (Dict.keys d).
Proof.
  induction d as [|[k' v'] d IH]; cbn; [tauto|].
  destruct (String.eqb k k') eqn:E; [discriminate|].
  apply String.eqb_neq in E. intros H [H'|H']; [congruence|]. now apply IH.
Qed.

Lemma unique_keys_cons k v d :
  unique_keys ((k, v) :: d) <-> ~ In k (Dict.keys d) /\ unique_keys d.
Proof.
  unfold unique_keys. cbn. rewrite NoDup_cons, list_elem_of_In. reflexivity.
Qed.

Lemma In_get d k v : unique_keys d -> In (k, v) d -> Dict.get k d = Some v.
Proof.
  induction d as [|[k' v'] d IH]; cbn; [contradiction|].
  intros [Hnotin Hnd]%unique_keys_cons [H|H].
  - injection H as -> ->. now rewrite String.eqb_refl.
  - destruct (String.eqb k k') eqn:E; [|auto].
    apply String.eqb_eq in E. subst k'.
    exfalso. apply Hnotin. eapply In_keys. eassumption.
Qed.

Lemma keys_set_present d k v v0 :
  Dict.get k d = Some v0 -> Dict.keys (Dict.set k v d) = Dict.keys d.
Proof.
  induction d as [|[k' v'] d IH]; cbn; [discriminate|].
  destruct (String.eqb k k') eqn:E; cbn.
  - apply String.eqb_eq in E. now subst.
  - intros H. f_equal. now apply IH.
Qed.

Lemma keys_set_absent d k v :
  Dict.get k d = None -> Dict.keys (Dict.set k v d) = Dict.keys d ++ [k].
Proof.
  induction d as [|[k' v'] d IH]; cbn; [reflexivity|].
  destruct (String.eqb k k') eqn:E; cbn; [discriminate|].
  intros H. f_equal. now apply IH.
Qed.

Lemma In_set d k v k1 v1 :
  In (k1, v1) (Dict.set k v d) -> (k1 = k /\ v1 = v) \/ In (k1, v1) d.
Proof.
  induction d as [|[k' v'] d IH]; cbn.
  - intros [[= <- <-]|[]]. now left.
  - destruct (String.eqb k k') eqn:E; cbn.
    + intros [[= <- <-]|H]; [now left|]. right. now right.
    + intros [H|H]; [right; now left|].
      destruct (IH H) as [?|?]; [now left|]. right. now right.
Qed.

Lemma In_del d k k1 v1 : In (k1, v1) (Dict.del k d) -> In (k1, v1) d /\ k1 <> k.
Proof.
  unfold Dict.del. intros H. apply filter_In in H as [H1 H2]. split; [assumption|].
  cbn in H2. apply negb_true_iff, String.eqb_neq in H2. congruence.
Qed.

Lemma unique_keys_set d k v : unique_keys d -> unique_keys (Dict.set k v d).
Proof.
  unfold unique_keys. intros Hnd.
  destruct (Dict.get k d) eqn:G.
  - now rewrite (keys_set_present _ _ _ _ G).
  - rewrite (keys_set_absent _ _ _ G).
    apply NoDup_app. split; [assumption|]. split.
    + intros x Hx Hin. apply list_elem_of_In in Hx.
      apply list_elem_of_In in Hin. destruct Hin as [<-|[]].
      now apply (get_None_keys _ _ G).
    + apply NoDup_singleton.
Qed.

Lemma unique_keys_del d k : unique_keys d -> unique_keys (Dict.del k d).
Proof.
  induction d as [|[k' v'] d IH]; cbn; [auto|].
  intros [Hnotin Hnd]%unique_keys_cons.
  unfold Dict.del in *. cbn.
  destruct (String.eqb k k'); cbn; [auto|].
  apply unique_keys_cons. split; [|auto].
  intros Hin. apply Hnotin.
  apply in_map_iff in Hin as [[k1 v1] [Hk Hin]]. cbn in Hk. subst k1.
  apply filter_In in Hin as [Hin _]. eapply In_keys. eassumption.
Qed.
End facts.
End DictFacts.

(** ** Decimal *)

(** A product of at most 28 digits is exact. *)
Lemma Dec_mul_exact (a b : Decimal) :
  (Dec.ndigits (Z.abs (Dec.coeff a * Dec.coeff b)) <= Dec.prec)%Z ->
  (Dec.value (Dec.mul a b) == Dec.value a * Dec.value b)%Q.
Proof.
  intros Hfit. unfold Dec.mul, Dec.fix_. cbn [Dec.coeff Dec.exponent].
  rewrite (proj2 (Z.leb_le _ _) Hfit).
  unfold Dec.value. cbn [Dec.coeff Dec.exponent].
  rewrite inject_Z_mult, Qpower_plus by discriminate. ring.
Qed.



Lemma Dec_div_nonzero (a b : Decimal) :
  Dec.coeff b <> 0%Z -> exists q, Dec.div a b = inr q.
Proof.
  intros Hb. unfold Dec.div.
  destruct (Z.eqb_spec (Dec.coeff b) 0) as [|_]; [contradiction|].
  destruct (Dec.coeff a =? 0)%Z; [eauto|].
  destruct (0 <=? _)%Z; destruct (_ =? 0)%Z;
    try destruct (Dec.strip_zeros _ _ _ _); eauto.
Qed.

(** ** PortfolioHolding.update_position *)

Lemma update_position_zero (h : PortfolioHolding.t) dq p cmp :
  (PortfolioHolding.quantity h + dq = 0)%Z ->
  PortfolioHolding.update_position h dq p cmp
  = (Return tt, PortfolioHolding.mk (PortfolioHolding.symbol h) 0 (Dec.of_int 0) (Dec.of_int 0)).
Proof.
  intros H. unfold PortfolioHolding.update_position.
  now rewrite (proj2 (Z.eqb_eq _ _) H).
Qed.

Lemma update_position_nonzero (h : PortfolioHolding.t) dq p cmp :
  (PortfolioHolding.quantity h + dq <> 0)%Z ->
  exists avg,
    weighted_average (PortfolioHolding.quantity h) (PortfolioHolding.average_price h) dq p
    = inr avg
    /\ PortfolioHolding.update_position h dq p cmp
       = (Return tt,
          PortfolioHolding.mk (PortfolioHolding.symbol h) (PortfolioHolding.quantity h + dq)
            avg (PortfolioHolding.int_mul (PortfolioHolding.quantity h + dq) cmp)).
Proof.
  intros H. unfold PortfolioHolding.update_position, weighted_average.
  rewrite (proj2 (Z.eqb_neq _ _) H). cbn [negb].
  destruct (Dec_div_nonzero
              (Dec.add (PortfolioHolding.int_mul (PortfolioHolding.quantity h)
                          (PortfolioHolding.average_price h))
                       (PortfolioHolding.int_mul dq p))
              (Dec.of_int (PortfolioHolding.quantity h + dq)) H) as [avg Havg].
  exists avg. split; [assumption|]. now rewrite Havg.
Qed.

(** ** InMemoryStorage.update_portfolio_position *)

Lemma update_portfolio_position_exhaust w symbol dq p h :
  Dict.get symbol (_portfolio w) = Some h ->
  (PortfolioHolding.quantity h + dq = 0)%Z ->
  InMemoryStorage.update_portfolio_position symbol dq p w
  = (Return tt,
     set_portfolio
       (Dict.del symbol
          (Dict.set symbol
             (PortfolioHolding.mk (PortfolioHolding.symbol h) 0 (Dec.of_int 0) (Dec.of_int 0))
             (_portfolio w))) w).
Proof.
  intros Hget Hz. unfold InMemoryStorage.update_portfolio_position.
  rewrite Hget, (update_position_zero _ _ _ _ Hz). reflexivity.
Qed.

Lemma update_portfolio_position_adjust w symbol dq p h :
  Dict.get symbol (_portfolio w) = Some h ->
  (PortfolioHolding.quantity h + dq <> 0)%Z ->
  exists avg,
    weighted_average (PortfolioHolding.quantity h) (PortfolioHolding.average_price h) dq p
    = inr avg
    /\ InMemoryStorage.update_portfolio_position symbol dq p w
       = (Return tt,
          set_portfolio
            (Dict.set symbol
               (PortfolioHolding.mk (PortfolioHolding.symbol h)
                  (PortfolioHolding.quantity h + dq) avg
                  (PortfolioHolding.int_mul (PortfolioHolding.quantity h + dq)
                     (marking_price symbol p w)))
               (_portfolio w)) w).
Proof.
  intros Hget Hnz. unfold InMemoryStorage.update_portfolio_position.
  rewrite Hget.
  destruct (update_position_nonzero h dq p (marking_price symbol p w) Hnz) as [avg [Havg Hup]].
  exists avg. split; [assumption|].
  unfold marking_price, live_price in Hup |- *.
  destruct (Dict.get symbol (_instruments w)); rewrite Hup; cbn;
    now rewrite (proj2 (Z.eqb_neq _ _) Hnz).
Qed.

Lemma update_portfolio_position_open w symbol dq p :
  Dict.get symbol (_portfolio w) = None ->
  (0 < dq)%Z ->
  InMemoryStorage.update_portfolio_position symbol dq p w
  = (Return tt,
     set_portfolio
       (Dict.set symbol
          (PortfolioHolding.mk symbol dq p
             (PortfolioHolding.int_mul dq (marking_price symbol p w)))
          (_portfolio w)) w).
Proof.
  intros Hget Hpos. unfold InMemoryStorage.update_portfolio_position.
  rewrite Hget. rewrite (proj2 (Z.gtb_lt _ _) Hpos).
  unfold marking_price, live_price. now destruct (Dict.get symbol (_instruments w)).
Qed.

Lemma update_portfolio_position_unheld w symbol dq p :
  Dict.get symbol (_portfolio w) = None ->
  (dq <= 0)%Z ->
  InMemoryStorage.update_portfolio_position symbol dq p w = (Return tt, w).
Proof.
  intros Hget Hle. unfold InMemoryStorage.update_portfolio_position.
  rewrite Hget. destruct (Z.gtb_spec dq 0); [lia|reflexivity].
Qed.

(** The operation never raises and touches nothing but the portfolio. *)
Lemma update_portfolio_position_total w symbol dq p :
  exists d, InMemoryStorage.update_portfolio_position symbol dq p w
            = (Return tt, set_portfolio d w).
Proof.
  assert (set_portfolio (_portfolio w) w = w) as Hid by now destruct w.
  destruct (Dict.get symbol (_portfolio w)) as [h|] eqn:Hget.
  - destruct (Z.eq_dec (PortfolioHolding.quantity h + dq) 0)%Z as [Hz|Hnz].
    + rewrite (update_portfolio_position_exhaust _ _ _ _ _ Hget Hz). eauto.
    + destruct (update_portfolio_position_adjust _ _ _ p _ Hget Hnz) as [avg [_ ->]]. eauto.
  - destruct (Z.lt_ge_cases 0 dq)%Z as [Hpos|Hle].
    + rewrite (update_portfolio_position_open _ _ _ _ Hget Hpos). eauto.
    + rewrite (update_portfolio_position_unheld _ _ _ _ Hget Hle).
      exists (_portfolio w). now rewrite Hid.
Qed.

(** ** PortfolioService.get_portfolio *)

Lemma set_behind_prefix {V} (d1 d2 : Dict.t V) k v v0 :
  ~ In k (Dict.keys d1) ->
  Dict.set k v (d1 ++ (k, v0) :: d2) = d1 ++ (k, v) :: d2.
Proof.
  induction d1 as [|[k1 v1] d1 IH]; cbn; intros Hnotin.
  - now rewrite String.eqb_refl.
  - destruct (String.eqb_spec k k1) as [->|Hne]; [tauto|].
    f_equal. apply IH. tauto.
Qed.

Lemma get_map_values {V} (f : V -> V) (d : Dict.t V) k :
  Dict.get k (map_values f d) = option_map f (Dict.get k d).
Proof.
  induction d as [|[k' v'] d IH]; cbn; [reflexivity|].
  now destruct (String.eqb k k').
Qed.

Lemma keys_map_values {V} (f : V -> V) (d : Dict.t V) :
  Dict.keys (map_values f d) = Dict.keys d.
Proof.
  unfold Dict.keys, map_values. rewrite map_map. reflexivity.
Qed.

Lemma get_portfolio_body_run acc h w :
  PortfolioService.get_portfolio_body acc h w
  = match snapshot_entry w h with
    | Some h' =>
        (Return (acc ++ [h']),
         set_portfolio (Dict.set (PortfolioHolding.symbol h) h' (_portfolio w)) w)
    | None => (Return acc, w)
    end.
Proof.
  unfold PortfolioService.get_portfolio_body, snapshot_entry, live_price, bind,
    InMemoryStorage.get_instrument, gets.
  now destruct (Dict.get (PortfolioHolding.symbol h) (_instruments w)).
Qed.

Lemma snapshot_entry_frame d w : snapshot_entry (set_portfolio d w) = snapshot_entry w.
Proof. reflexivity. Qed.

Lemma after_snapshot_frame d w : after_snapshot (set_portfolio d w) = after_snapshot w.
Proof. reflexivity. Qed.

Lemma after_snapshot_Some w h h' :
  snapshot_entry w h = Some h' -> after_snapshot w h = h'.
Proof. unfold after_snapshot. now intros ->. Qed.

Lemma after_snapshot_None w h :
  snapshot_entry w h = None -> after_snapshot w h = h.
Proof. unfold after_snapshot. now intros ->. Qed.

Lemma after_snapshot_symbol w h :
  PortfolioHolding.symbol (after_snapshot w h) = PortfolioHolding.symbol h.
Proof.
  unfold after_snapshot, snapshot_entry.
  now destruct (live_price (PortfolioHolding.symbol h) w).
Qed.

(** The loop of [get_portfolio], started on the suffix [d2] of the stored
    holdings with the prefix [d1] already processed. *)
Lemma get_portfolio_loop d2 : forall d1 acc w,
  _portfolio w = d1 ++ d2 ->
  portfolio_wf (d1 ++ d2) ->
  for_each (Dict.values d2) acc PortfolioService.get_portfolio_body w
  = (Return (acc ++ omap (snapshot_entry w) (Dict.values d2)),
     set_portfolio (d1 ++ map_values (after_snapshot w) d2) w).
Proof.
  induction d2 as [|[k h] d2 IH]; intros d1 acc w Hw Hwf.
  - unfold Dict.values, map_values. cbn [for_each map omap]. unfold ret.
    rewrite app_nil_r in Hw. rewrite !app_nil_r, <- Hw. now destruct w.
  - destruct Hwf as [Hnd Hsym].
    assert (PortfolioHolding.symbol h = k) as Hk.
    { apply Forall_app in Hsym as [_ Hsym]. now inversion Hsym. }
    assert (~ In k (Dict.keys d1)) as Hfresh.
    { unfold unique_keys, Dict.keys in Hnd. rewrite map_app in Hnd.
      apply NoDup_app in Hnd as (_ & Hdisj & _).
      intros Hin. apply (Hdisj k); [now apply list_elem_of_In|]. cbn. left. }
    assert (portfolio_wf ((d1 ++ [(k, after_snapshot w h)]) ++ d2)) as Hwf'.
    { split.
      - unfold unique_keys, Dict.keys in *. rewrite <- app_assoc.
        rewrite map_app in *. exact Hnd.
      - rewrite <- app_assoc. apply Forall_app in Hsym as [H1 H2].
        apply Forall_app. split; [assumption|]. inversion H2; subst.
        constructor; [|assumption]. cbn. apply after_snapshot_symbol. }
    change (Dict.values ((k, h) :: d2)) with (h :: Dict.values d2).
    change (map_values (after_snapshot w) ((k, h) :: d2))
      with ((k, after_snapshot w h) :: map_values (after_snapshot w) d2).
    change (omap (snapshot_entry w) (h :: Dict.values d2))
      with (match snapshot_entry w h with
            | Some y => y :: omap (snapshot_entry w) (Dict.values d2)
            | None => omap (snapshot_entry w) (Dict.values d2)
            end).
    cbn [for_each]. unfold bind at 1. rewrite get_portfolio_body_run.
    destruct (snapshot_entry w h) as [h'|] eqn:Hentry.
    + rewrite (after_snapshot_Some _ _ _ Hentry) in Hwf' |- *.
      rewrite (IH (d1 ++ [(k, h')])); [| |exact Hwf'].
      * rewrite snapshot_entry_frame, after_snapshot_frame.
        rewrite <- !app_assoc. reflexivity.
      * cbn [_portfolio set_portfolio]. rewrite Hw, Hk.
        rewrite (set_behind_prefix d1 d2 k h' h Hfresh).
        now rewrite <- app_assoc.
    + rewrite (after_snapshot_None _ _ Hentry) in Hwf' |- *.
      rewrite (IH (d1 ++ [(k, h)])); [| |exact Hwf'].
      * rewrite <- !app_assoc. reflexivity.
      * rewrite Hw. now rewrite <- app_assoc.
Qed.

Lemma get_portfolio_run w :
  portfolio_wf (_portfolio w) ->
  PortfolioService.get_portfolio w
  = (Return (omap (snapshot_entry w) (Dict.values (_portfolio w))),
     set_portfolio (map_values (after_snapshot w) (_portfolio w)) w).
Proof.
  intros Hwf. unfold PortfolioService.get_portfolio, bind,
    InMemoryStorage.get_all_portfolio_holdings, gets.
  now rewrite (get_portfolio_loop (_portfolio w) [] [] w eq_refl Hwf).
Qed.

(** ** Invariants of the portfolio *)

Lemma Forall_set {V} (P : string * V -> Prop) (d : Dict.t V) k v :
  Forall P d -> P (k, v) -> Forall P (Dict.set k v d).
Proof.
  intros Hd Hkv. apply List.Forall_forall. intros [k1 v1] Hin.
  destruct (DictFacts.In_set _ _ _ _ _ Hin) as [[-> ->]|Hold]; [assumption|].
  exact (proj1 (List.Forall_forall P d) Hd _ Hold).
Qed.

Lemma Forall_del_set {V} (P : string * V -> Prop) (d : Dict.t V) k v :
  Forall P d -> Forall P (Dict.del k (Dict.set k v d)).
Proof.
  intros Hd. apply List.Forall_forall. intros [k1 v1] Hin.
  apply DictFacts.In_del in Hin as [Hin Hne].
  destruct (DictFacts.In_set _ _ _ _ _ Hin) as [[-> ->]|Hold]; [congruence|].
  exact (proj1 (List.Forall_forall P d) Hd _ Hold).
Qed.

Lemma portfolio_wf_get d k h :
  portfolio_wf d -> Dict.get k d = Some h -> PortfolioHolding.symbol h = k.
Proof.
  intros [_ Hsym] Hget. apply DictFacts.get_Some_In in Hget.
  exact (proj1 (List.Forall_forall _ d) Hsym _ Hget).
Qed.

(** Every way [update_portfolio_position] can change the portfolio. *)
Lemma update_portfolio_position_cases w symbol dq p :
  exists d,
    InMemoryStorage.update_portfolio_position symbol dq p w = (Return tt, set_portfolio d w)
    /\ (d = _portfolio w
        \/ (exists h, d = Dict.set symbol h (_portfolio w)
                      /\ PortfolioHolding.quantity h <> 0%Z
                      /\ (PortfolioHolding.symbol h = symbol
                          \/ exists h0, Dict.get symbol (_portfolio w) = Some h0
                                        /\ PortfolioHolding.symbol h = PortfolioHolding.symbol h0))
        \/ (exists h, d = Dict.del symbol (Dict.set symbol h (_portfolio w)))).
Proof.
  destruct (Dict.get symbol (_portfolio w)) as [h|] eqn:Hget.
  - destruct (Z.eq_dec (PortfolioHolding.quantity h + dq) 0)%Z as [Hz|Hnz].
    + rewrite (update_portfolio_position_exhaust _ _ _ _ _ Hget Hz).
      eexists. split; [reflexivity|]. right. right. eauto.
    + destruct (update_portfolio_position_adjust _ _ _ p _ Hget Hnz) as [avg [_ ->]].
      eexists. split; [reflexivity|]. right. left.
      eexists. split; [reflexivity|]. cbn. split; [assumption|]. right. eauto.
  - destruct (Z.lt_ge_cases 0 dq)%Z as [Hpos|Hle].
    + rewrite (update_portfolio_position_open _ _ _ _ Hget Hpos).
      eexists. split; [reflexivity|]. right. left.
      eexists. split; [reflexivity|]. cbn. split; [lia|]. now left.
    + rewrite (update_portfolio_position_unheld _ _ _ _ Hget Hle).
      exists (_portfolio w). split; [now destruct w|]. now left.
Qed.

Lemma update_portfolio_position_wf w symbol dq p :
  portfolio_wf (_portfolio w) ->
  portfolio_wf (_portfolio (exec (InMemoryStorage.update_portfolio_position symbol dq p) w)).
Proof.
  intros Hwf. unfold exec.
  destruct (update_portfolio_position_cases w symbol dq p)
    as (d & -> & [->|[(h & -> & _ & Hsym)|(h & ->)]]); cbn; [assumption| |].
  - destruct Hwf as [Hnd Hall]. split; [now apply DictFacts.unique_keys_set|].
    apply Forall_set; [assumption|]. cbn.
    destruct Hsym as [H|(h0 & Hget & ->)]; [assumption|].
    eapply portfolio_wf_get; [split|]; eassumption.
  - destruct Hwf as [Hnd Hall]. split.
    + now apply DictFacts.unique_keys_del, DictFacts.unique_keys_set.
    + now apply Forall_del_set.
Qed.

Lemma update_portfolio_position_no_zero w symbol dq p :
  no_zero_holding (_portfolio w) ->
  no_zero_holding (_portfolio (exec (InMemoryStorage.update_portfolio_position symbol dq p) w)).
Proof.
  intros Hnz. unfold exec, no_zero_holding in *.
  destruct (update_portfolio_position_cases w symbol dq p)
    as (d & -> & [->|[(h & -> & Hq & _)|(h & ->)]]); cbn; [assumption| |].
  - now apply Forall_set.
  - now apply Forall_del_set.
Qed.

(** Whatever the state before, the touched symbol never keeps a holding of
    quantity zero. *)
Lemma update_portfolio_position_touched w symbol dq p h' :
  Dict.get symbol (_portfolio (exec (InMemoryStorage.update_portfolio_position symbol dq p) w))
  = Some h' ->
  PortfolioHolding.quantity h' <> 0%Z.
Proof.
  unfold exec.
  destruct (Dict.get symbol (_portfolio w)) as [h|] eqn:Hget.
  - destruct (Z.eq_dec (PortfolioHolding.quantity h + dq) 0)%Z as [Hz|Hnz].
    + rewrite (update_portfolio_position_exhaust _ _ _ _ _ Hget Hz). cbn.
      now rewrite DictFacts.get_del_eq.
    + destruct (update_portfolio_position_adjust _ _ _ p _ Hget Hnz) as [avg [_ ->]]. cbn.
      rewrite DictFacts.get_set_eq. now intros [= <-].
  - destruct (Z.lt_ge_cases 0 dq)%Z as [Hpos|Hle].
    + rewrite (update_portfolio_position_open _ _ _ _ Hget Hpos). cbn.
      rewrite DictFacts.get_set_eq. intros [= <-]. cbn. lia.
    + rewrite (update_portfolio_position_unheld _ _ _ _ Hget Hle). cbn. congruence.
Qed.

Lemma apply_deltas_no_zero deltas : forall w,
  no_zero_holding (_portfolio w) -> no_zero_holding (_portfolio (apply_deltas deltas w)).
Proof.
  induction deltas as [|[[symbol dq] p] deltas IH]; intros w Hnz; cbn; [assumption|].
  apply IH. now apply update_portfolio_position_no_zero.
Qed.

(** ** The claims about position accounting *)

(** C2.  For an existing holding, a delta [dq] at price [p] with a non-zero
    resulting quantity leaves the average price
    [(old_qty*old_avg + dq*p) / (old_qty+dq)], computed in Decimal
    arithmetic; and buying 100 at 3000, then 50 at 3600, from no position
    yields an average price of exactly 3200. *)
Theorem weighted_average_cost_basis :
  (forall w symbol dq p h,
      Dict.get symbol (_portfolio w) = Some h ->
      (PortfolioHolding.quantity h + dq <> 0)%Z ->
      exists avg h',
        weighted_average (PortfolioHolding.quantity h) (PortfolioHolding.average_price h) dq p
        = inr avg
        /\ fst (InMemoryStorage.update_portfolio_position symbol dq p w) = Return tt
        /\ Dict.get symbol
             (_portfolio (exec (InMemoryStorage.update_portfolio_position symbol dq p) w))
           = Some h'
        /\ PortfolioHolding.average_price h' = avg
        /\ PortfolioHolding.quantity h' = (PortfolioHolding.quantity h + dq)%Z)
  /\ (forall w symbol,
        Dict.get symbol (_portfolio w) = None ->
        exists h,
          Dict.get symbol
            (_portfolio
               (exec (InMemoryStorage.update_portfolio_position symbol 100 (Dec.of_int 3000) ;;;
                      InMemoryStorage.update_portfolio_position symbol 50 (Dec.of_int 3600)) w))
          = Some h
          /\ PortfolioHolding.average_price h = Dec.of_int 3200
          /\ PortfolioHolding.quantity h = 150%Z).
Proof.
  split.
  - intros w symbol dq p h Hget Hnz.
    destruct (update_portfolio_position_adjust _ _ _ p _ Hget Hnz) as [avg [Havg Hrun]].
    exists avg. eexists. unfold exec. rewrite Hrun. cbn.
    rewrite DictFacts.get_set_eq. repeat split; [assumption | reflexivity..].
  - intros w symbol Hnone. unfold exec, bind.
    rewrite (update_portfolio_position_open _ _ 100%Z (Dec.of_int 3000) Hnone) by lia.
    match goal with |- context [InMemoryStorage.update_portfolio_position _ _ _ ?w1] =>
      destruct (update_portfolio_position_adjust w1 symbol 50%Z (Dec.of_int 3600)
                  (PortfolioHolding.mk symbol 100 (Dec.of_int 3000)
                     (PortfolioHolding.int_mul 100 (marking_price symbol (Dec.of_int 3000) w))))
        as [avg [Havg Hrun]]
    end.
    + cbn. apply DictFacts.get_set_eq.
    + cbn. lia.
    + rewrite Hrun. cbn. rewrite DictFacts.get_set_eq. eexists. split; [reflexivity|].
      cbn. split; [|reflexivity].
      vm_compute in Havg. now injection Havg as <-.
Qed.

(** The rule applied to a position of 100 TCS at 3000 that grows by 50 at 3600. *)
Lemma weighted_average_cost_basis_witness :
  exists avg h',
    weighted_average 100 (Dec.of_int 3000) 50 (Dec.of_int 3600) = inr avg
    /\ fst (InMemoryStorage.update_portfolio_position "TCS" 50 (Dec.of_int 3600) world_tcs_100)
       = Return tt
    /\ Dict.get "TCS"
         (_portfolio
            (exec (InMemoryStorage.update_portfolio_position "TCS" 50 (Dec.of_int 3600))
               world_tcs_100))
       = Some h'
    /\ PortfolioHolding.average_price h' = avg
    /\ PortfolioHolding.quantity h' = (100 + 50)%Z.
Proof.
  apply (proj1 weighted_average_cost_basis world_tcs_100 "TCS" 50%Z (Dec.of_int 3600)
           (PortfolioHolding.mk "TCS" 100 (Dec.of_int 3000) (Dec.mk 34502500 (-2)))).
  - vm_compute. reflexivity.
  - vm_compute. discriminate.
Defined.

(** C5, as the code has it.  A delta that brings an existing holding to
    exactly zero resets quantity, cost basis and value to zero and removes
    the holding; a delta that takes it below zero leaves a stored holding
    of negative quantity whose average price follows the weighted-average
    rule.  A position is never opened by a non-positive delta. *)
Theorem position_through_zero :
  (forall w symbol dq p h,
      Dict.get symbol (_portfolio w) = Some h ->
      fst (InMemoryStorage.update_portfolio_position symbol dq p w) = Return tt
      /\ ((PortfolioHolding.quantity h + dq = 0)%Z ->
          PortfolioHolding.update_position h dq p (marking_price symbol p w)
          = (Return tt,
             PortfolioHolding.mk (PortfolioHolding.symbol h) 0 (Dec.of_int 0) (Dec.of_int 0))
          /\ Dict.get symbol
               (_portfolio (exec (InMemoryStorage.update_portfolio_position symbol dq p) w))
             = None)
      /\ ((PortfolioHolding.quantity h + dq < 0)%Z ->
          exists avg h',
            weighted_average (PortfolioHolding.quantity h) (PortfolioHolding.average_price h)
              dq p = inr avg
            /\ Dict.get symbol
                 (_portfolio (exec (InMemoryStorage.update_portfolio_position symbol dq p) w))
               = Some h'
            /\ PortfolioHolding.quantity h' = (PortfolioHolding.quantity h + dq)%Z
            /\ PortfolioHolding.average_price h' = avg))
  /\ (forall w symbol dq p,
        Dict.get symbol (_portfolio w) = None ->
        (dq <= 0)%Z ->
        InMemoryStorage.update_portfolio_position symbol dq p w = (Return tt, w)).
Proof.
  split.
  - intros w symbol dq p h Hget. split; [|split].
    + destruct (update_portfolio_position_total w symbol dq p) as [d ->]. reflexivity.
    + intros Hz. split; [now apply update_position_zero|].
      unfold exec. rewrite (update_portfolio_position_exhaust _ _ _ _ _ Hget Hz). cbn.
      apply DictFacts.get_del_eq.
    + intros Hneg.
      assert (PortfolioHolding.quantity h + dq <> 0)%Z as Hnz by lia.
      destruct (update_portfolio_position_adjust _ _ _ p _ Hget Hnz) as [avg [Havg Hrun]].
      exists avg. eexists. unfold exec. rewrite Hrun. cbn.
      rewrite DictFacts.get_set_eq. repeat split; [assumption | reflexivity..].
  - intros w symbol dq p Hnone Hle. now apply update_portfolio_position_unheld.
Qed.

(** Ten TCS bought at 100, then a delta of -20 at 100. *)
Lemma position_through_zero_witness :
  fst (InMemoryStorage.update_portfolio_position "TCS" (-20) (Dec.of_int 100) world_tcs_10)
  = Return tt
  /\ ((10 + -20 = 0)%Z ->
      PortfolioHolding.update_position
        (PortfolioHolding.mk "TCS" 10 (Dec.of_int 100) (Dec.mk 3450250 (-2)))
        (-20) (Dec.of_int 100) (marking_price "TCS" (Dec.of_int 100) world_tcs_10)
      = (Return tt, PortfolioHolding.mk "TCS" 0 (Dec.of_int 0) (Dec.of_int 0))
      /\ Dict.get "TCS"
           (_portfolio
              (exec (InMemoryStorage.update_portfolio_position "TCS" (-20) (Dec.of_int 100))
                 world_tcs_10))
         = None)
  /\ ((10 + -20 < 0)%Z ->
      exists avg h',
        weighted_average 10 (Dec.of_int 100) (-20) (Dec.of_int 100) = inr avg
        /\ Dict.get "TCS"
             (_portfolio
                (exec (InMemoryStorage.update_portfolio_position "TCS" (-20) (Dec.of_int 100))
                   world_tcs_10))
           = Some h'
        /\ PortfolioHolding.quantity h' = (10 + -20)%Z
        /\ PortfolioHolding.average_price h' = avg).
Proof.
  apply (proj1 position_through_zero world_tcs_10 "TCS" (-20)%Z (Dec.of_int 100)
           (PortfolioHolding.mk "TCS" 10 (Dec.of_int 100) (Dec.mk 3450250 (-2)))).
  vm_compute. reflexivity.
Defined.

(** C5 as stated fails: ten TCS held at an average price of 100, a delta
    of -20 at 100 crosses zero; the store then holds a position of -10
    whose average price is 100, not zero. *)
Lemma position_through_zero_counterexample :
  Dict.get "TCS" (_portfolio world_tcs_10)
  = Some (PortfolioHolding.mk "TCS" 10 (Dec.of_int 100) (Dec.mk 3450250 (-2)))
  /\ (10 + -20 < 0)%Z
  /\ Dict.get "TCS"
       (_portfolio
          (exec (InMemoryStorage.update_portfolio_position "TCS" (-20) (Dec.of_int 100))
             world_tcs_10))
     = Some (PortfolioHolding.mk "TCS" (-10) (Dec.of_int 100) (Dec.mk (-3450250) (-2)))
  /\ Dec.eqb (Dec.of_int 100) (Dec.of_int 0) = false.
Proof. vm_compute. repeat split. Qed.

(** C8.  A delta whose resulting quantity is exactly zero removes the
    holding; after the operation the touched symbol has no holding of
    quantity zero, and a store without zero-quantity holdings stays so
    (so no run of deltas from an empty portfolio ever stores one); the
    exhausted symbol is absent from the next snapshot and from the store
    it leaves. *)
Theorem exhausted_holding_removed :
  forall w symbol dq p,
    (forall h, Dict.get symbol (_portfolio w) = Some h ->
               (PortfolioHolding.quantity h + dq = 0)%Z ->
               Dict.get symbol
                 (_portfolio (exec (InMemoryStorage.update_portfolio_position symbol dq p) w))
               = None)
    /\ (forall h', Dict.get symbol
                     (_portfolio (exec (InMemoryStorage.update_portfolio_position symbol dq p) w))
                   = Some h' ->
                   PortfolioHolding.quantity h' <> 0%Z)
    /\ (no_zero_holding (_portfolio w) ->
        no_zero_holding
          (_portfolio (exec (InMemoryStorage.update_portfolio_position symbol dq p) w)))
    /\ (forall h, portfolio_wf (_portfolio w) ->
                  Dict.get symbol (_portfolio w) = Some h ->
                  (PortfolioHolding.quantity h + dq = 0)%Z ->
                  exists holdings w'',
                    PortfolioService.get_portfolio
                      (exec (InMemoryStorage.update_portfolio_position symbol dq p) w)
                    = (Return holdings, w'')
                    /\ (forall h', In h' holdings -> PortfolioHolding.symbol h' <> symbol)
                    /\ Dict.get symbol (_portfolio w'') = None)
    /\ (forall deltas, _portfolio w = Dict.empty ->
                       no_zero_holding (_portfolio (apply_deltas deltas w))).
Proof.
  intros w symbol dq p. split; [|split; [|split; [|split]]]; cycle 4.
  - intros deltas Hempty. apply apply_deltas_no_zero. rewrite Hempty. constructor.
  - intros h Hget Hz. unfold exec.
    rewrite (update_portfolio_position_exhaust _ _ _ _ _ Hget Hz). cbn.
    apply DictFacts.get_del_eq.
  - apply update_portfolio_position_touched.
  - apply update_portfolio_position_no_zero.
  - intros h Hwf Hget Hz.
    pose proof (update_portfolio_position_wf w symbol dq p Hwf) as Hwf'.
    assert (Dict.get symbol
              (_portfolio (exec (InMemoryStorage.update_portfolio_position symbol dq p) w))
            = None) as Hgone.
    { unfold exec. rewrite (update_portfolio_position_exhaust _ _ _ _ _ Hget Hz). cbn.
      apply DictFacts.get_del_eq. }
    set (w' := exec (InMemoryStorage.update_portfolio_position symbol dq p) w) in *.
    rewrite (get_portfolio_run w' Hwf'). eexists. eexists. split; [reflexivity|]. split.
    + intros h' Hin Hsym.
      apply list_elem_of_In, list_elem_of_omap in Hin as (h0 & Hin0 & Hentry).
      apply list_elem_of_In in Hin0. unfold Dict.values in Hin0.
      apply in_map_iff in Hin0 as ([k h1] & Hsnd & Hin1). cbn in Hsnd. subst h1.
      assert (PortfolioHolding.symbol h0 = k) as Hk.
      { destruct Hwf' as [_ Hall]. exact (proj1 (List.Forall_forall _ _) Hall _ Hin1). }
      assert (PortfolioHolding.symbol h' = PortfolioHolding.symbol h0) as Hsame.
      { unfold snapshot_entry in Hentry.
        destruct (live_price (PortfolioHolding.symbol h0) w'); [|discriminate].
        now injection Hentry as <-. }
      apply (DictFacts.get_None_keys _ _ Hgone).
      apply (DictFacts.In_keys _ _ h0). congruence.
    + cbn. rewrite get_map_values, Hgone. reflexivity.
Qed.

(** Selling the whole position of 100 TCS. *)
Lemma exhausted_holding_removed_witness :
  Dict.get "TCS"
    (_portfolio
       (exec (InMemoryStorage.update_portfolio_position "TCS" (-100) (Dec.of_int 3100))
          world_tcs_100))
  = None.
Proof.
  apply (proj1 (exhausted_holding_removed world_tcs_100 "TCS" (-100)%Z (Dec.of_int 3100))
           (PortfolioHolding.mk "TCS" 100 (Dec.of_int 3000) (Dec.mk 34502500 (-2)))).
  - vm_compute. reflexivity.
  - vm_compute. reflexivity.
Defined.

(** ** The portfolio snapshot *)

(** What [get_portfolio] computes, holding by holding.  For every stored
    holding whose symbol has an instrument it does what its docstring
    promises: the holding is returned marked to the live price
    (current_value = quantity times last traded price) and that entry is
    stored before returning.  The [append] sits under the guard
    [if instrument:], though, and the guard has no [else]: a holding whose
    symbol has no instrument drops out of the result.  The catalog is not
    touched. *)
Theorem snapshot_marks_to_market :
  forall w,
    portfolio_wf (_portfolio w) ->
    exists holdings w',
      PortfolioService.get_portfolio w = (Return holdings, w')
      /\ holdings = omap (snapshot_entry w) (Dict.values (_portfolio w))
      /\ _instruments w' = _instruments w
      /\ (forall symbol h,
             Dict.get symbol (_portfolio w) = Some h ->
             match live_price symbol w with
             | Some P =>
                 In (marked_to P h) holdings
                 /\ Dict.get symbol (_portfolio w') = Some (marked_to P h)
                 /\ PortfolioHolding.current_value (marked_to P h)
                    = PortfolioHolding.int_mul (PortfolioHolding.quantity h) P
             | None =>
                 (forall h', In h' holdings -> PortfolioHolding.symbol h' <> symbol)
                 /\ Dict.get symbol (_portfolio w') = Some h
             end).
Proof.
  intros w Hwf. rewrite (get_portfolio_run w Hwf).
  eexists. eexists. split; [reflexivity|]. split; [reflexivity|]. split; [reflexivity|].
  intros symbol h Hget.
  pose proof (portfolio_wf_get _ _ _ Hwf Hget) as Hsym.
  cbn [_portfolio set_portfolio]. rewrite get_map_values, Hget. cbn [option_map].
  unfold after_snapshot.
  destruct (live_price symbol w) as [P|] eqn:Hlive.
  - assert (snapshot_entry w h = Some (marked_to P h)) as Hentry.
    { unfold snapshot_entry. now rewrite Hsym, Hlive. }
    rewrite Hentry. repeat split.
    apply list_elem_of_In, list_elem_of_omap. exists h. split; [|assumption].
    apply list_elem_of_In. unfold Dict.values. apply in_map_iff.
    exists (symbol, h). split; [reflexivity|]. now apply DictFacts.get_Some_In.
  - assert (snapshot_entry w h = None) as Hentry.
    { unfold snapshot_entry. now rewrite Hsym, Hlive. }
    rewrite Hentry. split; [|reflexivity].
    intros h' Hin Heq.
    apply list_elem_of_In, list_elem_of_omap in Hin as (h0 & _ & Hentry0).
    unfold snapshot_entry in Hentry0.
    destruct (live_price (PortfolioHolding.symbol h0) w) as [P0|] eqn:Hlive0; [|discriminate].
    injection Hentry0 as <-. cbn in Heq. congruence.
Qed.

(** The snapshot of a position of 100 TCS. *)
Lemma snapshot_marks_to_market_witness :
  exists holdings w',
    PortfolioService.get_portfolio world_tcs_100 = (Return holdings, w')
    /\ holdings = omap (snapshot_entry world_tcs_100) (Dict.values (_portfolio world_tcs_100))
    /\ _instruments w' = _instruments world_tcs_100
    /\ (forall symbol h,
           Dict.get symbol (_portfolio world_tcs_100) = Some h ->
           match live_price symbol world_tcs_100 with
           | Some P =>
               In (marked_to P h) holdings
               /\ Dict.get symbol (_portfolio w') = Some (marked_to P h)
               /\ PortfolioHolding.current_value (marked_to P h)
                  = PortfolioHolding.int_mul (PortfolioHolding.quantity h) P
           | None =>
               (forall h', In h' holdings -> PortfolioHolding.symbol h' <> symbol)
               /\ Dict.get symbol (_portfolio w') = Some h
           end).
Proof.
  apply (snapshot_marks_to_market world_tcs_100).
  split.
  - unfold unique_keys. vm_compute. apply NoDup_singleton.
  - vm_compute. repeat constructor.
Defined.

(** C6, a defect of [get_portfolio].  After a limit order on NOPE, a
    symbol without an instrument, the store holds 10 NOPE:
    [get_portfolio_holdings], which the health check counts, lists the
    holding and [get_holding] returns it, but [get_portfolio], whose
    docstring says "Get all current portfolio holdings", returns the empty
    list. *)
Theorem snapshot_omits_unlisted_holding :
  Dict.get "NOPE" (_portfolio world_unlisted)
  = Some (PortfolioHolding.mk "NOPE" 10 (Dec.of_int 5) (Dec.of_int 50))
  /\ live_price "NOPE" world_unlisted = None
  /\ fst (InMemoryStorage.get_portfolio_holdings world_unlisted)
     = Return [PortfolioHolding.mk "NOPE" 10 (Dec.of_int 5) (Dec.of_int 50)]
  /\ fst (PortfolioService.get_holding "NOPE" world_unlisted)
     = Return (Some (PortfolioHolding.mk "NOPE" 10 (Dec.of_int 5) (Dec.of_int 50)))
  /\ fst (PortfolioService.get_portfolio world_unlisted) = Return []
  /\ Dict.get "NOPE" (_portfolio (exec PortfolioService.get_portfolio world_unlisted))
     = Some (PortfolioHolding.mk "NOPE" 10 (Dec.of_int 5) (Dec.of_int 50)).
Proof. vm_compute. repeat split. Qed.

(** ** Order objects *)

(** Overwriting statuses changes no other attribute of any object. *)
Lemma heap_alter_status_attr {A} (attr : Order.t -> A) s r h r' :
  (forall o, attr (Order.set_status s o) = attr o) ->
  attr (heap_alter (Order.set_status s) r h r') = attr (h r').
Proof.
  intros Hattr. unfold heap_alter. destruct (Nat.eqb r' r); [apply Hattr|reflexivity].
Qed.

Lemma heap_alter_same f r h : heap_alter f r h r = f (h r).
Proof. unfold heap_alter. now rewrite Nat.eqb_refl. Qed.

Lemma heap_alter_other f r h r' : r' <> r -> heap_alter f r h r' = h r'.
Proof.
  intros Hne. unfold heap_alter. now rewrite (proj2 (Nat.eqb_neq r' r) Hne).
Qed.

(** ** TradeService.execute_market_order *)

(** The trade an execution of [order] at [execution_price] creates in [w]. *)
Lemma Trade_create_run order execution_price w :
  Trade_create order execution_price w
  = (Return (Trade.mk (uuid4_oracle w (uuid4_calls w)) (Order.id (heap w order))
               (Order.symbol (heap w order)) (Order.quantity (heap w order))
               execution_price (now_oracle w (now_calls w))),
     set_now_calls (S (now_calls w)) (set_uuid4_calls (S (uuid4_calls w)) w)).
Proof. reflexivity. Qed.

Lemma quantity_change_of_signed o :
  TradeService.quantity_change_of (Order.order_type o) (Order.quantity o) = signed_quantity o.
Proof. unfold signed_quantity. now destruct (Order.order_type o). Qed.

(** [update_portfolio_position] reads the catalog and the portfolio only. *)
Lemma update_portfolio_position_frame w1 w2 symbol dq p :
  _instruments w1 = _instruments w2 ->
  _portfolio w1 = _portfolio w2 ->
  _portfolio (exec (InMemoryStorage.update_portfolio_position symbol dq p) w1)
  = _portfolio (exec (InMemoryStorage.update_portfolio_position symbol dq p) w2).
Proof.
  intros Hi Hp. unfold exec, InMemoryStorage.update_portfolio_position.
  rewrite Hi, Hp.
  destruct (Dict.get symbol (_portfolio w2)) as [h|].
  - destruct (PortfolioHolding.update_position _ _ _ _) as [[[]|e] h']; cbn;
      [|reflexivity].
    destruct (PortfolioHolding.quantity h' =? 0)%Z; reflexivity.
  - destruct (dq >? 0)%Z; cbn; [reflexivity|assumption].
Qed.

(** What [settle] does, step by step. *)
Lemma settle_run order execution_price w :
  let o := heap w order in
  let trade := fill order execution_price w in
  exists w',
    settle order execution_price w = (Return trade, w')
    /\ _trades w' = Dict.set (Trade.id trade) trade (_trades w)
    /\ _orders w' = _orders w
    /\ _instruments w' = _instruments w
    /\ heap w' = match Dict.get (Order.id o) (_orders w) with
                 | Some stored => heap_alter (Order.set_status EXECUTED) stored (heap w)
                 | None => heap w
                 end
    /\ _portfolio w'
       = _portfolio
           (exec (InMemoryStorage.update_portfolio_position (Order.symbol o)
                    (signed_quantity o) execution_price) w)
    /\ stdout w' = stdout w.
Proof.
  intros o trade. unfold settle.
  unfold bind at 1. rewrite Trade_create_run. fold trade.
  unfold bind at 1, InMemoryStorage.save_trade at 1, modify at 1.
  unfold bind at 1, getattr at 1, gets at 1.
  unfold bind at 1, InMemoryStorage.update_order_status at 1.
  cbn [heap _orders set_trades set_now_calls set_uuid4_calls set_heap].
  set (w1 := set_trades _ _).
  set (w2 := match Dict.get (Order.id o) (_orders w) with
             | Some stored => set_heap (heap_alter (Order.set_status EXECUTED) stored (heap w)) w1
             | None => w1
             end).
  assert (Order.quantity (heap w2 order) = Order.quantity o
          /\ Order.order_type (heap w2 order) = Order.order_type o
          /\ Order.symbol (heap w2 order) = Order.symbol o) as (Hq & Ht & Hs).
  { unfold w2. destruct (Dict.get (Order.id o) (_orders w)); cbn;
      [|now repeat split].
    repeat split; now apply heap_alter_status_attr. }
  assert (stdout w2 = stdout w) as Hout
      by (unfold w2; now destruct (Dict.get (Order.id o) (_orders w))).
  assert (_instruments w2 = _instruments w /\ _portfolio w2 = _portfolio w
          /\ _trades w2 = Dict.set (Trade.id trade) trade (_trades w)
          /\ _orders w2 = _orders w
          /\ heap w2 = match Dict.get (Order.id o) (_orders w) with
                       | Some stored => heap_alter (Order.set_status EXECUTED) stored (heap w)
                       | None => heap w
                       end) as (Hi & Hp & Htr & Ho & Hh).
  { unfold w2. destruct (Dict.get (Order.id o) (_orders w)); now repeat split. }
  change (Order.id (heap w order)) with (Order.id o).
  replace (match Dict.get (Order.id o) (_orders w) with
           | Some order0 =>
               (Return true,
                set_heap (heap_alter (Order.set_status EXECUTED) order0 (heap w)) w1)
           | None => (Return false, w1)
           end)
    with (Return (negb (is_None (Dict.get (Order.id o) (_orders w)))), w2)
    by (unfold w2; now destruct (Dict.get (Order.id o) (_orders w))).
  unfold bind, getattr, gets, ret.
  rewrite Hq, Ht, Hs, quantity_change_of_signed.
  destruct (update_portfolio_position_total w2 (Order.symbol o) (signed_quantity o)
              execution_price) as [d Hrun].
  rewrite Hrun. eexists. split; [reflexivity|].
  cbn [_trades _orders _instruments heap _portfolio set_portfolio stdout].
  repeat split; try assumption.
  rewrite <- (update_portfolio_position_frame w2 w _ _ _ Hi Hp).
  unfold exec. now rewrite Hrun.
Qed.

Lemma execute_market_order_settles w order ins :
  Order.order_style (heap w order) = MARKET ->
  Dict.get (Order.symbol (heap w order)) (_instruments w) = Some ins ->
  TradeService.execute_market_order order w
  = settle order (Instrument.last_traded_price ins) w.
Proof.
  intros Hstyle Hins. unfold TradeService.execute_market_order.
  unfold bind at 1, getattr at 1, gets at 1. rewrite Hstyle. cbn [OrderStyle_eqb negb].
  unfold bind at 1, getattr at 1, gets at 1.
  unfold bind at 1, InMemoryStorage.get_instrument at 1, gets at 1.
  rewrite Hins. reflexivity.
Qed.

Lemma execute_market_order_raises w order :
  Order.order_style (heap w order) <> MARKET
  \/ Dict.get (Order.symbol (heap w order)) (_instruments w) = None ->
  exists msg, TradeService.execute_market_order order w = (Raise (ValueError msg), w).
Proof.
  intros H. unfold TradeService.execute_market_order.
  unfold bind at 1, getattr at 1, gets at 1.
  destruct (Order.order_style (heap w order)) eqn:Hstyle; cbn [OrderStyle_eqb negb].
  - destruct H as [H|H]; [congruence|].
    unfold bind at 1, getattr at 1, gets at 1.
    unfold bind at 1, InMemoryStorage.get_instrument at 1, gets at 1.
    rewrite H. unfold bind, getattr, gets, raise. eauto.
  - unfold raise. eauto.
Qed.

Lemma execute_limit_order_settles w order market_price L :
  Order.order_style (heap w order) = LIMIT ->
  Order.price (heap w order) = Some L ->
  limit_eligible (Order.order_type (heap w order)) market_price L ->
  TradeService.execute_limit_order order market_price w
  = (trade <- settle order L ;; ret (Some trade)) w.
Proof.
  intros Hstyle Hprice Helig. unfold TradeService.execute_limit_order.
  unfold bind at 1, getattr at 1, gets at 1.
  unfold bind at 1, getattr at 1, gets at 1.
  rewrite Hstyle, Hprice. cbn [OrderStyle_eqb negb].
  unfold bind at 1, getattr at 1, gets at 1.
  assert ((if String.eqb (OrderType_value (Order.order_type (heap w order))) "BUY"
              && Dec.leb market_price L
           then true
           else if String.eqb (OrderType_value (Order.order_type (heap w order))) "SELL"
                   && Dec.leb L market_price
                then true else false) = true) as ->.
  { destruct Helig as [[-> ->]|[-> ->]]; reflexivity. }
  cbn [negb].
  unfold settle, bind, getattr, gets, ret, InMemoryStorage.save_trade, modify,
    InMemoryStorage.update_order_status, Trade_create, uuid4, now.
  cbn -[InMemoryStorage.update_portfolio_position Dict.get Dict.set heap_alter].
  destruct (Dict.get (Order.id (heap w order)) (_orders w)) as [stored|];
    cbn -[InMemoryStorage.update_portfolio_position Dict.get Dict.set heap_alter];
    rewrite ?(heap_alter_status_attr Order.order_type) by reflexivity;
    destruct (InMemoryStorage.update_portfolio_position _ _ _ _) as [[[]|e] w3];
    reflexivity.
Qed.

Lemma limit_eligible_dec order_type R L :
  limit_eligible order_type R L \/ ~ limit_eligible order_type R L.
Proof.
  unfold limit_eligible. destruct order_type.
  - destruct (Dec.leb R L); [left; now left|right; intros [[_ ?]|[? _]]; discriminate].
  - destruct (Dec.leb L R); [left; now right|right; intros [[? _]|[_ ?]]; discriminate].
Qed.

(** An eligible limit order fills at its limit price. *)
Lemma execute_limit_order_fills w order market_price L :
  Order.order_style (heap w order) = LIMIT ->
  Order.price (heap w order) = Some L ->
  limit_eligible (Order.order_type (heap w order)) market_price L ->
  TradeService.execute_limit_order order market_price w
  = (Return (Some (fill order L w)), exec (settle order L) w).
Proof.
  intros Hstyle Hprice Helig.
  rewrite (execute_limit_order_settles w order market_price L Hstyle Hprice Helig).
  destruct (settle_run order L w) as (w' & Hrun & _).
  unfold bind, exec. now rewrite Hrun.
Qed.

Lemma execute_limit_order_declines w order market_price L :
  Order.order_style (heap w order) = LIMIT ->
  Order.price (heap w order) = Some L ->
  ~ limit_eligible (Order.order_type (heap w order)) market_price L ->
  TradeService.execute_limit_order order market_price w = (Return None, w).
Proof.
  intros Hstyle Hprice Hnot. unfold TradeService.execute_limit_order.
  unfold bind at 1, getattr at 1, gets at 1.
  unfold bind at 1, getattr at 1, gets at 1.
  rewrite Hstyle, Hprice. cbn [OrderStyle_eqb negb].
  unfold bind at 1, getattr at 1, gets at 1.
  unfold limit_eligible in Hnot.
  destruct (Order.order_type (heap w order)); cbn.
  - destruct (Dec.leb market_price L); [exfalso; apply Hnot; now left|reflexivity].
  - destruct (Dec.leb L market_price); [exfalso; apply Hnot; now right|reflexivity].
Qed.

Lemma execute_limit_order_raises w order market_price :
  Order.order_style (heap w order) <> LIMIT \/ Order.price (heap w order) = None ->
  TradeService.execute_limit_order order market_price w
  = (Raise (ValueError "Order must be a limit order with price"), w).
Proof.
  intros H. unfold TradeService.execute_limit_order.
  unfold bind at 1, getattr at 1, gets at 1.
  unfold bind at 1, getattr at 1, gets at 1.
  destruct (Order.price (heap w order)); [|reflexivity].
  destruct (Order.order_style (heap w order)); [reflexivity|].
  destruct H; congruence.
Qed.

(** ** The claims about execution *)

(** C1, as the code has it.  For a MARKET order on a symbol whose instrument
    has live price [P], [execute_market_order] returns a trade with the
    order's id, symbol and quantity and price exactly [P], stored under the
    trade's id; the order stored under the order's id (the order itself
    when it was saved) is EXECUTED; with [d] the quantity for a BUY and its
    negation for a SELL, an existing holding of quantity [q] is removed
    when [q + d = 0] and otherwise has quantity [q + d] and current value
    [(q + d) * P]; without a holding, a holding of quantity [d] and value
    [d * P] is created when [d > 0], and the portfolio is unchanged when
    [d <= 0]. *)
Theorem market_execution_effect :
  forall w order ins,
    Order.order_style (heap w order) = MARKET ->
    Dict.get (Order.symbol (heap w order)) (_instruments w) = Some ins ->
    let o := heap w order in
    let P := Instrument.last_traded_price ins in
    let d := signed_quantity o in
    exists trade w',
      TradeService.execute_market_order order w = (Return trade, w')
      /\ Trade.order_id trade = Order.id o
      /\ Trade.symbol trade = Order.symbol o
      /\ Trade.quantity trade = Order.quantity o
      /\ Trade.price trade = P
      /\ Dict.get (Trade.id trade) (_trades w') = Some trade
      /\ (forall stored, Dict.get (Order.id o) (_orders w) = Some stored ->
                         Order.status (heap w' stored) = EXECUTED)
      /\ match Dict.get (Order.symbol o) (_portfolio w) with
         | Some h =>
             ((PortfolioHolding.quantity h + d = 0)%Z ->
              Dict.get (Order.symbol o) (_portfolio w') = None)
             /\ ((PortfolioHolding.quantity h + d <> 0)%Z ->
                 exists h',
                   Dict.get (Order.symbol o) (_portfolio w') = Some h'
                   /\ PortfolioHolding.quantity h' = (PortfolioHolding.quantity h + d)%Z
                   /\ PortfolioHolding.current_value h'
                      = PortfolioHolding.int_mul (PortfolioHolding.quantity h + d) P)
             /\ held_quantity (Order.symbol o) w' = (held_quantity (Order.symbol o) w + d)%Z
         | None =>
             ((0 < d)%Z ->
              exists h',
                Dict.get (Order.symbol o) (_portfolio w') = Some h'
                /\ PortfolioHolding.quantity h' = d
                /\ PortfolioHolding.current_value h' = PortfolioHolding.int_mul d P)
             /\ ((d <= 0)%Z -> _portfolio w' = _portfolio w)
         end.
Proof.
  intros w order ins Hstyle Hins o P d.
  rewrite (execute_market_order_settles w order ins Hstyle Hins).
  destruct (settle_run order P w) as (w' & Hrun & Htr & Ho & Hi & Hh & Hp & _).
  fold o in Hh, Hp. fold P. fold d in Hp.
  exists (fill order P w), w'. split; [exact Hrun|].
  assert (marking_price (Order.symbol o) P w = P) as Hmark.
  { unfold marking_price, live_price. fold o in Hins. now rewrite Hins. }
  repeat split.
  - rewrite Htr. apply DictFacts.get_set_eq.
  - intros stored Hstored. rewrite Hh, Hstored, heap_alter_same. reflexivity.
  - destruct (Dict.get (Order.symbol o) (_portfolio w)) as [h|] eqn:Hget.
    + split; [|split].
      * intros Hz. rewrite Hp. unfold exec.
        rewrite (update_portfolio_position_exhaust _ _ _ _ _ Hget Hz). cbn.
        apply DictFacts.get_del_eq.
      * intros Hnz. rewrite Hp. unfold exec.
        destruct (update_portfolio_position_adjust _ _ _ P _ Hget Hnz) as [avg [_ ->]].
        cbn. rewrite DictFacts.get_set_eq, Hmark. eexists. repeat split.
      * unfold held_quantity. rewrite Hget, Hp. unfold exec.
        destruct (Z.eq_dec (PortfolioHolding.quantity h + d) 0)%Z as [Hz|Hnz].
        -- rewrite (update_portfolio_position_exhaust _ _ _ _ _ Hget Hz). cbn.
           rewrite DictFacts.get_del_eq. lia.
        -- destruct (update_portfolio_position_adjust _ _ _ P _ Hget Hnz) as [avg [_ ->]].
           cbn. now rewrite DictFacts.get_set_eq.
    + split.
      * intros Hpos. rewrite Hp. unfold exec.
        rewrite (update_portfolio_position_open _ _ _ _ Hget Hpos). cbn.
        rewrite DictFacts.get_set_eq, Hmark. eexists. repeat split.
      * intros Hle. rewrite Hp. unfold exec.
        now rewrite (update_portfolio_position_unheld _ _ _ _ Hget Hle).
Qed.

(** A BUY MARKET order for 100 TCS executed on an empty portfolio. *)
Lemma market_execution_effect_witness :
  exists trade w',
    TradeService.execute_market_order 0 world_buy_market = (Return trade, w')
    /\ Trade.order_id trade = "uuid-0"
    /\ Trade.symbol trade = "TCS"
    /\ Trade.quantity trade = 100%Z
    /\ Trade.price trade = Dec.mk 345025 (-2)
    /\ Dict.get (Trade.id trade) (_trades w') = Some trade
    /\ (forall stored, Dict.get "uuid-0" (_orders world_buy_market) = Some stored ->
                       Order.status (heap w' stored) = EXECUTED)
    /\ (((0 < 100)%Z ->
         exists h',
           Dict.get "TCS" (_portfolio w') = Some h'
           /\ PortfolioHolding.quantity h' = 100%Z
           /\ PortfolioHolding.current_value h'
              = PortfolioHolding.int_mul 100 (Dec.mk 345025 (-2)))
        /\ ((100 <= 0)%Z -> _portfolio w' = _portfolio world_buy_market)).
Proof.
  apply (market_execution_effect world_buy_market 0
           (Instrument.mk "TCS" "NSE" STOCK (Dec.mk 345025 (-2)))).
  - vm_compute. reflexivity.
  - vm_compute. reflexivity.
Defined.

(** C1 as stated fails for a SELL of a symbol that is not held: the order
    for 50 TCS executes at the live price 3450.25 and ends EXECUTED, but no
    holding is stored, so the position stays 0 instead of dropping by 50. *)
Lemma market_sell_unheld_counterexample :
  Order.order_style (heap world_sell_unheld 0) = MARKET
  /\ Order.order_type (heap world_sell_unheld 0) = SELL
  /\ live_price "TCS" world_sell_unheld = Some (Dec.mk 345025 (-2))
  /\ fst (TradeService.execute_market_order 0 world_sell_unheld)
     = Return (Trade.mk "uuid-1" "uuid-0" "TCS" 50 (Dec.mk 345025 (-2)) 1700000001%Z)
  /\ Order.status (heap (exec (TradeService.execute_market_order 0) world_sell_unheld) 0)
     = EXECUTED
  /\ held_quantity "TCS" world_sell_unheld = 0%Z
  /\ held_quantity "TCS" (exec (TradeService.execute_market_order 0) world_sell_unheld) = 0%Z
  /\ _portfolio (exec (TradeService.execute_market_order 0) world_sell_unheld) = Dict.empty
  /\ (0 =? 0 - 50)%Z = false.
Proof. vm_compute. repeat split. Qed.



(** The boundary of the rule, for the limit price 3500.00: a BUY fills at
    3500.00 and 3499.99 and not at 3500.01; a SELL fills at 3500.00 and
    3500.01 and not at 3499.99. *)
Lemma limit_boundary :
  fst (TradeService.execute_limit_order 0 (Dec.mk 350000 (-2)) world_buy_limit)
  = Return (Some (fill 0 (Dec.mk 350000 (-2)) world_buy_limit))
  /\ fst (TradeService.execute_limit_order 0 (Dec.mk 349999 (-2)) world_buy_limit)
     = Return (Some (fill 0 (Dec.mk 350000 (-2)) world_buy_limit))
  /\ TradeService.execute_limit_order 0 (Dec.mk 350001 (-2)) world_buy_limit
     = (Return None, world_buy_limit)
  /\ fst (TradeService.execute_limit_order 0 (Dec.mk 350000 (-2)) world_sell_limit)
     = Return (Some (fill 0 (Dec.mk 350000 (-2)) world_sell_limit))
  /\ fst (TradeService.execute_limit_order 0 (Dec.mk 350001 (-2)) world_sell_limit)
     = Return (Some (fill 0 (Dec.mk 350000 (-2)) world_sell_limit))
  /\ TradeService.execute_limit_order 0 (Dec.mk 349999 (-2)) world_sell_limit
     = (Return None, world_sell_limit).
Proof. repeat split. Qed.

(** C10.  [execute_limit_order] raises iff the order is not LIMIT-style or
    has no price.  It never consults the catalog: an eligible LIMIT order
    on a symbol without instrument yields a trade at the limit price [L],
    and the position is marked to [L], the trade price. *)
Theorem limit_execution_ignores_catalog :
  forall w order R,
    let o := heap w order in
    ((exists e w', TradeService.execute_limit_order order R w = (Raise e, w'))
     <-> (Order.order_style o <> LIMIT \/ Order.price o = None))
    /\ (forall L,
           Order.order_style o = LIMIT ->
           Order.price o = Some L ->
           limit_eligible (Order.order_type o) R L ->
           Dict.get (Order.symbol o) (_instruments w) = None ->
           exists trade w',
             TradeService.execute_limit_order order R w = (Return (Some trade), w')
             /\ Trade.price trade = L
             /\ marking_price (Order.symbol o) L w = L
             /\ _portfolio w'
                = _portfolio
                    (exec (InMemoryStorage.update_portfolio_position (Order.symbol o)
                             (signed_quantity o) L) w)
             /\ match Dict.get (Order.symbol o) (_portfolio w) with
                | Some h =>
                    (PortfolioHolding.quantity h + signed_quantity o <> 0)%Z ->
                    exists h',
                      Dict.get (Order.symbol o) (_portfolio w') = Some h'
                      /\ PortfolioHolding.current_value h'
                         = PortfolioHolding.int_mul
                             (PortfolioHolding.quantity h + signed_quantity o) L
                | None =>
                    (0 < signed_quantity o)%Z ->
                    exists h',
                      Dict.get (Order.symbol o) (_portfolio w') = Some h'
                      /\ PortfolioHolding.current_value h'
                         = PortfolioHolding.int_mul (signed_quantity o) L
                end).
Proof.
  intros w order R o. split.
  - split.
    + intros (e & w' & Hrun).
      destruct (Order.order_style o) eqn:Hstyle; [left; discriminate|].
      destruct (Order.price o) as [L|] eqn:Hprice; [|now right].
      exfalso.
      destruct (limit_eligible_dec (Order.order_type o) R L) as [Helig|Hnot].
      * rewrite (execute_limit_order_fills w order R L Hstyle Hprice Helig) in Hrun.
        discriminate.
      * rewrite (execute_limit_order_declines w order R L Hstyle Hprice Hnot) in Hrun.
        discriminate.
    + intros H. rewrite (execute_limit_order_raises w order R H). eauto.
  - intros L Hstyle Hprice Helig Hnoinst.
    rewrite (execute_limit_order_settles w order R L Hstyle Hprice Helig).
    destruct (settle_run order L w) as (w' & Hrun & _ & _ & _ & _ & Hp & _).
    fold o in Hp. unfold bind. rewrite Hrun.
    assert (marking_price (Order.symbol o) L w = L) as Hmark.
    { unfold marking_price, live_price. now rewrite Hnoinst. }
    eexists. eexists. split; [reflexivity|]. split; [reflexivity|].
    split; [exact Hmark|]. split; [exact Hp|].
    destruct (Dict.get (Order.symbol o) (_portfolio w)) as [h|] eqn:Hget.
    + intros Hnz. rewrite Hp. unfold exec.
      destruct (update_portfolio_position_adjust _ _ _ L _ Hget Hnz) as [avg [_ ->]].
      cbn. rewrite DictFacts.get_set_eq, Hmark. eexists. split; reflexivity.
    + intros Hpos. rewrite Hp. unfold exec.
      rewrite (update_portfolio_position_open _ _ _ _ Hget Hpos). cbn.
      rewrite DictFacts.get_set_eq, Hmark. eexists. split; reflexivity.
Qed.

(** The limit order on NOPE, a symbol without instrument, at reference price 5. *)
Lemma limit_execution_ignores_catalog_witness :
  exists trade w',
    TradeService.execute_limit_order 0 (Dec.of_int 5) world_limit_unlisted
    = (Return (Some trade), w')
    /\ Trade.price trade = Dec.of_int 5
    /\ marking_price "NOPE" (Dec.of_int 5) world_limit_unlisted = Dec.of_int 5
    /\ _portfolio w'
       = _portfolio
           (exec (InMemoryStorage.update_portfolio_position "NOPE" 10 (Dec.of_int 5))
              world_limit_unlisted)
    /\ ((0 < 10)%Z ->
        exists h',
          Dict.get "NOPE" (_portfolio w') = Some h'
          /\ PortfolioHolding.current_value h' = PortfolioHolding.int_mul 10 (Dec.of_int 5)).
Proof.
  apply (proj2 (limit_execution_ignores_catalog world_limit_unlisted 0 (Dec.of_int 5))
           (Dec.of_int 5)).
  - vm_compute. reflexivity.
  - vm_compute. reflexivity.
  - left. vm_compute. split; reflexivity.
  - vm_compute. reflexivity.
Defined.

(** ** Order status *)

(** C9.  [update_order_status] on a stored id overwrites the status of the
    stored order with the target, whatever the status was, touches nothing
    else and returns true; on an id that is not stored it returns false and
    changes nothing. *)
Theorem update_status_unconditional :
  forall w order_id status,
    match Dict.get order_id (_orders w) with
    | Some stored =>
        exists w',
          OrderService.update_order_status order_id status w = (Return true, w')
          /\ heap w' stored = Order.set_status status (heap w stored)
          /\ Order.status (heap w' stored) = status
          /\ (forall r, r <> stored -> heap w' r = heap w r)
          /\ w' = set_heap (heap w') w
    | None =>
        OrderService.update_order_status order_id status w = (Return false, w)
    end
    /\ (fst (OrderService.update_order_status order_id status w) = Return false
        <-> Dict.get order_id (_orders w) = None).
Proof.
  intros w order_id status.
  unfold OrderService.update_order_status, InMemoryStorage.update_order_status.
  destruct (Dict.get order_id (_orders w)) as [stored|].
  - split.
    + eexists. split; [reflexivity|]. cbn. repeat split.
      * apply heap_alter_same.
      * now rewrite heap_alter_same.
      * intros r Hne. now apply heap_alter_other.
    + cbn. split; discriminate.
  - split; [reflexivity|]. cbn. split; reflexivity.
Qed.

(** An EXECUTED order forced back to NEW, and a CANCELLED one to PLACED. *)
Lemma update_status_leaves_terminal_states :
  Order.status (heap world_unlisted 0) = EXECUTED
  /\ OrderService.update_order_status "uuid-0" NEW world_unlisted
     = (Return true,
        set_heap (heap_alter (Order.set_status NEW) 0 (heap world_unlisted)) world_unlisted)
  /\ Order.status
       (heap (exec (OrderService.update_order_status "uuid-0" NEW) world_unlisted) 0) = NEW
  /\ Order.status
       (heap (exec (OrderService.update_order_status "uuid-0" CANCELLED ;;;
                    OrderService.update_order_status "uuid-0" PLACED) world_unlisted) 0)
     = PLACED
  /\ OrderService.update_order_status "missing" NEW world_unlisted
     = (Return false, world_unlisted).
Proof. repeat split. Qed.

(** ** OrderService.place_order *)

Lemma validate_order_request_run req w :
  OrderService._validate_order_request req w = (Return tt, w)
  \/ exists e, OrderService._validate_order_request req w = (Raise e, w).
Proof.
  unfold OrderService._validate_order_request, bind, when, raise, ret,
    InMemoryStorage.get_instrument, gets.
  destruct (OrderRequest.quantity req <=? 0)%Z; [eauto|].
  destruct (OrderRequest.order_style req), (OrderRequest.price req) as [price|];
    cbn [OrderStyle_eqb is_None andb]; eauto;
    try destruct (Dec.leb price (Dec.of_int 0)); eauto;
    destruct (Dict.get (OrderRequest.symbol req) (_instruments w)); eauto.
Qed.

(** Once validation has passed, [place_order] returns. *)
Lemma place_order_after_validation req w :
  OrderService._validate_order_request req w = (Return tt, w) ->
  exists order w', OrderService.place_order req w = (Return order, w').
Proof.
  intros Hval. unfold OrderService.place_order.
  unfold bind at 1. rewrite Hval.
  unfold bind at 1, Order_create at 1, bind, uuid4, now, setattr_status, modify,
    InMemoryStorage.save_order, getattr, gets, ret.
  cbn -[TradeService.execute_market_order Dict.set].
  match goal with
  | |- context [if ?b then _ else _] => destruct b
  end.
  - unfold OrderService._execute_market_order, try_except, bind, ret.
    destruct (TradeService.execute_market_order _ _) as [[trade|e] w']; eauto.
  - eauto.
Qed.

(** C4, as the code has it.  A request with [quantity <= 0] fails with the
    quantity validation error whatever its other fields; a LIMIT request
    without price fails with a validation error, which is the one about the
    missing price when the quantity is positive; and whenever [place_order]
    raises, the state is exactly as before: no order is stored. *)
Theorem place_order_validation :
  forall req w,
    ((OrderRequest.quantity req <= 0)%Z ->
     OrderService.place_order req w
     = (Raise (OrderValidationError "Order quantity must be greater than zero"), w))
    /\ (OrderRequest.order_style req = LIMIT ->
        OrderRequest.price req = None ->
        (exists message,
            OrderService.place_order req w = (Raise (OrderValidationError message), w))
        /\ ((0 < OrderRequest.quantity req)%Z ->
            OrderService.place_order req w
            = (Raise (OrderValidationError "Price is required for limit orders"), w)
            /\ str_contains "Price" "Price is required for limit orders" = true))
    /\ (forall e w', OrderService.place_order req w = (Raise e, w') -> w' = w).
Proof.
  intros req w.
  assert (forall e, OrderService._validate_order_request req w = (Raise e, w) ->
                    OrderService.place_order req w = (Raise e, w)) as Hfail.
  { intros e He. unfold OrderService.place_order. unfold bind at 1. now rewrite He. }
  assert ((OrderRequest.quantity req <= 0)%Z ->
          OrderService._validate_order_request req w
          = (Raise (OrderValidationError "Order quantity must be greater than zero"), w))
    as Hqty.
  { intros Hle. unfold OrderService._validate_order_request, bind, when, raise.
    now rewrite (proj2 (Z.leb_le _ _) Hle). }
  assert (OrderRequest.order_style req = LIMIT -> OrderRequest.price req = None ->
          (0 < OrderRequest.quantity req)%Z ->
          OrderService._validate_order_request req w
          = (Raise (OrderValidationError "Price is required for limit orders"), w))
    as Hprice.
  { intros Hstyle Hnone Hpos. unfold OrderService._validate_order_request, bind, when, raise, ret.
    rewrite (proj2 (Z.leb_gt _ _) Hpos), Hstyle, Hnone. reflexivity. }
  split; [|split].
  - intros Hle. apply Hfail, Hqty, Hle.
  - intros Hstyle Hnone. split.
    + destruct (Z.le_gt_cases (OrderRequest.quantity req) 0)%Z as [Hle|Hgt].
      * eexists. apply Hfail, Hqty, Hle.
      * eexists. apply Hfail, Hprice; [assumption..|lia].
    + intros Hpos. split; [|reflexivity]. now apply Hfail, Hprice.
  - intros e w' Hrun.
    destruct (validate_order_request_run req w) as [Hok|[e0 He0]].
    + destruct (place_order_after_validation req w Hok) as (order & w'' & Hplaced).
      congruence.
    + rewrite (Hfail e0 He0) in Hrun. congruence.
Qed.

(** A LIMIT request for 100 TCS without price. *)
Lemma place_order_validation_witness :
  (exists message,
      OrderService.place_order (OrderRequest.mk "TCS" BUY LIMIT 100 None) world0
      = (Raise (OrderValidationError message), world0))
  /\ ((0 < 100)%Z ->
      OrderService.place_order (OrderRequest.mk "TCS" BUY LIMIT 100 None) world0
      = (Raise (OrderValidationError "Price is required for limit orders"), world0)
      /\ str_contains "Price" "Price is required for limit orders" = true).
Proof.
  apply (proj1 (proj2 (place_order_validation
                         (OrderRequest.mk "TCS" BUY LIMIT 100 None) world0)));
    reflexivity.
Defined.

(** C4 as stated fails for a LIMIT request without price whose quantity is
    not positive: the quantity check comes first, and its message does not
    mention the price. *)
Lemma place_order_validation_counterexample :
  OrderService.place_order (OrderRequest.mk "TCS" BUY LIMIT 0 None) world0
  = (Raise (OrderValidationError "Order quantity must be greater than zero"), world0)
  /\ str_contains "rice" "Order quantity must be greater than zero" = false.
Proof. split; reflexivity. Qed.

(** ** TradeService.simulate_market_execution *)

Lemma same_order_attrs a b :
  same_order a b ->
  Order.id a = Order.id b /\ Order.symbol a = Order.symbol b
  /\ Order.order_type a = Order.order_type b /\ Order.order_style a = Order.order_style b
  /\ Order.quantity a = Order.quantity b /\ Order.price a = Order.price b.
Proof.
  unfold same_order, Order.set_status. intros H. injection H. intros. now repeat split.
Qed.

Lemma same_order_set_status s a b : same_order a b -> same_order (Order.set_status s a) b.
Proof. unfold same_order. intros <-. reflexivity. Qed.

Lemma sweep_inv_refl w : sweep_inv w w.
Proof. now repeat split. Qed.

(** One turn of the sweep loop on an order that was MARKET-style at the start. *)
Lemma simulate_body_run w0 w acc order :
  sweep_inv w0 w ->
  Order.order_style (heap w0 order) = MARKET ->
  match live_price (Order.symbol (heap w0 order)) w0 with
  | Some P =>
      exists trade w',
        TradeService.simulate_body acc order w = (Return (acc ++ [trade]), w')
        /\ trade_facts trade
           = (Order.id (heap w0 order), Order.symbol (heap w0 order),
              Order.quantity (heap w0 order), P)
        /\ sweep_inv w0 w'
        /\ stdout w' = stdout w
        /\ heap w' = match Dict.get (Order.id (heap w0 order)) (_orders w0) with
                     | Some stored => heap_alter (Order.set_status EXECUTED) stored (heap w)
                     | None => heap w
                     end
  | None =>
      exists line,
        TradeService.simulate_body acc order w
        = (Return acc, set_stdout (stdout w ++ [line]) w)
  end.
Proof.
  intros (Hi & Ho & Hh) Hstyle.
  destruct (same_order_attrs _ _ (Hh order)) as (Hid & Hsym & _ & Hsty & Hqty & _).
  unfold live_price, TradeService.simulate_body, try_except.
  rewrite <- Hsym, <- Hi.
  destruct (Dict.get (Order.symbol (heap w order)) (_instruments w)) as [ins|] eqn:Hins.
  - unfold bind at 1.
    rewrite (execute_market_order_settles w order ins); [|congruence|assumption].
    destruct (settle_run order (Instrument.last_traded_price ins) w)
      as (w' & Hrun & Htr & Ho' & Hi' & Hh' & Hp' & Hout).
    rewrite Hrun. unfold ret. eexists. eexists. split; [reflexivity|].
    split; [unfold trade_facts, fill; cbn; congruence|].
    assert (heap w' = match Dict.get (Order.id (heap w0 order)) (_orders w0) with
                      | Some stored => heap_alter (Order.set_status EXECUTED) stored (heap w)
                      | None => heap w
                      end) as Hheap by (now rewrite Hh', Hid, Ho).
    split; [|split; [exact Hout|exact Hheap]].
    split; [congruence|]. split; [congruence|].
    intros r. rewrite Hheap.
    destruct (Dict.get (Order.id (heap w0 order)) (_orders w0)) as [stored|]; [|apply Hh].
    unfold heap_alter. destruct (Nat.eqb r stored); [|apply Hh].
    apply same_order_set_status, Hh.
  - destruct (execute_market_order_raises w order (or_intror Hins)) as [msg Hraise].
    unfold bind at 1. rewrite Hraise.
    unfold bind, getattr, gets, print, modify, ret. eauto.
Qed.

Lemma sweep_inv_print w0 w line :
  sweep_inv w0 w -> sweep_inv w0 (set_stdout (stdout w ++ [line]) w).
Proof. intros (Hi & Ho & Hh). now repeat split. Qed.

(** The sweep loop over orders that were MARKET-style at the start. *)
Lemma simulate_loop w0 targets : forall acc w,
  sweep_inv w0 w ->
  Forall (fun order => Order.order_style (heap w0 order) = MARKET) targets ->
  exists trades w',
    for_each targets acc TradeService.simulate_body w = (Return (acc ++ trades), w')
    /\ List.map trade_facts trades = omap (expected_fill w0) targets
    /\ sweep_inv w0 w'
    /\ (forall r, In r (omap (marked_executed w0) targets) ->
                  Order.status (heap w' r) = EXECUTED)
    /\ (forall r, ~ In r (omap (marked_executed w0) targets) -> heap w' r = heap w r)
    /\ length (stdout w')
       = (length (stdout w) + (length targets - length trades))%nat
    /\ (length trades <= length targets)%nat.
Proof.
  induction targets as [|order targets IH]; intros acc w Hinv Hmarket.
  - exists [], w. rewrite app_nil_r.
    split; [reflexivity|]. split; [reflexivity|]. split; [assumption|].
    split; [intros r []|]. split; [reflexivity|]. cbn [length]. lia.
  - inversion Hmarket as [|? ? Hstyle Hrest]; subst.
    pose proof (simulate_body_run w0 w acc order Hinv Hstyle) as Hstep.
    change (omap (expected_fill w0) (order :: targets))
      with (match expected_fill w0 order with
            | Some f => f :: omap (expected_fill w0) targets
            | None => omap (expected_fill w0) targets
            end).
    change (omap (marked_executed w0) (order :: targets))
      with (match marked_executed w0 order with
            | Some r => r :: omap (marked_executed w0) targets
            | None => omap (marked_executed w0) targets
            end).
    unfold expected_fill, marked_executed. cbn [for_each]. unfold bind at 1.
    destruct (live_price (Order.symbol (heap w0 order)) w0) as [P|].
    + destruct Hstep as (trade & w1 & Hrun & Hfacts & Hinv1 & Hout & Hheap).
      rewrite Hrun.
      destruct (IH (acc ++ [trade]) w1 Hinv1 Hrest)
        as (trades & w' & Hloop & Hmap & Hinv' & Hexec & Hkeep & Hlen & Hle).
      exists (trade :: trades), w'. rewrite Hloop, <- app_assoc. cbn [app].
      split; [reflexivity|]. split; [cbn; now rewrite Hfacts, Hmap|].
      split; [assumption|].
      assert (forall r, Order.status (heap w1 r) = EXECUTED
                        -> ~ In r (omap (marked_executed w0) targets)
                        -> Order.status (heap w' r) = EXECUTED) as Hstay.
      { intros r Hst Hnot. now rewrite (Hkeep r Hnot). }
      assert (forall r, In r (omap (marked_executed w0) targets)
                        \/ ~ In r (omap (marked_executed w0) targets)) as Hdec.
      { intros r. destruct (in_dec Nat.eq_dec r (omap (marked_executed w0) targets)); auto. }
      split; [|split; [|split]].
      * intros r Hin.
        destruct (Hdec r) as [Hlater|Hnot]; [now apply Hexec|].
        destruct (Dict.get (Order.id (heap w0 order)) (_orders w0)) as [stored|];
          [|contradiction].
        destruct Hin as [<-|Hin]; [|contradiction].
        apply Hstay; [|assumption]. now rewrite Hheap, heap_alter_same.
      * intros r Hnot.
        destruct (Dict.get (Order.id (heap w0 order)) (_orders w0)) as [stored|].
        -- rewrite Hkeep by (intros Hin; apply Hnot; now right).
           rewrite Hheap. apply heap_alter_other. intros ->. apply Hnot. now left.
        -- rewrite Hkeep by assumption. now rewrite Hheap.
      * rewrite Hlen, Hout. cbn [length]. lia.
      * cbn [length]. lia.
    + destruct Hstep as (line & Hrun). rewrite Hrun.
      destruct (IH acc (set_stdout (stdout w ++ [line]) w) (sweep_inv_print _ _ _ Hinv) Hrest)
        as (trades & w' & Hloop & Hmap & Hinv' & Hexec & Hkeep & Hlen & Hle).
      exists trades, w'. rewrite Hloop.
      split; [reflexivity|]. split; [assumption|]. split; [assumption|].
      split; [assumption|]. split; [exact Hkeep|]. split.
      * rewrite Hlen. cbn [stdout set_stdout length]. rewrite length_app. cbn [length]. lia.
      * cbn [length]. lia.
Qed.

Lemma omap_cons {A B} (f : A -> option B) (x : A) (l : list A) :
  omap f (x :: l) = match f x with
                    | Some y => y :: omap f l
                    | None => omap f l
                    end.
Proof. reflexivity. Qed.

Lemma is_pending_market_style w order :
  TradeService.is_pending_market w order = true ->
  Order.status (heap w order) = PLACED /\ Order.order_style (heap w order) = MARKET.
Proof.
  unfold TradeService.is_pending_market. intros [Hst Hsty]%andb_true_iff.
  split.
  - now destruct (Order.status (heap w order)).
  - now destruct (Order.order_style (heap w order)).
Qed.

(** With orders stored under their own ids, the object a successful
    attempt marks EXECUTED is the attempted order itself. *)
Lemma marked_executed_self w order :
  orders_wf w ->
  In order (Dict.values (_orders w)) ->
  Dict.get (Order.id (heap w order)) (_orders w) = Some order.
Proof.
  intros [Hnd Hids] Hin. unfold Dict.values in Hin.
  apply in_map_iff in Hin as ([k r] & Hr & Hin). cbn in Hr. subst r.
  pose proof (proj1 (List.Forall_forall _ _) Hids _ Hin) as Hk. cbn in Hk.
  rewrite Hk. now apply DictFacts.In_get.
Qed.

Lemma sweep_targets_stored w order :
  In order (sweep_targets w) -> In order (Dict.values (_orders w)).
Proof. unfold sweep_targets. intros Hin. now apply filter_In in Hin. Qed.

(** C7.  The sweep attempts exactly the stored orders that are PLACED and
    MARKET-style when it starts; it returns, in order, the trades of the
    attempts that succeed (those whose symbol has an instrument), each at
    the live price; an attempt that fails prints one line and the loop goes
    on.  With orders stored under their ids, every attempted order with an
    instrument ends EXECUTED and every other attempted order is left as it
    was.  So for three pending market orders of which the second is on an
    unknown symbol, the sweep returns exactly two trades, the first and
    third orders end EXECUTED and the second stays PLACED. *)
Theorem sweep_isolation :
  (forall w,
      exists trades w',
        TradeService.simulate_market_execution w = (Return trades, w')
        /\ List.map trade_facts trades = omap (expected_fill w) (sweep_targets w)
        /\ (forall r, In r (omap (marked_executed w) (sweep_targets w)) ->
                      Order.status (heap w' r) = EXECUTED)
        /\ (forall r, ~ In r (omap (marked_executed w) (sweep_targets w)) ->
                      heap w' r = heap w r)
        /\ length (stdout w')
           = (length (stdout w) + (length (sweep_targets w) - length trades))%nat
        /\ (orders_wf w ->
            forall order,
              In order (sweep_targets w) ->
              match live_price (Order.symbol (heap w order)) w with
              | Some _ => Order.status (heap w' order) = EXECUTED
              | None => heap w' order = heap w order
              end))
  /\ (forall w r1 r2 r3 P1 P3,
         orders_wf w ->
         Dict.values (_orders w) = [r1; r2; r3] ->
         TradeService.is_pending_market w r1 = true ->
         TradeService.is_pending_market w r2 = true ->
         TradeService.is_pending_market w r3 = true ->
         live_price (Order.symbol (heap w r1)) w = Some P1 ->
         live_price (Order.symbol (heap w r2)) w = None ->
         live_price (Order.symbol (heap w r3)) w = Some P3 ->
         exists t1 t3 w',
           TradeService.simulate_market_execution w = (Return [t1; t3], w')
           /\ Trade.order_id t1 = Order.id (heap w r1) /\ Trade.price t1 = P1
           /\ Trade.order_id t3 = Order.id (heap w r3) /\ Trade.price t3 = P3
           /\ Order.status (heap w' r1) = EXECUTED
           /\ Order.status (heap w' r2) = PLACED
           /\ Order.status (heap w' r3) = EXECUTED).
Proof.
  assert (forall w,
      exists trades w',
        TradeService.simulate_market_execution w = (Return trades, w')
        /\ List.map trade_facts trades = omap (expected_fill w) (sweep_targets w)
        /\ (forall r, In r (omap (marked_executed w) (sweep_targets w)) ->
                      Order.status (heap w' r) = EXECUTED)
        /\ (forall r, ~ In r (omap (marked_executed w) (sweep_targets w)) ->
                      heap w' r = heap w r)
        /\ length (stdout w')
           = (length (stdout w) + (length (sweep_targets w) - length trades))%nat
        /\ (orders_wf w ->
            forall order,
              In order (sweep_targets w) ->
              match live_price (Order.symbol (heap w order)) w with
              | Some _ => Order.status (heap w' order) = EXECUTED
              | None => heap w' order = heap w order
              end)) as Hgeneral.
  { intros w.
    assert (Forall (fun order => Order.order_style (heap w order) = MARKET) (sweep_targets w))
      as Hmarket.
    { apply List.Forall_forall. intros order Hin. unfold sweep_targets in Hin.
      apply filter_In in Hin as [_ Hpending].
      now apply is_pending_market_style in Hpending. }
    destruct (simulate_loop w (sweep_targets w) [] w (sweep_inv_refl w) Hmarket)
      as (trades & w' & Hloop & Hmap & _ & Hexec & Hkeep & Hlen & _).
    exists trades, w'.
    split; [exact Hloop|]. split; [exact Hmap|]. split; [exact Hexec|].
    split; [exact Hkeep|]. split; [exact Hlen|].
    intros Hwf order Hin.
    pose proof (marked_executed_self w order Hwf (sweep_targets_stored _ _ Hin)) as Hself.
    destruct (live_price (Order.symbol (heap w order)) w) as [P|] eqn:Hlive.
    - apply Hexec. apply list_elem_of_In, list_elem_of_omap. exists order.
      split; [now apply list_elem_of_In|].
      unfold marked_executed. now rewrite Hlive.
    - apply Hkeep. intros Hin'.
      apply list_elem_of_In, list_elem_of_omap in Hin' as (other & Hother & Hmarked).
      apply list_elem_of_In in Hother. unfold marked_executed in Hmarked.
      destruct (live_price (Order.symbol (heap w other)) w) eqn:Hlive'; [|discriminate].
      rewrite (marked_executed_self w other Hwf (sweep_targets_stored _ _ Hother)) in Hmarked.
      injection Hmarked as ->. congruence. }
  split; [exact Hgeneral|].
  intros w r1 r2 r3 P1 P3 Hwf Hvalues Hp1 Hp2 Hp3 Hl1 Hl2 Hl3.
  destruct (Hgeneral w) as (trades & w' & Hrun & Hmap & _ & _ & _ & Hstatus).
  assert (sweep_targets w = [r1; r2; r3]) as Htargets.
  { unfold sweep_targets. rewrite Hvalues. cbn. now rewrite Hp1, Hp2, Hp3. }
  rewrite Htargets in Hmap, Hstatus.
  rewrite !omap_cons in Hmap.
  unfold expected_fill in Hmap. rewrite Hl1, Hl2, Hl3 in Hmap.
  destruct trades as [|t1 [|t3 [|? ?]]]; try discriminate.
  cbn [List.map map] in Hmap. unfold trade_facts in Hmap.
  injection Hmap as Hid1 _ _ Hprice1 Hid3 _ _ Hprice3.
  exists t1, t3, w'. split; [exact Hrun|].
  repeat split; try assumption.
  - specialize (Hstatus Hwf r1). rewrite Hl1 in Hstatus. apply Hstatus. now left.
  - specialize (Hstatus Hwf r2). rewrite Hl2 in Hstatus. rewrite Hstatus.
    + now apply is_pending_market_style in Hp2.
    + right. now left.
  - specialize (Hstatus Hwf r3). rewrite Hl3 in Hstatus. apply Hstatus. right. right. now left.
Qed.

(** The sweep of the three placed orders on TCS, NOPE and INFY. *)
Lemma sweep_isolation_witness :
  exists t1 t3 w',
    TradeService.simulate_market_execution world_three_orders = (Return [t1; t3], w')
    /\ Trade.order_id t1 = "uuid-0" /\ Trade.price t1 = Dec.mk 345025 (-2)
    /\ Trade.order_id t3 = "uuid-2" /\ Trade.price t3 = Dec.mk 152040 (-2)
    /\ Order.status (heap w' 0) = EXECUTED
    /\ Order.status (heap w' 1) = PLACED
    /\ Order.status (heap w' 2) = EXECUTED.
Proof.
  apply (proj2 sweep_isolation world_three_orders 0 1 2
           (Dec.mk 345025 (-2)) (Dec.mk 152040 (-2))); try reflexivity.
  split.
  - unfold unique_keys. vm_compute.
    repeat (apply NoDup_cons; split;
            [rewrite list_elem_of_In; cbn; intuition discriminate|]).
    apply NoDup_nil. exact I.
  - vm_compute. repeat constructor.
Defined.

(** * Further properties of the engine *)

(** ** Failure of a market execution *)

(** X1.  [execute_market_order] fails exactly when the order is not
    MARKET-style or its symbol has no instrument; it then raises the
    matching [ValueError] and leaves the whole state as it was: no trade,
    no status change, no position change. *)
Theorem market_execution_failure :
  forall w order,
    let o := heap w order in
    (Order.order_style o <> MARKET ->
     TradeService.execute_market_order order w
     = (Raise (ValueError "Only market orders can be executed immediately"), w))
    /\ (Order.order_style o = MARKET ->
        Dict.get (Order.symbol o) (_instruments w) = None ->
        TradeService.execute_market_order order w
        = (Raise (ValueError (String.concat "" ["Instrument "; Order.symbol o; " not found"])),
           w))
    /\ ((exists e w', TradeService.execute_market_order order w = (Raise e, w'))
        <-> (Order.order_style o <> MARKET
             \/ Dict.get (Order.symbol o) (_instruments w) = None)).
Proof.
  intros w order o. subst o.
  assert (Order.order_style (heap w order) <> MARKET ->
          TradeService.execute_market_order order w
          = (Raise (ValueError "Only market orders can be executed immediately"), w)) as Hstyle.
  { intros Hne. unfold TradeService.execute_market_order, bind, getattr, gets, raise.
    destruct (Order.order_style (heap w order)); [congruence|reflexivity]. }
  assert (Order.order_style (heap w order) = MARKET ->
          Dict.get (Order.symbol (heap w order)) (_instruments w) = None ->
          TradeService.execute_market_order order w
          = (Raise (ValueError (String.concat ""
                                  ["Instrument "; Order.symbol (heap w order); " not found"])),
             w)) as Hsym.
  { intros Hm Hnone. unfold TradeService.execute_market_order.
    unfold bind at 1, getattr at 1, gets at 1. rewrite Hm. cbn [OrderStyle_eqb negb].
    unfold bind at 1, getattr at 1, gets at 1.
    unfold bind at 1, InMemoryStorage.get_instrument at 1, gets at 1.
    rewrite Hnone. reflexivity. }
  split; [exact Hstyle|]. split; [exact Hsym|]. split.
  - intros (e & w' & Hrun).
    destruct (Order.order_style (heap w order)) eqn:Hm; [|left; discriminate].
    destruct (Dict.get (Order.symbol (heap w order)) (_instruments w)) as [ins|] eqn:Hins;
      [|now right].
    exfalso. rewrite (execute_market_order_settles w order ins Hm Hins) in Hrun.
    destruct (settle_run order (Instrument.last_traded_price ins) w) as (w1 & Hok & _).
    congruence.
  - intros [Hne|Hnone].
    + rewrite (Hstyle Hne). eauto.
    + destruct (Order.order_style (heap w order)) eqn:Hm.
      * rewrite (Hsym eq_refl Hnone). eauto.
      * rewrite Hstyle by discriminate. eauto.
Qed.

(** ** Placing orders *)

(** The request checks, in their order. *)
Lemma validate_order_request_cases req w :
  OrderService._validate_order_request req w
  = if (OrderRequest.quantity req <=? 0)%Z then
      (Raise (OrderValidationError "Order quantity must be greater than zero"), w)
    else
      match OrderRequest.order_style req, OrderRequest.price req with
      | LIMIT, None =>
          (Raise (OrderValidationError "Price is required for limit orders"), w)
      | LIMIT, Some p =>
          if Dec.leb p (Dec.of_int 0) then
            (Raise (OrderValidationError "Price must be greater than zero for limit orders"), w)
          else if is_None (Dict.get (OrderRequest.symbol req) (_instruments w)) then
            (Raise (InstrumentNotFoundError (OrderRequest.symbol req)), w)
          else (Return tt, w)
      | MARKET, _ =>
          if is_None (Dict.get (OrderRequest.symbol req) (_instruments w)) then
            (Raise (InstrumentNotFoundError (OrderRequest.symbol req)), w)
          else (Return tt, w)
      end.
Proof.
  unfold OrderService._validate_order_request, bind, when, raise, ret,
    InMemoryStorage.get_instrument, gets.
  destruct (OrderRequest.quantity req <=? 0)%Z; [reflexivity|].
  destruct (OrderRequest.order_style req), (OrderRequest.price req) as [p|];
    cbn [OrderStyle_eqb is_None andb]; try reflexivity;
    try destruct (Dec.leb p (Dec.of_int 0)); try reflexivity;
    now destruct (Dict.get (OrderRequest.symbol req) (_instruments w)).
Qed.

Lemma valid_request_passes req w :
  valid_request req w -> OrderService._validate_order_request req w = (Return tt, w).
Proof.
  intros (Hq & Hlimit & Hsym). rewrite validate_order_request_cases.
  rewrite (proj2 (Z.leb_gt _ _) Hq).
  destruct (Dict.get (OrderRequest.symbol req) (_instruments w)); [|congruence].
  destruct (OrderRequest.order_style req); [now destruct (OrderRequest.price req)|].
  destruct (Hlimit eq_refl) as (p & -> & ->). reflexivity.
Qed.

Lemma place_order_rejects req w e :
  OrderService._validate_order_request req w = (Raise e, w) ->
  OrderService.place_order req w = (Raise e, w).
Proof.
  intros He. unfold OrderService.place_order. unfold bind at 1. now rewrite He.
Qed.

(** X2.  The request checks of [place_order] in full: a request is
    rejected iff its quantity is not positive, or it is a LIMIT request
    whose price is missing or not positive, or its symbol has no
    instrument; the first failing check, in that order, decides the error;
    an unknown symbol gives [InstrumentNotFoundError] with the symbol in
    the message and code INSTRUMENT_NOT_FOUND; a rejected request leaves
    the state as it was and a valid one is placed. *)
Theorem place_order_checks :
  forall req w,
    (forall p,
        (0 < OrderRequest.quantity req)%Z ->
        OrderRequest.order_style req = LIMIT ->
        OrderRequest.price req = Some p ->
        Dec.leb p (Dec.of_int 0) = true ->
        OrderService.place_order req w
        = (Raise (OrderValidationError "Price must be greater than zero for limit orders"), w))
    /\ ((0 < OrderRequest.quantity req)%Z ->
        (OrderRequest.order_style req = LIMIT ->
         exists p, OrderRequest.price req = Some p /\ Dec.leb p (Dec.of_int 0) = false) ->
        Dict.get (OrderRequest.symbol req) (_instruments w) = None ->
        OrderService.place_order req w
        = (Raise (InstrumentNotFoundError (OrderRequest.symbol req)), w)
        /\ exn_message (InstrumentNotFoundError (OrderRequest.symbol req))
           = String.concat "" ["Instrument "; OrderRequest.symbol req; " not found"]
        /\ error_code (InstrumentNotFoundError (OrderRequest.symbol req))
           = Some "INSTRUMENT_NOT_FOUND")
    /\ ((exists order w', OrderService.place_order req w = (Return order, w'))
        <-> valid_request req w)
    /\ ((exists e, OrderService.place_order req w = (Raise e, w))
        <-> ~ valid_request req w).
Proof.
  intros req w.
  pose proof (validate_order_request_cases req w) as Hcases.
  assert (valid_request req w ->
          exists order w', OrderService.place_order req w = (Return order, w')) as Hplaced.
  { intros Hvalid. apply place_order_after_validation. now apply valid_request_passes. }
  assert (~ valid_request req w ->
          exists e, OrderService.place_order req w = (Raise e, w)) as Hrejected.
  { intros Hnot.
    destruct (validate_order_request_run req w) as [Hok|[e He]];
      [|exists e; now apply place_order_rejects].
    exfalso. apply Hnot. rewrite Hok in Hcases.
    destruct (Z.leb_spec (OrderRequest.quantity req) 0); [discriminate|].
    split; [lia|].
    destruct (Dict.get (OrderRequest.symbol req) (_instruments w)) eqn:Hsym.
    - split; [|discriminate]. intros Hlimit. rewrite Hlimit in Hcases.
      destruct (OrderRequest.price req) as [p|]; [|discriminate].
      exists p. split; [reflexivity|].
      now destruct (Dec.leb p (Dec.of_int 0)).
    - exfalso. destruct (OrderRequest.order_style req);
        [|destruct (OrderRequest.price req) as [p|];
          [destruct (Dec.leb p (Dec.of_int 0))|]]; discriminate. }
  assert (valid_request req w \/ ~ valid_request req w) as Hdec.
  { destruct (validate_order_request_run req w) as [Hok|[e He]].
    - left. destruct (Z.leb_spec (OrderRequest.quantity req) 0);
        rewrite Hok in Hcases; [discriminate|].
      split; [lia|].
      destruct (Dict.get (OrderRequest.symbol req) (_instruments w)) eqn:Hsym.
      + split; [|discriminate]. intros Hlimit. rewrite Hlimit in Hcases.
        destruct (OrderRequest.price req) as [p|]; [|discriminate].
        exists p. split; [reflexivity|]. now destruct (Dec.leb p (Dec.of_int 0)).
      + exfalso. destruct (OrderRequest.order_style req);
          [|destruct (OrderRequest.price req) as [p|];
            [destruct (Dec.leb p (Dec.of_int 0))|]]; discriminate.
    - right. intros Hvalid. rewrite (valid_request_passes _ _ Hvalid) in He. discriminate. }
  split; [|split; [|split]].
  - intros p Hq Hlimit Hprice Hle. apply place_order_rejects.
    rewrite Hcases, (proj2 (Z.leb_gt _ _) Hq), Hlimit, Hprice, Hle. reflexivity.
  - intros Hq Hlimit Hnone. split; [|split; reflexivity].
    apply place_order_rejects.
    rewrite Hcases, (proj2 (Z.leb_gt _ _) Hq), Hnone.
    destruct (OrderRequest.order_style req); [now destruct (OrderRequest.price req)|].
    destruct (Hlimit eq_refl) as (p & -> & ->). reflexivity.
  - split; [|exact Hplaced].
    intros (order & w' & Hrun). destruct Hdec as [Hvalid|Hnot]; [assumption|].
    destruct (Hrejected Hnot) as [e He]. congruence.
  - split; [|exact Hrejected].
    intros (e & He) Hvalid. destruct (Hplaced Hvalid) as (order & w' & Hrun). congruence.
Qed.

(** A request for 10 units of NOPE, a symbol the catalog does not have. *)
Lemma place_order_checks_witness :
  OrderService.place_order (OrderRequest.mk "NOPE" BUY MARKET 10 None) world0
  = (Raise (InstrumentNotFoundError "NOPE"), world0)
  /\ exn_message (InstrumentNotFoundError "NOPE") = "Instrument NOPE not found"
  /\ error_code (InstrumentNotFoundError "NOPE") = Some "INSTRUMENT_NOT_FOUND".
Proof.
  apply (proj1 (proj2 (place_order_checks (OrderRequest.mk "NOPE" BUY MARKET 10 None) world0))).
  - reflexivity.
  - discriminate.
  - reflexivity.
Defined.

(** ** A placed order *)

(** The state [Order.create], [order.status = PLACED] and [save_order]
    leave: a new object under the next reference, indexed by its id. *)
Lemma placed_order_run symbol order_type order_style quantity price w :
  let order := next_ref w in
  let w1 := exec (placed_order symbol order_type order_style quantity price) w in
  placed_order symbol order_type order_style quantity price w = (Return order, w1)
  /\ heap w1 order
     = Order.mk (uuid4_oracle w (uuid4_calls w)) symbol order_type order_style quantity price
         PLACED (now_oracle w (now_calls w))
  /\ (forall r, r <> order -> heap w1 r = heap w r)
  /\ _orders w1 = Dict.set (uuid4_oracle w (uuid4_calls w)) order (_orders w)
  /\ next_ref w1 = S order
  /\ _instruments w1 = _instruments w
  /\ _trades w1 = _trades w
  /\ _portfolio w1 = _portfolio w
  /\ uuid4_oracle w1 = uuid4_oracle w
  /\ uuid4_calls w1 = S (uuid4_calls w)
  /\ now_oracle w1 = now_oracle w
  /\ now_calls w1 = S (now_calls w)
  /\ stdout w1 = stdout w.
Proof.
  intros order w1. subst order w1.
  unfold exec, placed_order, Order_create, bind, uuid4, now, setattr_status, modify,
    InMemoryStorage.save_order, getattr, gets, ret.
  cbn -[Dict.set Nat.eqb]. unfold heap_alter. rewrite !Nat.eqb_refl.
  repeat split.
  intros r Hr. apply Nat.eqb_neq in Hr. now rewrite Hr.
Qed.

Lemma _execute_market_order_run order w :
  OrderService._execute_market_order order w
  = (Return tt, exec (OrderService._execute_market_order order) w).
Proof.
  unfold exec, OrderService._execute_market_order, try_except, bind, ret.
  now destruct (TradeService.execute_market_order order w) as [[trade|e] w'].
Qed.

(** [place_order] after validation: the order is booked, and executed on
    the spot when it is MARKET-style. *)
Lemma place_order_run req w :
  OrderService._validate_order_request req w = (Return tt, w) ->
  let order := next_ref w in
  let w1 := exec (placed_order (OrderRequest.symbol req) (OrderRequest.order_type req)
                    (OrderRequest.order_style req) (OrderRequest.quantity req)
                    (OrderRequest.price req)) w in
  OrderService.place_order req w
  = (Return order,
     match OrderRequest.order_style req with
     | MARKET => exec (OrderService._execute_market_order order) w1
     | LIMIT => w1
     end).
Proof.
  intros Hval order w1.
  destruct (placed_order_run (OrderRequest.symbol req) (OrderRequest.order_type req)
              (OrderRequest.order_style req) (OrderRequest.quantity req)
              (OrderRequest.price req) w) as (Hrun & Hheap & _).
  fold order w1 in Hrun, Hheap.
  unfold OrderService.place_order. unfold bind at 1. rewrite Hval.
  unfold placed_order in Hrun.
  unfold bind at 1 in Hrun. unfold bind at 1.
  destruct (Order_create _ _ _ _ _ w) as [[r|e] wa]; [|discriminate].
  unfold bind at 1 in Hrun. unfold bind at 1.
  destruct (setattr_status r PLACED wa) as [[[]|e] wb]; [|discriminate].
  unfold bind at 1 in Hrun. unfold bind at 1.
  destruct (InMemoryStorage.save_order r wb) as [[[]|e] wc]; [|discriminate].
  unfold ret in Hrun. injection Hrun as -> ->.
  unfold bind at 1, getattr at 1, gets at 1. rewrite Hheap. cbn [Order.order_style].
  destruct (OrderRequest.order_style req); cbn [OrderStyle_eqb].
  - unfold bind. now rewrite _execute_market_order_run.
  - reflexivity.
Qed.

(** What [settle] consumes: one uuid and one clock reading; it allocates
    no object. *)
Lemma settle_counters order execution_price w :
  let w' := exec (settle order execution_price) w in
  next_ref w' = next_ref w
  /\ uuid4_oracle w' = uuid4_oracle w
  /\ uuid4_calls w' = S (uuid4_calls w)
  /\ now_oracle w' = now_oracle w
  /\ now_calls w' = S (now_calls w).
Proof.
  intros w'.
  assert (exists d h t,
             w' = set_portfolio d
                    (set_heap h
                       (set_trades t
                          (set_now_calls (S (now_calls w))
                             (set_uuid4_calls (S (uuid4_calls w)) w)))))
    as (d & h & t & ->); [|now repeat split].
  subst w'. unfold exec, settle.
  unfold bind at 1. rewrite Trade_create_run.
  unfold bind at 1, InMemoryStorage.save_trade at 1, modify at 1.
  unfold bind at 1, getattr at 1, gets at 1.
  unfold bind at 1, InMemoryStorage.update_order_status at 1.
  cbn [heap _orders set_trades set_now_calls set_uuid4_calls set_heap].
  destruct (Dict.get _ (_orders w)) as [stored|];
    unfold bind, getattr, gets, ret;
    match goal with
    | |- context [InMemoryStorage.update_portfolio_position ?s ?q ?p ?w0] =>
        destruct (update_portfolio_position_total w0 s q p) as [d ->]
    end; cbn [snd]; do 3 eexists;
    unfold set_portfolio, set_heap, set_trades, set_now_calls, set_uuid4_calls; cbn;
    reflexivity.
Qed.

Lemma settle_exec order execution_price w :
  settle order execution_price w
  = (Return (fill order execution_price w), exec (settle order execution_price) w).
Proof.
  destruct (settle_run order execution_price w) as (w' & Hrun & _).
  unfold exec. now rewrite Hrun.
Qed.

(** X3.  A valid LIMIT request is booked and left alone: [place_order]
    returns a new object in state PLACED that carries the request's fields
    and a fresh id, stores it under that id, and neither trades nor touches
    the portfolio, whatever the limit price and the live price are. *)
Theorem limit_order_rests :
  forall req w,
    valid_request req w ->
    OrderRequest.order_style req = LIMIT ->
    exists w',
      OrderService.place_order req w = (Return (next_ref w), w')
      /\ heap w' (next_ref w) = new_order req w
      /\ (forall r, r <> next_ref w -> heap w' r = heap w r)
      /\ OrderService.get_order_status (Order.id (new_order req w)) w'
         = (Return (Some (next_ref w)), w')
      /\ _trades w' = _trades w
      /\ _portfolio w' = _portfolio w
      /\ _instruments w' = _instruments w.
Proof.
  intros req w Hvalid Hstyle.
  rewrite (place_order_run req w (valid_request_passes req w Hvalid)), Hstyle.
  destruct (placed_order_run (OrderRequest.symbol req) (OrderRequest.order_type req)
              (OrderRequest.order_style req) (OrderRequest.quantity req)
              (OrderRequest.price req) w)
    as (_ & Hheap & Hother & Horders & _ & Hins & Htrades & Hport & _).
  rewrite Hstyle in *.
  eexists. split; [reflexivity|].
  unfold new_order. rewrite Hstyle.
  repeat split; try assumption.
  unfold OrderService.get_order_status, InMemoryStorage.get_order, gets.
  cbn [Order.id]. now rewrite Horders, DictFacts.get_set_eq.
Qed.

(** A BUY LIMIT request for 100 TCS at 4000.00, above the live price. *)
Lemma limit_order_rests_witness :
  exists w',
    OrderService.place_order
      (OrderRequest.mk "TCS" BUY LIMIT 100 (Some (Dec.mk 400000 (-2)))) world0
    = (Return 0, w')
    /\ Order.status (heap w' 0) = PLACED
    /\ _trades w' = Dict.empty
    /\ _portfolio w' = Dict.empty.
Proof.
  destruct (limit_order_rests
              (OrderRequest.mk "TCS" BUY LIMIT 100 (Some (Dec.mk 400000 (-2)))) world0)
    as (w' & Hrun & Hheap & _ & _ & Htrades & Hport & _).
  - split; [reflexivity|]. split; [|discriminate].
    intros _. eexists. split; reflexivity.
  - reflexivity.
  - change (next_ref world0) with 0 in Hrun, Hheap.
    exists w'. rewrite Hheap. repeat split; assumption.
Defined.

(** X4.  A MARKET request for a listed symbol is executed by [place_order]
    itself: the object returned is already EXECUTED (the store updates the
    very object the caller holds), a trade at the live price is stored for
    it, and the position has moved by the signed quantity. *)
Theorem market_order_fills_on_placement :
  forall req w ins,
    (0 < OrderRequest.quantity req)%Z ->
    OrderRequest.order_style req = MARKET ->
    Dict.get (OrderRequest.symbol req) (_instruments w) = Some ins ->
    let order := next_ref w in
    let trade :=
      Trade.mk (uuid4_oracle w (S (uuid4_calls w))) (uuid4_oracle w (uuid4_calls w))
        (OrderRequest.symbol req) (OrderRequest.quantity req)
        (Instrument.last_traded_price ins) (now_oracle w (S (now_calls w))) in
    exists w',
      OrderService.place_order req w = (Return order, w')
      /\ heap w' order = Order.set_status EXECUTED (new_order req w)
      /\ (forall r, r <> order -> heap w' r = heap w r)
      /\ OrderService.get_order_status (Order.id (new_order req w)) w'
         = (Return (Some order), w')
      /\ _trades w' = Dict.set (Trade.id trade) trade (_trades w)
      /\ TradeService.get_trade_by_id (Trade.id trade) w' = (Return (Some trade), w')
      /\ _portfolio w'
         = _portfolio
             (exec (InMemoryStorage.update_portfolio_position (OrderRequest.symbol req)
                      (signed_quantity (new_order req w))
                      (Instrument.last_traded_price ins)) w).
Proof.
  intros req w ins Hq Hstyle Hins order trade.
  assert (valid_request req w) as Hvalid.
  { split; [assumption|]. split; [congruence|]. congruence. }
  pose proof (place_order_run req w (valid_request_passes req w Hvalid)) as Hplace.
  destruct (placed_order_run (OrderRequest.symbol req) (OrderRequest.order_type req)
              (OrderRequest.order_style req) (OrderRequest.quantity req)
              (OrderRequest.price req) w)
    as (_ & Hheap & Hother & Horders & _ & Hi1 & Ht1 & Hp1 & Hu1 & Huc1 & Hn1 & Hnc1 & _).
  cbv zeta in Hplace.
  set (w1 := exec (placed_order _ _ _ _ _) w) in *.
  change (Order.mk _ _ _ _ _ _ PLACED _) with (new_order req w) in Hheap.
  change (next_ref w) with order in Hplace, Hheap, Hother, Horders.
  rewrite Hstyle in Hplace.
  assert (Order.order_style (heap w1 order) = MARKET) as Hm
      by (rewrite Hheap; exact Hstyle).
  assert (Dict.get (Order.symbol (heap w1 order)) (_instruments w1) = Some ins) as Hins1
      by (rewrite Hheap, Hi1; exact Hins).
  assert (exec (OrderService._execute_market_order order) w1
          = exec (settle order (Instrument.last_traded_price ins)) w1) as Hexec.
  { unfold exec, OrderService._execute_market_order, try_except, bind.
    rewrite (execute_market_order_settles w1 order ins Hm Hins1), settle_exec.
    reflexivity. }
  rewrite Hexec in Hplace.
  destruct (settle_run order (Instrument.last_traded_price ins) w1)
    as (w' & Hrun & Htrades & Horders' & Hi' & Hheap' & Hport & _).
  assert (exec (settle order (Instrument.last_traded_price ins)) w1 = w') as Hw'
      by (unfold exec; now rewrite Hrun).
  rewrite Hw' in Hplace.
  assert (fill order (Instrument.last_traded_price ins) w1 = trade) as Hfill.
  { unfold fill, trade. rewrite Hheap, Hu1, Huc1, Hn1, Hnc1. reflexivity. }
  rewrite Hfill in Htrades.
  assert (Dict.get (Order.id (heap w1 order)) (_orders w1) = Some order) as Hstored.
  { rewrite Hheap, Horders. apply DictFacts.get_set_eq. }
  rewrite Hstored in Hheap'.
  exists w'. split; [exact Hplace|].
  split; [rewrite Hheap', heap_alter_same, Hheap; reflexivity|].
  split.
  { intros r Hr. rewrite Hheap', heap_alter_other by assumption. now apply Hother. }
  split.
  { unfold OrderService.get_order_status, InMemoryStorage.get_order, gets.
    rewrite Horders', Horders. f_equal. f_equal. apply DictFacts.get_set_eq. }
  split; [now rewrite Htrades, Ht1|].
  split.
  { unfold TradeService.get_trade_by_id, InMemoryStorage.get_trade, gets.
    now rewrite Htrades, DictFacts.get_set_eq. }
  rewrite Hport, Hheap.
  apply update_portfolio_position_frame; assumption.
Qed.

(** A BUY MARKET request for 100 TCS in the initial state. *)
Lemma market_order_fills_on_placement_witness :
  exists w',
    OrderService.place_order (OrderRequest.mk "TCS" BUY MARKET 100 None) world0
    = (Return 0, w')
    /\ Order.status (heap w' 0) = EXECUTED
    /\ Dict.values (_trades w')
       = [Trade.mk "uuid-1" "uuid-0" "TCS" 100 (Dec.mk 345025 (-2)) 1700000001%Z]
    /\ held_quantity "TCS" w' = 100%Z.
Proof.
  destruct (market_order_fills_on_placement
              (OrderRequest.mk "TCS" BUY MARKET 100 None) world0
              (Instrument.mk "TCS" "NSE" STOCK (Dec.mk 345025 (-2))))
    as (w' & Hrun & Hheap & _ & _ & Htrades & _ & Hport).
  - reflexivity.
  - reflexivity.
  - reflexivity.
  - change (next_ref world0) with 0 in Hrun, Hheap.
    exists w'. split; [exact Hrun|].
    split; [now rewrite Hheap|].
    split; [now rewrite Htrades|].
    unfold held_quantity. now rewrite Hport.
Defined.

(** ** Order ids *)

Lemma _execute_market_order_cases order w :
  exec (OrderService._execute_market_order order) w = w
  \/ exists P, exec (OrderService._execute_market_order order) w = exec (settle order P) w.
Proof.
  assert (Order.order_style (heap w order) <> MARKET
          \/ Dict.get (Order.symbol (heap w order)) (_instruments w) = None ->
          exec (OrderService._execute_market_order order) w = w) as Hraise.
  { intros H. destruct (execute_market_order_raises w order H) as [msg Hrun].
    unfold exec, OrderService._execute_market_order, try_except, bind, ret.
    now rewrite Hrun. }
  destruct (Order.order_style (heap w order)) eqn:Hstyle.
  - destruct (Dict.get (Order.symbol (heap w order)) (_instruments w)) as [ins|] eqn:Hins.
    + right. exists (Instrument.last_traded_price ins).
      unfold exec at 1, OrderService._execute_market_order, try_except, bind, ret.
      now rewrite (execute_market_order_settles w order ins Hstyle Hins), settle_exec.
    + left. apply Hraise. now right.
  - left. apply Hraise. left. discriminate.
Qed.

(** What every successful [place_order] leaves, MARKET or LIMIT. *)
Lemma place_order_placed req w order w' :
  OrderService.place_order req w = (Return order, w') ->
  order = next_ref w
  /\ Order.id (heap w' order) = uuid4_oracle w (uuid4_calls w)
  /\ _orders w' = Dict.set (uuid4_oracle w (uuid4_calls w)) order (_orders w)
  /\ uuid4_oracle w' = uuid4_oracle w
  /\ uuid4_calls w < uuid4_calls w'
  /\ _instruments w' = _instruments w
  /\ next_ref w' = S (next_ref w).
Proof.
  intros Hrun.
  destruct (validate_order_request_run req w) as [Hok|[e He]];
    [|rewrite (place_order_rejects req w e He) in Hrun; discriminate].
  rewrite (place_order_run req w Hok) in Hrun.
  destruct (placed_order_run (OrderRequest.symbol req) (OrderRequest.order_type req)
              (OrderRequest.order_style req) (OrderRequest.quantity req)
              (OrderRequest.price req) w)
    as (_ & Hheap & _ & Horders & Hnext & Hi1 & _ & _ & Hu1 & Huc1 & _).
  set (w1 := exec (placed_order _ _ _ _ _) w) in *.
  injection Hrun as <- <-.
  assert (forall w2, w2 = w1 \/ (exists P, w2 = exec (settle (next_ref w) P) w1) ->
                     Order.id (heap w2 (next_ref w)) = uuid4_oracle w (uuid4_calls w)
                     /\ _orders w2 = Dict.set (uuid4_oracle w (uuid4_calls w)) (next_ref w)
                                      (_orders w)
                     /\ uuid4_oracle w2 = uuid4_oracle w
                     /\ uuid4_calls w < uuid4_calls w2
                     /\ _instruments w2 = _instruments w
                     /\ next_ref w2 = S (next_ref w)) as Hboth.
  { intros w2 [->|[P ->]].
    - rewrite Hheap, Horders, Hu1, Huc1, Hi1, Hnext. repeat split. lia.
    - destruct (settle_run (next_ref w) P w1) as (w' & Hrun & _ & Ho & Hi & Hh & _).
      destruct (settle_counters (next_ref w) P w1) as (Hn & Hu & Huc & _).
      assert (exec (settle (next_ref w) P) w1 = w') as Hw'
          by (unfold exec; now rewrite Hrun).
      rewrite Hw' in *.
      rewrite Ho, Hi, Hn, Hu, Huc, Horders, Hu1, Huc1, Hi1, Hnext.
      repeat split; [|lia].
      rewrite Hh. destruct (Dict.get _ (_orders w1));
        [rewrite (heap_alter_status_attr Order.id) by reflexivity|];
        now rewrite Hheap. }
  split; [reflexivity|].
  destruct (OrderRequest.order_style req).
  - apply Hboth. destruct (_execute_market_order_cases (next_ref w) w1) as [->|[P ->]]; eauto.
  - apply Hboth. now left.
Qed.

Lemma get_set_keeps {V} (d : Dict.t V) k v k' :
  Dict.get k' d <> None -> Dict.get k' (Dict.set k v d) <> None.
Proof.
  intros Hk. destruct (String.eqb_spec k k') as [->|Hne].
  - now rewrite DictFacts.get_set_eq.
  - now rewrite DictFacts.get_set_ne.
Qed.

Lemma valid_request_frame req w w' :
  _instruments w' = _instruments w -> valid_request req w -> valid_request req w'.
Proof. unfold valid_request. now intros ->. Qed.

(** The loop of [place_all]: the ids collected so far were all drawn before
    the next call of [uuid4]. *)
Lemma place_all_loop reqs : forall acc w,
  uuid4_unique w ->
  Forall (fun req => valid_request req w) reqs ->
  List.NoDup acc ->
  Forall (fun id => (exists n, n < uuid4_calls w /\ id = uuid4_oracle w n)
                    /\ Dict.get id (_orders w) <> None) acc ->
  exists ids w',
    for_each reqs acc
      (fun ids request =>
         order <- OrderService.place_order request ;;
         id <- getattr Order.id order ;;
         ret (ids ++ [id])) w
    = (Return ids, w')
    /\ length ids = length acc + length reqs
    /\ List.NoDup ids
    /\ Forall (fun id => Dict.get id (_orders w') <> None) ids.
Proof.
  induction reqs as [|req reqs IH]; intros acc w Huniq Hvalid Hnodup Hacc.
  - exists acc, w. cbn. repeat split; [lia|assumption|].
    eapply List.Forall_impl; [|exact Hacc]. now intros id [_ H].
  - apply List.Forall_cons_iff in Hvalid as [Hreq Hvalid].
    destruct (place_order_after_validation req w (valid_request_passes req w Hreq))
      as (order & w1 & Hrun).
    destruct (place_order_placed req w order w1 Hrun)
      as (_ & Hid & Horders & Hu & Huc & Hi & _).
    cbn [for_each]. unfold bind at 1. unfold bind at 1. rewrite Hrun.
    unfold bind at 1, getattr at 1, gets at 1, ret at 1. rewrite Hid.
    destruct (IH (acc ++ [uuid4_oracle w (uuid4_calls w)]) w1) as (ids & w' & Hloop & Hlen & Hrest).
    + unfold uuid4_unique. now rewrite Hu.
    + eapply List.Forall_impl; [|exact Hvalid].
      intros r. now apply valid_request_frame.
    + apply List.NoDup_app; [assumption|repeat constructor; now intros []|].
      intros id Hin [<-|[]].
      rewrite List.Forall_forall in Hacc.
      destruct (Hacc _ Hin) as [(n & Hn & Heq) _].
      apply Huniq in Heq. lia.
    + apply List.Forall_app. split.
      * eapply List.Forall_impl; [|exact Hacc].
        intros id [(n & Hn & ->) Hstored]. split.
        -- exists n. rewrite Hu. split; [lia|reflexivity].
        -- rewrite Horders. now apply get_set_keeps.
      * repeat constructor.
        -- exists (uuid4_calls w). now rewrite Hu.
        -- rewrite Horders, DictFacts.get_set_eq. discriminate.
    + exists ids, w'. split; [exact Hloop|]. split; [|exact Hrest].
      rewrite Hlen, length_app. cbn. lia.
Qed.

Lemma tally_uuid_injective m n : tally_uuid m = tally_uuid n -> m = n.
Proof.
  unfold tally_uuid. cbn. intros H. injection H as H.
  revert n H. induction m as [|m IH]; intros [|n] H; try discriminate; [reflexivity|].
  cbn in H. injection H as H. f_equal. now apply IH.
Qed.

(** X5.  Order ids never collide: as long as [uuid4] does not repeat
    itself, any run of valid placements, MARKET and LIMIT mixed, returns
    one order per request, all under different ids, and every one of them
    can be looked up afterwards (the trades' ids, drawn from the same
    source in between, do not get in the way). *)
Theorem order_ids_unique :
  forall requests w,
    uuid4_unique w ->
    Forall (fun req => valid_request req w) requests ->
    exists ids w',
      place_all requests w = (Return ids, w')
      /\ length ids = length requests
      /\ List.NoDup ids
      /\ Forall (fun id => Dict.get id (_orders w') <> None) ids.
Proof.
  intros requests w Huniq Hvalid.
  destruct (place_all_loop requests [] w Huniq Hvalid) as (ids & w' & Hrun & Hlen & Hrest).
  - constructor.
  - constructor.
  - exists ids, w'. split; [exact Hrun|]. split; [exact Hlen|exact Hrest].
Qed.

(** A MARKET and a LIMIT request for TCS. *)
Lemma order_ids_unique_witness :
  exists ids w',
    place_all [OrderRequest.mk "TCS" BUY MARKET 10 None;
               OrderRequest.mk "TCS" SELL LIMIT 5 (Some (Dec.of_int 4000))] world_unique
    = (Return ids, w')
    /\ length ids = 2
    /\ List.NoDup ids
    /\ Forall (fun id => Dict.get id (_orders w') <> None) ids.
Proof.
  apply (order_ids_unique
           [OrderRequest.mk "TCS" BUY MARKET 10 None;
            OrderRequest.mk "TCS" SELL LIMIT 5 (Some (Dec.of_int 4000))] world_unique).
  - intros m n. apply tally_uuid_injective.
  - repeat constructor; try discriminate.
    intros _. eexists. split; reflexivity.
Defined.

(** ** The store *)

Lemma values_set_absent {V} (d : Dict.t V) k v :
  Dict.get k d = None -> Dict.values (Dict.set k v d) = Dict.values d ++ [v].
Proof.
  induction d as [|[k' v'] d IH]; cbn; [reflexivity|].
  destruct (String.eqb k k'); [discriminate|]. intros H. cbn. f_equal. now apply IH.
Qed.

Lemma values_set_present {V} (d : Dict.t V) k v v0 :
  Dict.get k d = Some v0 -> length (Dict.values (Dict.set k v d)) = length (Dict.values d).
Proof.
  induction d as [|[k' v'] d IH]; cbn; [discriminate|].
  destruct (String.eqb k k'); [reflexivity|]. intros H. cbn. f_equal. now apply IH.
Qed.

(** X6.  What is saved is what is read back: for each of the four tables,
    reading the key of the record just saved returns that record, and
    reading any other key returns what it returned before the save. *)
Theorem storage_round_trip :
  forall w,
    (forall order,
        let w' := exec (InMemoryStorage.save_order order) w in
        InMemoryStorage.get_order (Order.id (heap w order)) w' = (Return (Some order), w')
        /\ forall k, k <> Order.id (heap w order) ->
                     fst (InMemoryStorage.get_order k w') = fst (InMemoryStorage.get_order k w))
    /\ (forall trade,
           let w' := exec (InMemoryStorage.save_trade trade) w in
           InMemoryStorage.get_trade (Trade.id trade) w' = (Return (Some trade), w')
           /\ forall k, k <> Trade.id trade ->
                        fst (InMemoryStorage.get_trade k w')
                        = fst (InMemoryStorage.get_trade k w))
    /\ (forall instrument,
           let w' := exec (InMemoryStorage.save_instrument instrument) w in
           InMemoryStorage.get_instrument (Instrument.symbol instrument) w'
           = (Return (Some instrument), w')
           /\ forall k, k <> Instrument.symbol instrument ->
                        fst (InMemoryStorage.get_instrument k w')
                        = fst (InMemoryStorage.get_instrument k w))
    /\ (forall holding,
           let w' := exec (InMemoryStorage.save_portfolio_holding holding) w in
           InMemoryStorage.get_portfolio_holding (PortfolioHolding.symbol holding) w'
           = (Return (Some holding), w')
           /\ forall k, k <> PortfolioHolding.symbol holding ->
                        fst (InMemoryStorage.get_portfolio_holding k w')
                        = fst (InMemoryStorage.get_portfolio_holding k w)).
Proof.
  intros w. repeat split; cbn;
    unfold InMemoryStorage.get_order, InMemoryStorage.get_trade,
      InMemoryStorage.get_instrument, InMemoryStorage.get_portfolio_holding, gets; cbn;
    try (now rewrite DictFacts.get_set_eq);
    intros k Hk; now rewrite DictFacts.get_set_ne by congruence.
Qed.

(** X7.  The trade log grows at its end: when the id drawn for a trade is
    not yet in use, a market execution appends its trade to the list of
    all trades and to the list of its own symbol, leaves the list of every
    other symbol as it was, and the trade is found by its id. *)
Theorem trade_log_appends :
  forall w order ins,
    Order.order_style (heap w order) = MARKET ->
    Dict.get (Order.symbol (heap w order)) (_instruments w) = Some ins ->
    Dict.get (uuid4_oracle w (uuid4_calls w)) (_trades w) = None ->
    let trade := fill order (Instrument.last_traded_price ins) w in
    exists w',
      TradeService.execute_market_order order w = (Return trade, w')
      /\ (exists before,
             TradeService.get_all_trades w = (Return before, w)
             /\ TradeService.get_all_trades w' = (Return (before ++ [trade]), w'))
      /\ (forall symbol,
             exists before,
               TradeService.get_trades_for_symbol symbol w = (Return before, w)
               /\ TradeService.get_trades_for_symbol symbol w'
                  = (Return (if String.eqb (Order.symbol (heap w order)) symbol
                             then before ++ [trade] else before), w'))
      /\ TradeService.get_trade_by_id (Trade.id trade) w' = (Return (Some trade), w').
Proof.
  intros w order ins Hstyle Hins Hfresh trade.
  rewrite (execute_market_order_settles w order ins Hstyle Hins).
  destruct (settle_run order (Instrument.last_traded_price ins) w)
    as (w' & Hrun & Htrades & _).
  fold trade in Hrun, Htrades.
  exists w'. split; [exact Hrun|].
  assert (Dict.values (_trades w') = Dict.values (_trades w) ++ [trade]) as Hvalues
      by (rewrite Htrades; now apply values_set_absent).
  split; [|split].
  - eexists. split; [reflexivity|].
    unfold TradeService.get_all_trades, InMemoryStorage.get_all_trades, gets.
    now rewrite Hvalues.
  - intros symbol. eexists. split; [reflexivity|].
    unfold TradeService.get_trades_for_symbol, InMemoryStorage.get_all_trades, bind, gets, ret.
    rewrite Hvalues, List.filter_app. cbn [List.filter].
    change (Trade.symbol trade) with (Order.symbol (heap w order)).
    destruct (String.eqb (Order.symbol (heap w order)) symbol);
      [reflexivity|now rewrite List.app_nil_r].
  - unfold TradeService.get_trade_by_id, InMemoryStorage.get_trade, gets.
    now rewrite Htrades, DictFacts.get_set_eq.
Qed.

Lemma trade_log_appends_witness :
  exists w',
    TradeService.execute_market_order 0 world_buy_market
    = (Return (Trade.mk "uuid-1" "uuid-0" "TCS" 100 (Dec.mk 345025 (-2)) 1700000001%Z), w')
    /\ TradeService.get_trades_for_symbol "TCS" w'
       = (Return [Trade.mk "uuid-1" "uuid-0" "TCS" 100 (Dec.mk 345025 (-2)) 1700000001%Z], w')
    /\ TradeService.get_trades_for_symbol "INFY" w' = (Return [], w').
Proof.
  destruct (trade_log_appends world_buy_market 0
              (Instrument.mk "TCS" "NSE" STOCK (Dec.mk 345025 (-2))))
    as (w' & Hrun & _ & Hsym & _).
  - reflexivity.
  - reflexivity.
  - reflexivity.
  - exists w'. split; [exact Hrun|]. split.
    + destruct (Hsym "TCS") as (before & Hb & Ha).
      injection Hb as <-. exact Ha.
    + destruct (Hsym "INFY") as (before & Hb & Ha).
      injection Hb as <-. exact Ha.
Defined.

(** ** One holding *)

Lemma get_holding_run symbol w :
  PortfolioService.get_holding symbol w
  = match Dict.get symbol (_portfolio w) with
    | None => (Return None, w)
    | Some h =>
        match live_price symbol w with
        | Some P =>
            (Return (Some (marked_to P h)),
             set_portfolio
               (Dict.set (PortfolioHolding.symbol h) (marked_to P h) (_portfolio w)) w)
        | None => (Return (Some h), w)
        end
    end.
Proof.
  unfold PortfolioService.get_holding, bind, InMemoryStorage.get_portfolio_holding,
    InMemoryStorage.get_instrument, InMemoryStorage.save_portfolio_holding, gets, modify,
    ret, live_price.
  destruct (Dict.get symbol (_portfolio w)) as [h|]; [|reflexivity].
  now destruct (Dict.get symbol (_instruments w)).
Qed.

Lemma In_values_get {V} (d : Dict.t V) k v : Dict.get k d = Some v -> In v (Dict.values d).
Proof.
  intros H. unfold Dict.values. apply in_map_iff. exists (k, v).
  split; [reflexivity|]. now apply DictFacts.get_Some_In.
Qed.

Lemma snapshot_entry_symbol w h h' :
  snapshot_entry w h = Some h' -> PortfolioHolding.symbol h' = PortfolioHolding.symbol h.
Proof.
  unfold snapshot_entry.
  destruct (live_price (PortfolioHolding.symbol h) w); [|discriminate].
  now intros [= <-].
Qed.

(** X8.  [get_holding] against the snapshot.  For a symbol that is not
    held it returns [None]; for a held symbol with an instrument it returns
    and stores the entry the snapshot has for it and touches no other
    holding; for a held symbol without instrument it returns the stored
    holding as it is, where the snapshot leaves the symbol out. *)
Theorem get_holding_against_snapshot :
  forall w symbol,
    portfolio_wf (_portfolio w) ->
    exists result w' holdings,
      PortfolioService.get_holding symbol w = (Return result, w')
      /\ fst (PortfolioService.get_portfolio w) = Return holdings
      /\ _instruments w' = _instruments w
      /\ (forall other, other <> symbol ->
                        Dict.get other (_portfolio w') = Dict.get other (_portfolio w))
      /\ match Dict.get symbol (_portfolio w), live_price symbol w with
         | None, _ => result = None /\ w' = w
         | Some h, Some P =>
             result = Some (marked_to P h)
             /\ In (marked_to P h) holdings
             /\ Dict.get symbol (_portfolio w') = Some (marked_to P h)
         | Some h, None =>
             result = Some h /\ w' = w
             /\ forall h', In h' holdings -> PortfolioHolding.symbol h' <> symbol
         end.
Proof.
  intros w symbol Hwf. rewrite get_holding_run, (get_portfolio_run w Hwf). cbn [fst].
  destruct (Dict.get symbol (_portfolio w)) as [h|] eqn:Hget.
  - pose proof (portfolio_wf_get _ _ _ Hwf Hget) as Hsym.
    destruct (live_price symbol w) as [P|] eqn:Hlive.
    + do 3 eexists. split; [reflexivity|]. split; [reflexivity|]. split; [reflexivity|].
      cbn [_portfolio set_portfolio]. rewrite Hsym. split.
      { intros other Hne. now apply DictFacts.get_set_ne. }
      split; [reflexivity|]. split; [|apply DictFacts.get_set_eq].
      apply list_elem_of_In, list_elem_of_omap. exists h. split.
      * apply list_elem_of_In. now apply (In_values_get _ symbol).
      * unfold snapshot_entry. now rewrite Hsym, Hlive.
    + do 3 eexists. split; [reflexivity|]. split; [reflexivity|]. split; [reflexivity|].
      split; [reflexivity|]. split; [reflexivity|]. split; [reflexivity|].
      intros h' Hin Heq.
      apply list_elem_of_In, list_elem_of_omap in Hin as (h0 & _ & Hentry).
      pose proof (snapshot_entry_symbol _ _ _ Hentry) as Hsym0.
      unfold snapshot_entry in Hentry.
      rewrite <- Hsym0, Heq, Hlive in Hentry. discriminate.
  - do 3 eexists. split; [reflexivity|]. split; [reflexivity|]. split; [reflexivity|].
    split; [reflexivity|]. now destruct (live_price symbol w).
Qed.

(** The holding of 100 TCS bought at 3000 is marked to 3450.25. *)
Lemma get_holding_against_snapshot_witness :
  exists w',
    PortfolioService.get_holding "TCS" world_tcs_100
    = (Return (Some (PortfolioHolding.mk "TCS" 100 (Dec.of_int 3000) (Dec.mk 34502500 (-2)))),
       w')
    /\ fst (PortfolioService.get_holding "NOPE" world_unlisted)
       = Return (Some (PortfolioHolding.mk "NOPE" 10 (Dec.of_int 5) (Dec.of_int 50))).
Proof.
  destruct (get_holding_against_snapshot world_tcs_100 "TCS")
    as (result & w' & holdings & Hrun & _ & _ & _ & Hcase).
  - split; repeat constructor. cbn. intros H. inversion H.
  - exists w'. cbn in Hcase. destruct Hcase as (-> & _).
    split; [exact Hrun|reflexivity].
Defined.

(** ** Position arithmetic *)

Lemma held_quantity_update w symbol dq p :
  held_quantity symbol (exec (InMemoryStorage.update_portfolio_position symbol dq p) w)
  = match Dict.get symbol (_portfolio w) with
    | Some h => (PortfolioHolding.quantity h + dq)%Z
    | None => Z.max 0 dq
    end.
Proof.
  unfold held_quantity at 1.
  destruct (Dict.get symbol (_portfolio w)) as [h|] eqn:Hget.
  - destruct (Z.eq_dec (PortfolioHolding.quantity h + dq) 0)%Z as [Hz|Hnz].
    + unfold exec. rewrite (update_portfolio_position_exhaust w symbol dq p h Hget Hz).
      cbn [snd _portfolio set_portfolio]. now rewrite DictFacts.get_del_eq.
    + destruct (update_portfolio_position_adjust w symbol dq p h Hget Hnz)
        as (avg & _ & Hrun).
      unfold exec. rewrite Hrun. cbn [snd _portfolio set_portfolio].
      now rewrite DictFacts.get_set_eq.
  - destruct (Z.lt_ge_cases 0 dq)%Z as [Hpos|Hle].
    + unfold exec. rewrite (update_portfolio_position_open w symbol dq p Hget Hpos).
      cbn [snd _portfolio set_portfolio]. rewrite DictFacts.get_set_eq.
      cbn [PortfolioHolding.quantity]. lia.
    + unfold exec. rewrite (update_portfolio_position_unheld w symbol dq p Hget Hle).
      cbn [snd]. rewrite Hget. lia.
Qed.

Lemma update_portfolio_position_other w symbol dq p other :
  other <> symbol ->
  Dict.get other (_portfolio (exec (InMemoryStorage.update_portfolio_position symbol dq p) w))
  = Dict.get other (_portfolio w).
Proof.
  intros Hne.
  destruct (update_portfolio_position_cases w symbol dq p)
    as (d & Hrun & [->|[(h & -> & _)|(h & ->)]]);
    unfold exec; rewrite Hrun; cbn [snd _portfolio set_portfolio].
  - reflexivity.
  - apply DictFacts.get_set_ne. congruence.
  - rewrite DictFacts.get_del_ne by congruence. apply DictFacts.get_set_ne. congruence.
Qed.

(** X9.  The arithmetic of a position delta.  The net position in the
    symbol becomes [old + dq] when a holding exists, and [max 0 dq] when
    none does (a sale of something not held is dropped); the delta never
    raises, and it changes nothing but the holding of its own symbol: every
    other holding, the orders, the trades and the catalog stay as they were. *)
Theorem position_delta_arithmetic :
  forall w symbol dq p,
    exists w',
      InMemoryStorage.update_portfolio_position symbol dq p w = (Return tt, w')
      /\ held_quantity symbol w'
         = match Dict.get symbol (_portfolio w) with
           | Some h => (PortfolioHolding.quantity h + dq)%Z
           | None => Z.max 0 dq
           end
      /\ (forall other, other <> symbol ->
                        Dict.get other (_portfolio w') = Dict.get other (_portfolio w))
      /\ w' = set_portfolio (_portfolio w') w.
Proof.
  intros w symbol dq p.
  pose proof (held_quantity_update w symbol dq p) as Hheld.
  pose proof (update_portfolio_position_other w symbol dq p) as Hother.
  destruct (update_portfolio_position_total w symbol dq p) as [d Hrun].
  unfold exec in Hheld, Hother. rewrite Hrun in Hheld, Hother |- *.
  exists (set_portfolio d w). repeat split; assumption.
Qed.

(** ** Booking a trade a second time *)

Lemma update_portfolio_from_trade_run trade w :
  PortfolioService.update_portfolio_from_trade trade w
  = match Dict.get (Trade.order_id trade) (_orders w) with
    | None =>
        (Raise (ValueError (String.concat "" ["Order "; Trade.order_id trade; " not found"])),
         w)
    | Some order =>
        InMemoryStorage.update_portfolio_position (Trade.symbol trade)
          (match Order.order_type (heap w order) with
           | BUY => Trade.quantity trade
           | SELL => - Trade.quantity trade
           end)%Z
          (Trade.price trade) w
    end.
Proof.
  unfold PortfolioService.update_portfolio_from_trade, bind, InMemoryStorage.get_order,
    getattr, gets, raise.
  destruct (Dict.get (Trade.order_id trade) (_orders w)) as [order|]; [|reflexivity].
  now destruct (Order.order_type (heap w order)).
Qed.

(** X10.  [update_portfolio_from_trade] finds the side of a trade through
    the stored order: when no order is stored under the trade's order id it
    raises [ValueError] "Order <id> not found" and changes nothing;
    otherwise it applies the trade's quantity, signed by the order's type,
    at the trade's price.  Execution has already applied that delta, so
    booking the trade of an executed BUY order again counts the purchase
    twice. *)
Theorem update_portfolio_from_trade_books_again :
  forall w,
    (forall trade,
        Dict.get (Trade.order_id trade) (_orders w) = None ->
        PortfolioService.update_portfolio_from_trade trade w
        = (Raise (ValueError (String.concat "" ["Order "; Trade.order_id trade; " not found"])),
           w))
    /\ (forall trade order,
           Dict.get (Trade.order_id trade) (_orders w) = Some order ->
           PortfolioService.update_portfolio_from_trade trade w
           = InMemoryStorage.update_portfolio_position (Trade.symbol trade)
               (TradeService.quantity_change_of (Order.order_type (heap w order))
                  (Trade.quantity trade))
               (Trade.price trade) w)
    /\ (forall order ins,
           Order.order_style (heap w order) = MARKET ->
           Dict.get (Order.symbol (heap w order)) (_instruments w) = Some ins ->
           Dict.get (Order.id (heap w order)) (_orders w) = Some order ->
           Order.order_type (heap w order) = BUY ->
           (0 < Order.quantity (heap w order))%Z ->
           exists trade w1 w2,
             TradeService.execute_market_order order w = (Return trade, w1)
             /\ PortfolioService.update_portfolio_from_trade trade w1 = (Return tt, w2)
             /\ held_quantity (Order.symbol (heap w order)) w1
                = (held_quantity (Order.symbol (heap w order)) w
                   + Order.quantity (heap w order))%Z
             /\ held_quantity (Order.symbol (heap w order)) w2
                = (held_quantity (Order.symbol (heap w order)) w
                   + 2 * Order.quantity (heap w order))%Z).
Proof.
  intros w. split; [|split].
  - intros trade Hnone. now rewrite update_portfolio_from_trade_run, Hnone.
  - intros trade order Hsome. rewrite update_portfolio_from_trade_run, Hsome.
    now destruct (Order.order_type (heap w order)).
  - intros order ins Hstyle Hins Hstored Hbuy Hq.
    rewrite (execute_market_order_settles w order ins Hstyle Hins).
    destruct (settle_run order (Instrument.last_traded_price ins) w)
      as (w1 & Hrun & _ & Horders & _ & Hheap & Hport & _).
    rewrite Hstored in Hheap.
    assert (signed_quantity (heap w order) = Order.quantity (heap w order)) as Hd
        by (unfold signed_quantity; now rewrite Hbuy).
    rewrite Hd in Hport.
    set (symbol := Order.symbol (heap w order)) in *.
    set (q := Order.quantity (heap w order)) in *.
    set (P := Instrument.last_traded_price ins) in *.
    assert (held_quantity symbol w1 = (held_quantity symbol w + q)%Z) as Hheld1.
    { pose proof (held_quantity_update w symbol q P) as Hupd.
      unfold held_quantity in Hupd |- *. rewrite Hport.
      unfold held_quantity in Hupd. rewrite Hupd.
      destruct (Dict.get symbol (_portfolio w)); lia. }
    assert (PortfolioService.update_portfolio_from_trade
              (fill order P w) w1
            = InMemoryStorage.update_portfolio_position symbol q P w1) as Hagain.
    { rewrite update_portfolio_from_trade_run. cbn [fill Trade.order_id Trade.symbol
        Trade.quantity Trade.price]. rewrite Horders, Hstored, Hheap.
      rewrite (heap_alter_status_attr Order.order_type) by reflexivity.
      now rewrite Hbuy. }
    destruct (update_portfolio_position_total w1 symbol q P) as [d Hrun2].
    exists (fill order P w), w1, (set_portfolio d w1).
    split; [exact Hrun|]. split; [now rewrite Hagain|]. split; [exact Hheld1|].
    pose proof (held_quantity_update w1 symbol q P) as Hupd.
    unfold exec in Hupd. rewrite Hrun2 in Hupd. cbn [snd] in Hupd. rewrite Hupd.
    unfold held_quantity in Hheld1 |- *.
    destruct (Dict.get symbol (_portfolio w1)), (Dict.get symbol (_portfolio w)); lia.
Qed.

(** The BUY MARKET order for 100 TCS, executed and then booked again. *)
Lemma update_portfolio_from_trade_books_again_witness :
  exists trade w1 w2,
    TradeService.execute_market_order 0 world_buy_market = (Return trade, w1)
    /\ PortfolioService.update_portfolio_from_trade trade w1 = (Return tt, w2)
    /\ held_quantity "TCS" w1 = 100%Z
    /\ held_quantity "TCS" w2 = 200%Z.
Proof.
  apply (proj2 (proj2 (update_portfolio_from_trade_books_again world_buy_market))
           0 (Instrument.mk "TCS" "NSE" STOCK (Dec.mk 345025 (-2))));
    reflexivity.
Defined.

(** ** Reading the portfolio again *)

Lemma snapshot_entry_again w h :
  snapshot_entry w (after_snapshot w h) = snapshot_entry w h.
Proof.
  unfold after_snapshot, snapshot_entry.
  destruct (live_price (PortfolioHolding.symbol h) w) as [P|] eqn:Hlive;
    cbn [marked_to PortfolioHolding.symbol]; now rewrite Hlive.
Qed.

Lemma after_snapshot_again w h :
  after_snapshot w (after_snapshot w h) = after_snapshot w h.
Proof.
  unfold after_snapshot at 1. rewrite snapshot_entry_again.
  unfold after_snapshot. now destruct (snapshot_entry w h).
Qed.

Lemma omap_values_map_values {V B} (f : V -> option B) (g : V -> V) (d : Dict.t V) :
  omap f (Dict.values (map_values g d)) = omap (fun v => f (g v)) (Dict.values d).
Proof.
  induction d as [|[k v] d IH]; [reflexivity|].
  cbn [map_values Dict.values List.map fst snd]. rewrite !omap_cons.
  unfold map_values, Dict.values in IH. now rewrite IH.
Qed.

Lemma omap_ext_pointwise {A B} (f g : A -> option B) (l : list A) :
  (forall x, f x = g x) -> omap f l = omap g l.
Proof.
  intros H. induction l as [|x l IH]; [reflexivity|].
  now rewrite !omap_cons, H, IH.
Qed.

Lemma map_values_again {V} (f : V -> V) (d : Dict.t V) :
  (forall v, f (f v) = f v) -> map_values f (map_values f d) = map_values f d.
Proof.
  intros H. unfold map_values. rewrite List.map_map. apply List.map_ext.
  intros [k v]. cbn. now rewrite H.
Qed.

Lemma portfolio_wf_after_snapshot w d :
  portfolio_wf d -> portfolio_wf (map_values (after_snapshot w) d).
Proof.
  intros [Hkeys Hsym]. split.
  - unfold unique_keys. now rewrite keys_map_values.
  - unfold map_values. apply List.Forall_map.
    eapply List.Forall_impl; [|exact Hsym].
    intros [k h] H. cbn in *. now rewrite after_snapshot_symbol.
Qed.

(** A snapshot taken right after a snapshot. *)
Lemma get_portfolio_again w :
  portfolio_wf (_portfolio w) ->
  PortfolioService.get_portfolio (exec PortfolioService.get_portfolio w)
  = (fst (PortfolioService.get_portfolio w), exec PortfolioService.get_portfolio w).
Proof.
  intros Hwf. unfold exec. rewrite (get_portfolio_run w Hwf). cbn [fst snd].
  rewrite get_portfolio_run
    by (cbn [_portfolio set_portfolio]; now apply portfolio_wf_after_snapshot).
  cbn [_portfolio set_portfolio].
  rewrite snapshot_entry_frame, after_snapshot_frame, omap_values_map_values.
  rewrite (omap_ext_pointwise _ (snapshot_entry w))
    by (intros h; apply snapshot_entry_again).
  rewrite map_values_again by apply after_snapshot_again.
  reflexivity.
Qed.

(** X11.  The snapshot is idempotent: taken again right after itself, with
    one holding per symbol, [get_portfolio] returns the same list and
    leaves the store exactly as the first one left it. *)
Theorem snapshot_idempotent :
  forall w,
    portfolio_wf (_portfolio w) ->
    exists holdings w',
      PortfolioService.get_portfolio w = (Return holdings, w')
      /\ PortfolioService.get_portfolio w' = (Return holdings, w')
      /\ portfolio_wf (_portfolio w').
Proof.
  intros w Hwf. pose proof (get_portfolio_again w Hwf) as Hagain.
  unfold exec in Hagain. rewrite (get_portfolio_run w Hwf) in Hagain |- *.
  cbn [fst snd] in Hagain.
  do 2 eexists. split; [reflexivity|]. split; [exact Hagain|].
  cbn [_portfolio set_portfolio]. now apply portfolio_wf_after_snapshot.
Qed.

Lemma snapshot_idempotent_witness :
  exists holdings w',
    PortfolioService.get_portfolio world_tcs_100 = (Return holdings, w')
    /\ PortfolioService.get_portfolio w' = (Return holdings, w')
    /\ portfolio_wf (_portfolio w').
Proof.
  apply (snapshot_idempotent world_tcs_100).
  split; repeat constructor. cbn. intros H. inversion H.
Defined.

(** ** Totals *)

Lemma sum_loop {A} (f : A -> Decimal) (l : list A) : forall acc w,
  for_each l acc (fun total x => ret (Dec.add total (f x))) w
  = (Return (List.fold_left Dec.add (List.map f l) acc), w).
Proof.
  induction l as [|x l IH]; intros acc w; [reflexivity|].
  cbn [for_each List.map List.fold_left]. unfold bind at 1, ret at 1. apply IH.
Qed.

Lemma calculate_portfolio_value_run w holdings w' :
  PortfolioService.get_portfolio w = (Return holdings, w') ->
  PortfolioService.calculate_portfolio_value w
  = (Return (decimal_sum (List.map PortfolioHolding.current_value holdings)), w').
Proof.
  intros Hrun. unfold PortfolioService.calculate_portfolio_value. unfold bind at 1.
  rewrite Hrun. apply (sum_loop PortfolioHolding.current_value).
Qed.

Lemma calculate_portfolio_pnl_run w holdings w' :
  PortfolioService.get_portfolio w = (Return holdings, w') ->
  PortfolioService.calculate_portfolio_pnl w
  = (Return (decimal_sum (List.map holding_pnl holdings)), w').
Proof.
  intros Hrun. unfold PortfolioService.calculate_portfolio_pnl. unfold bind at 1.
  rewrite Hrun. apply (sum_loop holding_pnl).
Qed.

(** X12.  The summary is consistent with itself and with the snapshot:
    its holdings are the snapshot, [holdings_count] is their number,
    [total_value] is the Decimal sum of their current values and
    [total_pnl] the Decimal sum of [current_value - quantity *
    average_price] over them, both added from 0 in snapshot order; the three
    snapshots it takes leave the store as one snapshot does, and the two
    totals are those [calculate_portfolio_value] and
    [calculate_portfolio_pnl] return on their own. *)
Theorem portfolio_summary_consistent :
  forall w,
    portfolio_wf (_portfolio w) ->
    exists s w',
      PortfolioService.get_portfolio_summary w = (Return s, w')
      /\ PortfolioService.get_portfolio w = (Return (PortfolioService.holdings s), w')
      /\ PortfolioService.holdings_count s = length (PortfolioService.holdings s)
      /\ PortfolioService.total_value s
         = decimal_sum (List.map PortfolioHolding.current_value (PortfolioService.holdings s))
      /\ PortfolioService.total_pnl s
         = decimal_sum (List.map holding_pnl (PortfolioService.holdings s))
      /\ PortfolioService.calculate_portfolio_value w
         = (Return (PortfolioService.total_value s), w')
      /\ PortfolioService.calculate_portfolio_pnl w
         = (Return (PortfolioService.total_pnl s), w').
Proof.
  intros w Hwf.
  pose proof (get_portfolio_again w Hwf) as Hagain. unfold exec in Hagain.
  destruct (PortfolioService.get_portfolio w) as [[holdings|e] w'] eqn:Hrun;
    [|rewrite (get_portfolio_run w Hwf) in Hrun; discriminate].
  cbn [fst snd] in Hagain.
  unfold PortfolioService.get_portfolio_summary.
  unfold bind at 1. rewrite Hrun.
  unfold bind at 1. rewrite (calculate_portfolio_value_run w' holdings w' Hagain).
  unfold bind at 1. rewrite (calculate_portfolio_pnl_run w' holdings w' Hagain).
  unfold ret. do 2 eexists. split; [reflexivity|].
  cbn [PortfolioService.holdings PortfolioService.holdings_count
       PortfolioService.total_value PortfolioService.total_pnl].
  repeat split.
  - now apply calculate_portfolio_value_run.
  - now apply calculate_portfolio_pnl_run.
Qed.

(** The summary of a position of 100 TCS bought at 3000: worth 345025.00,
    45025.00 above cost. *)
Lemma portfolio_summary_consistent_witness :
  exists w',
    PortfolioService.get_portfolio_summary world_tcs_100
    = (Return
         (PortfolioService.mk_summary
            [PortfolioHolding.mk "TCS" 100 (Dec.of_int 3000) (Dec.mk 34502500 (-2))]
            (Dec.mk 34502500 (-2)) (Dec.mk 4502500 (-2)) 1), w').
Proof.
  destruct (portfolio_summary_consistent world_tcs_100)
    as (s & w' & Hrun & Hsnap & Hcount & Hvalue & Hpnl & _).
  - split; repeat constructor. cbn. intros H. inversion H.
  - exists w'. rewrite Hrun. destruct s as [hs tv tp n].
    cbn [PortfolioService.holdings PortfolioService.holdings_count
         PortfolioService.total_value PortfolioService.total_pnl] in *.
    injection Hsnap as <- _. subst tv tp n. reflexivity.
Defined.

(** ** Profit and loss at cost *)

Lemma Dec_sub_self (x : Decimal) : Dec.coeff (Dec.sub x x) = 0%Z.
Proof.
  destruct x as [c e]. unfold Dec.sub, Dec.add, Dec.neg. cbn [Dec.coeff Dec.exponent].
  rewrite Z.min_id, Z.sub_diag.
  replace (c * 10 ^ 0 + - c * 10 ^ 0)%Z with 0%Z by lia. reflexivity.
Qed.

Lemma Dec_add_zero (a b : Decimal) :
  Dec.coeff a = 0%Z -> Dec.coeff b = 0%Z -> Dec.coeff (Dec.add a b) = 0%Z.
Proof.
  destruct a as [ca ea], b as [cb eb]. cbn [Dec.coeff]. intros -> ->.
  unfold Dec.add. cbn [Dec.coeff Dec.exponent]. rewrite !Z.mul_0_l. reflexivity.
Qed.

Lemma Dec_eqb_zero (z : Decimal) : Dec.coeff z = 0%Z -> Dec.eqb z (Dec.of_int 0) = true.
Proof.
  destruct z as [c e]. cbn [Dec.coeff]. intros ->.
  unfold Dec.eqb, Dec.compare, Dec.of_int. cbn [Dec.coeff Dec.exponent].
  now rewrite !Z.mul_0_l.
Qed.

Lemma decimal_sum_zero (l : list Decimal) : forall acc,
  Dec.coeff acc = 0%Z ->
  Forall (fun d => Dec.coeff d = 0%Z) l ->
  Dec.coeff (List.fold_left Dec.add l acc) = 0%Z.
Proof.
  induction l as [|d l IH]; intros acc Hacc Hl; [exact Hacc|].
  apply List.Forall_cons_iff in Hl as [Hd Hl]. cbn [List.fold_left].
  apply IH; [now apply Dec_add_zero|exact Hl].
Qed.

(** X13.  A portfolio valued at cost shows no profit and no loss: when
    every listed holding's average price is the live price of its symbol,
    [calculate_portfolio_pnl] returns a Decimal equal to zero (holdings
    without instrument are left out of the total). *)
Theorem pnl_zero_at_cost :
  forall w,
    portfolio_wf (_portfolio w) ->
    (forall symbol h P,
        Dict.get symbol (_portfolio w) = Some h ->
        live_price symbol w = Some P ->
        P = PortfolioHolding.average_price h) ->
    exists total_pnl w',
      PortfolioService.calculate_portfolio_pnl w = (Return total_pnl, w')
      /\ Dec.eqb total_pnl (Dec.of_int 0) = true.
Proof.
  intros w Hwf Hcost.
  rewrite (calculate_portfolio_pnl_run w _ _ (get_portfolio_run w Hwf)).
  do 2 eexists. split; [reflexivity|].
  apply Dec_eqb_zero, decimal_sum_zero; [reflexivity|].
  apply List.Forall_map, List.Forall_forall. intros h' Hin.
  apply list_elem_of_In, list_elem_of_omap in Hin as (h & Hh & Hentry).
  apply list_elem_of_In in Hh. unfold Dict.values in Hh.
  apply in_map_iff in Hh as ([k h0] & Heq & Hin). cbn in Heq. subst h0.
  destruct Hwf as [Hkeys Hsym].
  pose proof (DictFacts.In_get _ _ _ Hkeys Hin) as Hget.
  rewrite List.Forall_forall in Hsym. specialize (Hsym _ Hin). cbn in Hsym.
  unfold snapshot_entry in Hentry. rewrite Hsym in Hentry.
  destruct (live_price k w) as [P|] eqn:Hlive; [|discriminate].
  injection Hentry as <-.
  rewrite (Hcost k h P Hget Hlive).
  unfold holding_pnl, marked_to.
  cbn [PortfolioHolding.current_value PortfolioHolding.quantity PortfolioHolding.average_price].
  apply Dec_sub_self.
Qed.

(** Right after a market purchase of 100 TCS into an empty portfolio. *)
Lemma pnl_zero_at_cost_witness :
  exists total_pnl w',
    PortfolioService.calculate_portfolio_pnl
      (exec (TradeService.execute_market_order 0) world_buy_market)
    = (Return total_pnl, w')
    /\ Dec.eqb total_pnl (Dec.of_int 0) = true.
Proof.
  apply (pnl_zero_at_cost (exec (TradeService.execute_market_order 0) world_buy_market)).
  - split; repeat constructor. cbn. intros H. inversion H.
  - intros symbol h P Hget Hlive.
    assert (_portfolio (exec (TradeService.execute_market_order 0) world_buy_market)
            = [("TCS", PortfolioHolding.mk "TCS" 100 (Dec.mk 345025 (-2))
                         (Dec.mk 34502500 (-2)))]) as Hp by reflexivity.
    rewrite Hp in Hget. cbn [Dict.get] in Hget.
    destruct (String.eqb_spec symbol "TCS") as [->|_]; [|discriminate].
    injection Hget as <-. vm_compute in Hlive. injection Hlive as <-. reflexivity.
Defined.

(** ** The price feed *)

(** X14.  [save_instrument] is the price feed.  Once an instrument is
    saved, [get_instrument_by_symbol] returns it, a market order on its
    symbol fills at its price, and [get_holding] marks the holding of the
    symbol to that price; the catalog keeps one entry per symbol (a known
    symbol is replaced in place, a new one is listed last).  A symbol that
    is not in the catalog makes [get_instrument_by_symbol] raise
    [ValueError] "Instrument with symbol <symbol> not found" and change
    nothing. *)
Theorem price_feed :
  forall w instrument,
    let symbol := Instrument.symbol instrument in
    let P := Instrument.last_traded_price instrument in
    let w1 := exec (InMemoryStorage.save_instrument instrument) w in
    InstrumentService.get_instrument_by_symbol symbol w1 = (Return instrument, w1)
    /\ (forall order,
           Order.order_style (heap w order) = MARKET ->
           Order.symbol (heap w order) = symbol ->
           exists w', TradeService.execute_market_order order w1
                      = (Return (fill order P w), w'))
    /\ (forall h,
           Dict.get symbol (_portfolio w) = Some h ->
           fst (PortfolioService.get_holding symbol w1) = Return (Some (marked_to P h)))
    /\ match Dict.get symbol (_instruments w) with
       | Some _ =>
           length (Dict.values (_instruments w1)) = length (Dict.values (_instruments w))
       | None => Dict.values (_instruments w1) = Dict.values (_instruments w) ++ [instrument]
       end
    /\ (unique_keys (_instruments w) -> unique_keys (_instruments w1))
    /\ (forall unknown,
           Dict.get unknown (_instruments w) = None ->
           InstrumentService.get_instrument_by_symbol unknown w
           = (Raise (ValueError (String.concat ""
                                   ["Instrument with symbol "; unknown; " not found"])), w)).
Proof.
  intros w instrument symbol P w1.
  assert (Dict.get symbol (_instruments w1) = Some instrument) as Hget
      by apply DictFacts.get_set_eq.
  split; [|split; [|split; [|split; [|split]]]].
  - unfold InstrumentService.get_instrument_by_symbol, bind,
      InMemoryStorage.get_instrument, gets, ret.
    now rewrite Hget.
  - intros order Hstyle Hsym.
    rewrite (execute_market_order_settles w1 order instrument Hstyle)
      by (change (heap w1) with (heap w); now rewrite Hsym).
    destruct (settle_run order P w1) as (w' & Hrun & _).
    exists w'. exact Hrun.
  - intros h Hh. rewrite get_holding_run.
    change (_portfolio w1) with (_portfolio w). rewrite Hh.
    unfold live_price. now rewrite Hget.
  - destruct (Dict.get symbol (_instruments w)) as [old|] eqn:Hold.
    + now apply (values_set_present _ _ _ old).
    + now apply values_set_absent.
  - apply DictFacts.unique_keys_set.
  - intros unknown Hnone.
    unfold InstrumentService.get_instrument_by_symbol, bind,
      InMemoryStorage.get_instrument, gets, raise.
    now rewrite Hnone.
Qed.

(** TCS re-quoted at 3500.00: the placed BUY MARKET order for 100 TCS
    fills at the new price. *)
Lemma price_feed_witness :
  exists w',
    TradeService.execute_market_order 0
      (exec (InMemoryStorage.save_instrument
               (Instrument.mk "TCS" "NSE" STOCK (Dec.mk 350000 (-2)))) world_buy_market)
    = (Return (Trade.mk "uuid-1" "uuid-0" "TCS" 100 (Dec.mk 350000 (-2)) 1700000001%Z), w').
Proof.
  apply (proj1 (proj2 (price_feed world_buy_market
                         (Instrument.mk "TCS" "NSE" STOCK (Dec.mk 350000 (-2)))))
           0); reflexivity.
Defined.

(** ** The invariant of the store *)

(** [store_ok] reads the order index, the ids of the objects, the next
    reference, the trades and the holdings, and nothing else. *)
Lemma store_ok_frame w w' :
  _orders w' = _orders w ->
  (forall r, Order.id (heap w' r) = Order.id (heap w r)) ->
  next_ref w' = next_ref w ->
  _trades w' = _trades w ->
  _portfolio w' = _portfolio w ->
  store_ok w -> store_ok w'.
Proof.
  intros Ho Hid Hn Ht Hp ((Hkeys & Hids) & Hrefs & Htwf & Hpwf & Hnz & Href).
  unfold store_ok, orders_wf, refs_allocated, trades_reference_orders.
  rewrite Ho, Hn, Ht, Hp.
  split; [split; [assumption|]|tauto].
  eapply List.Forall_impl; [|exact Hids]. intros kv H. now rewrite Hid.
Qed.

Lemma store_ok_set_portfolio w d :
  store_ok w -> portfolio_wf d -> no_zero_holding d -> store_ok (set_portfolio d w).
Proof.
  intros (Ho & Hrefs & Htwf & _ & _ & Href) Hwf Hnz.
  unfold store_ok. cbn [_portfolio set_portfolio _trades].
  split; [exact Ho|]. split; [exact Hrefs|]. tauto.
Qed.

Lemma store_ok_update_portfolio_position w symbol dq p :
  store_ok w -> store_ok (exec (InMemoryStorage.update_portfolio_position symbol dq p) w).
Proof.
  intros Hok.
  pose proof (update_portfolio_position_wf w symbol dq p) as Hwf.
  pose proof (update_portfolio_position_no_zero w symbol dq p) as Hnz.
  destruct (update_portfolio_position_total w symbol dq p) as [d Hrun].
  unfold exec in *. rewrite Hrun in *. cbn [snd _portfolio set_portfolio] in *.
  destruct Hok as (Ho & Hrefs & Htwf & Hpwf & Hpnz & Href).
  apply store_ok_set_portfolio; [unfold store_ok; tauto|now apply Hwf|now apply Hnz].
Qed.

Lemma store_ok_with_status w order s : store_ok w -> store_ok (with_status s order w).
Proof.
  apply store_ok_frame; try reflexivity.
  intros r. cbn. now apply heap_alter_status_attr.
Qed.

(** Settling an order whose id is stored keeps the invariant. *)
Lemma store_ok_settle w order P :
  store_ok w ->
  Dict.get (Order.id (heap w order)) (_orders w) <> None ->
  store_ok (exec (settle order P) w).
Proof.
  intros Hok Hstored.
  destruct (settle_run order P w) as (w' & Hrun & Htrades & Horders & _ & Hheap & Hport & _).
  destruct (settle_counters order P w) as (Hnext & _).
  assert (exec (settle order P) w = w') as Hw' by (unfold exec; now rewrite Hrun).
  rewrite Hw' in *.
  assert (forall r, Order.id (heap w' r) = Order.id (heap w r)) as Hid.
  { intros r. rewrite Hheap. destruct (Dict.get _ (_orders w)); [|reflexivity].
    now apply heap_alter_status_attr. }
  pose proof (store_ok_update_portfolio_position w (Order.symbol (heap w order))
                (signed_quantity (heap w order)) P Hok) as (_ & _ & _ & Hpwf & Hpnz & _).
  destruct Hok as ((Hkeys & Hids) & Hrefs & (Htkeys & Htids) & _ & _ & Href).
  unfold store_ok, orders_wf, refs_allocated, trades_wf, trades_reference_orders.
  rewrite Horders, Hnext, Htrades, Hport.
  split; [split; [assumption|]|].
  { eapply List.Forall_impl; [|exact Hids]. intros kv H. now rewrite Hid. }
  split; [assumption|].
  split; [split; [now apply DictFacts.unique_keys_set|now apply Forall_set]|].
  split; [assumption|]. split; [assumption|].
  now apply Forall_set.
Qed.

Lemma store_ok_placed_order symbol order_type order_style quantity price w :
  store_ok w ->
  store_ok (exec (placed_order symbol order_type order_style quantity price) w).
Proof.
  intros ((Hkeys & Hids) & Hrefs & Htwf & Hpwf & Hpnz & Href).
  destruct (placed_order_run symbol order_type order_style quantity price w)
    as (_ & Hheap & Hother & Horders & Hnext & _ & Htrades & Hport & _).
  set (w1 := exec (placed_order _ _ _ _ _) w) in *.
  unfold refs_allocated in Hrefs. rewrite List.Forall_forall in Hids, Hrefs.
  unfold store_ok, orders_wf, refs_allocated, trades_reference_orders.
  rewrite Horders, Hnext, Htrades, Hport.
  split; [split; [now apply DictFacts.unique_keys_set|]|].
  { apply Forall_set.
    - apply List.Forall_forall. intros kv Hin.
      rewrite Hother; [now apply Hids|].
      intros Heq. pose proof (Hrefs kv Hin) as Hlt. cbn beta in Hlt.
      apply (Nat.lt_neq _ _ Hlt). exact Heq.
    - cbn [fst snd]. now rewrite Hheap. }
  split.
  { apply Forall_set; [|cbn; lia].
    apply List.Forall_forall. intros kv Hin. specialize (Hrefs kv Hin). lia. }
  split; [assumption|]. split; [assumption|]. split; [assumption|].
  eapply List.Forall_impl; [|exact Href].
  intros kv H. now apply get_set_keeps.
Qed.

Lemma place_order_exec req w :
  exec (OrderService.place_order req) w = w
  \/ (let w1 := exec (placed_order (OrderRequest.symbol req) (OrderRequest.order_type req)
                        (OrderRequest.order_style req) (OrderRequest.quantity req)
                        (OrderRequest.price req)) w in
      exec (OrderService.place_order req) w = w1
      \/ exists P, exec (OrderService.place_order req) w = exec (settle (next_ref w) P) w1).
Proof.
  destruct (validate_order_request_run req w) as [Hok|[e He]].
  - right. cbv zeta. unfold exec at 1 3. rewrite (place_order_run req w Hok). cbn [snd].
    destruct (OrderRequest.order_style req); [|now left].
    destruct (_execute_market_order_cases (next_ref w)
                (exec (placed_order (OrderRequest.symbol req) (OrderRequest.order_type req)
                         MARKET (OrderRequest.quantity req) (OrderRequest.price req)) w))
      as [->|[P ->]]; eauto.
  - left. unfold exec. now rewrite (place_order_rejects req w e He).
Qed.

Lemma store_ok_place_order req w :
  store_ok w -> store_ok (exec (OrderService.place_order req) w).
Proof.
  intros Hok.
  pose proof (store_ok_placed_order (OrderRequest.symbol req) (OrderRequest.order_type req)
                (OrderRequest.order_style req) (OrderRequest.quantity req)
                (OrderRequest.price req) w Hok) as Hok1.
  destruct (place_order_exec req w) as [->|[->|[P ->]]]; try assumption.
  apply store_ok_settle; [assumption|].
  destruct (placed_order_run (OrderRequest.symbol req) (OrderRequest.order_type req)
              (OrderRequest.order_style req) (OrderRequest.quantity req)
              (OrderRequest.price req) w) as (_ & Hheap & _ & Horders & _).
  rewrite Hheap, Horders. cbn [Order.id]. rewrite DictFacts.get_set_eq. discriminate.
Qed.

(** One pass of the sweep loop either settles the order or prints a line. *)
Lemma simulate_body_cases acc order w :
  (exists ins,
      Order.order_style (heap w order) = MARKET
      /\ Dict.get (Order.symbol (heap w order)) (_instruments w) = Some ins
      /\ TradeService.simulate_body acc order w
         = (Return (acc ++ [fill order (Instrument.last_traded_price ins) w]),
            exec (settle order (Instrument.last_traded_price ins)) w))
  \/ ((Order.order_style (heap w order) <> MARKET
       \/ Dict.get (Order.symbol (heap w order)) (_instruments w) = None)
      /\ exists line,
           TradeService.simulate_body acc order w
           = (Return acc, set_stdout (stdout w ++ [line]) w)).
Proof.
  assert (Order.order_style (heap w order) <> MARKET
          \/ Dict.get (Order.symbol (heap w order)) (_instruments w) = None ->
          exists line,
            TradeService.simulate_body acc order w
            = (Return acc, set_stdout (stdout w ++ [line]) w)) as Hraise.
  { intros H. destruct (execute_market_order_raises w order H) as [msg Hrun].
    unfold TradeService.simulate_body, try_except. unfold bind at 1. rewrite Hrun.
    unfold bind, getattr, gets, print, modify, ret. eauto. }
  destruct (Order.order_style (heap w order)) eqn:Hstyle.
  - destruct (Dict.get (Order.symbol (heap w order)) (_instruments w)) as [ins|] eqn:Hins.
    + left. exists ins. split; [reflexivity|]. split; [reflexivity|].
      unfold TradeService.simulate_body, try_except. unfold bind at 1.
      now rewrite (execute_market_order_settles w order ins Hstyle Hins), settle_exec.
    + right. split; [now right|]. apply Hraise. now right.
  - right. split; [left; discriminate|]. apply Hraise. left. discriminate.
Qed.

Lemma store_ok_simulate_loop targets : forall acc w,
  store_ok w ->
  Forall (fun order => Dict.get (Order.id (heap w order)) (_orders w) <> None) targets ->
  store_ok (exec (for_each targets acc TradeService.simulate_body) w).
Proof.
  induction targets as [|order targets IH]; intros acc w Hok Hstored; [exact Hok|].
  apply List.Forall_cons_iff in Hstored as [Hfirst Hrest].
  unfold exec. cbn [for_each]. unfold bind at 1.
  destruct (simulate_body_cases acc order w) as [(ins & _ & _ & ->)|(_ & line & ->)].
  - apply IH; [now apply store_ok_settle|].
    destruct (settle_run order (Instrument.last_traded_price ins) w)
      as (w' & Hrun & _ & Horders & _ & Hheap & _).
    assert (exec (settle order (Instrument.last_traded_price ins)) w = w') as ->
        by (unfold exec; now rewrite Hrun).
    eapply List.Forall_impl; [|exact Hrest]. intros r Hr.
    rewrite Horders, Hheap.
    destruct (Dict.get (Order.id (heap w order)) (_orders w)); [|assumption].
    now rewrite (heap_alter_status_attr Order.id) by reflexivity.
  - apply IH; [|exact Hrest].
    revert Hok. now apply store_ok_frame.
Qed.

Lemma store_ok_simulate_market_execution w :
  store_ok w -> store_ok (exec TradeService.simulate_market_execution w).
Proof.
  intros Hok. unfold exec, TradeService.simulate_market_execution.
  unfold bind at 1, InMemoryStorage.get_all_orders at 1, gets at 1.
  unfold bind at 1, gets at 1.
  apply store_ok_simulate_loop; [assumption|].
  apply List.Forall_forall. intros order Hin.
  apply filter_In in Hin as [Hin _].
  destruct Hok as (Hwf & _).
  rewrite (marked_executed_self w order Hwf Hin). discriminate.
Qed.

Lemma no_zero_after_snapshot w d :
  no_zero_holding d -> no_zero_holding (map_values (after_snapshot w) d).
Proof.
  intros Hnz. unfold no_zero_holding, map_values. apply List.Forall_map.
  eapply List.Forall_impl; [|exact Hnz].
  intros [k h] H. cbn [fst snd] in *. unfold after_snapshot, snapshot_entry.
  now destruct (live_price (PortfolioHolding.symbol h) w).
Qed.

Lemma store_ok_get_portfolio w :
  store_ok w -> store_ok (exec PortfolioService.get_portfolio w).
Proof.
  intros Hok. pose proof Hok as (_ & _ & _ & Hwf & Hnz & _).
  unfold exec. rewrite (get_portfolio_run w Hwf). cbn [snd].
  apply store_ok_set_portfolio;
    [assumption|now apply portfolio_wf_after_snapshot|now apply no_zero_after_snapshot].
Qed.

Lemma store_ok_get_holding symbol w :
  store_ok w -> store_ok (exec (PortfolioService.get_holding symbol) w).
Proof.
  intros Hok. pose proof Hok as (_ & _ & _ & Hwf & Hnz & _).
  unfold exec. rewrite get_holding_run.
  destruct (Dict.get symbol (_portfolio w)) as [h|] eqn:Hget; [|exact Hok].
  destruct (live_price symbol w) as [P|]; [|exact Hok]. cbn [snd].
  pose proof (DictFacts.get_Some_In _ _ _ Hget) as Hin.
  apply store_ok_set_portfolio; [assumption| |].
  - destruct Hwf as [Hkeys Hsym]. split; [now apply DictFacts.unique_keys_set|].
    now apply Forall_set.
  - apply Forall_set; [assumption|]. cbn [snd marked_to PortfolioHolding.quantity].
    unfold no_zero_holding in Hnz. rewrite List.Forall_forall in Hnz.
    apply (Hnz _ Hin).
Qed.

Lemma get_portfolio_summary_exec w :
  portfolio_wf (_portfolio w) ->
  exec PortfolioService.get_portfolio_summary w = exec PortfolioService.get_portfolio w.
Proof.
  intros Hwf. pose proof (get_portfolio_again w Hwf) as Hagain. unfold exec in *.
  destruct (PortfolioService.get_portfolio w) as [[holdings|e] w'] eqn:Hrun;
    [|rewrite (get_portfolio_run w Hwf) in Hrun; discriminate].
  cbn [fst snd] in Hagain.
  unfold PortfolioService.get_portfolio_summary.
  unfold bind at 1. rewrite Hrun.
  unfold bind at 1. rewrite (calculate_portfolio_value_run w' holdings w' Hagain).
  unfold bind at 1. rewrite (calculate_portfolio_pnl_run w' holdings w' Hagain).
  reflexivity.
Qed.

Lemma store_ok_run_call c w : store_ok w -> store_ok (run_call c w).
Proof.
  intros Hok. destruct c as [req|order_id s| | |symbol| |instrument]; cbn [run_call].
  - now apply store_ok_place_order.
  - unfold exec, OrderService.update_order_status, InMemoryStorage.update_order_status.
    destruct (Dict.get order_id (_orders w)) as [order|]; [|exact Hok].
    now apply (store_ok_with_status w order s).
  - now apply store_ok_simulate_market_execution.
  - now apply store_ok_get_portfolio.
  - now apply store_ok_get_holding.
  - pose proof Hok as (_ & _ & _ & Hwf & _).
    rewrite (get_portfolio_summary_exec w Hwf). now apply store_ok_get_portfolio.
  - revert Hok. now apply store_ok_frame.
Qed.

(** X15.  The store keeps its shape.  In the initial state, and after any
    sequence of service calls (placing orders, overwriting statuses,
    sweeps, snapshots, single-holding reads, summaries, price updates),
    whatever each returned or raised: orders are indexed by their own id,
    one per id, and only allocated objects are indexed; trades are indexed
    by their own id and each names a stored order; holdings are indexed by
    their own symbol, one per symbol, and none has quantity zero. *)
Theorem store_invariant :
  (forall uuids clock, store_ok (initial_world uuids clock))
  /\ (forall w call, store_ok w -> store_ok (run_call call w))
  /\ (forall uuids clock calls, store_ok (run_calls calls (initial_world uuids clock))).
Proof.
  assert (forall uuids clock, store_ok (initial_world uuids clock)) as Hinit.
  { intros uuids clock. repeat split; constructor. }
  split; [exact Hinit|]. split; [intros w call; apply store_ok_run_call|].
  intros uuids clock calls. unfold run_calls.
  generalize (Hinit uuids clock). generalize (initial_world uuids clock).
  induction calls as [|c calls IH]; intros w Hok; [exact Hok|].
  cbn [List.fold_left]. apply IH. now apply store_ok_run_call.
Qed.

(** ** A second sweep *)

(** A run of the sweep loop over orders that all fail only prints. *)
Lemma simulate_loop_all_fail targets : forall acc w,
  Forall (fun order =>
            Order.order_style (heap w order) <> MARKET
            \/ Dict.get (Order.symbol (heap w order)) (_instruments w) = None) targets ->
  exists lines,
    for_each targets acc TradeService.simulate_body w
    = (Return acc, set_stdout (stdout w ++ lines) w)
    /\ length lines = length targets.
Proof.
  induction targets as [|order targets IH]; intros acc w Hfail.
  - exists []. cbn [for_each]. unfold ret. rewrite List.app_nil_r.
    split; [now destruct w|reflexivity].
  - apply List.Forall_cons_iff in Hfail as [Hfirst Hrest].
    cbn [for_each]. unfold bind at 1.
    destruct (simulate_body_cases acc order w)
      as [(ins & Hstyle & Hins & _)|(_ & line & ->)].
    { exfalso. destruct Hfirst as [H|H]; congruence. }
    destruct (IH acc (set_stdout (stdout w ++ [line]) w) Hrest) as (lines & -> & Hlen).
    exists (line :: lines). split; [|cbn; now rewrite Hlen].
    cbn [stdout set_stdout]. rewrite <- List.app_assoc. reflexivity.
Qed.

(** The orders still pending after a sweep are those it could not execute. *)
Lemma sweep_leftovers w trades w' :
  orders_wf w ->
  TradeService.simulate_market_execution w = (Return trades, w') ->
  _instruments w' = _instruments w
  /\ (forall r, Order.symbol (heap w' r) = Order.symbol (heap w r))
  /\ forall order,
       In order (sweep_targets w')
       <-> In order (sweep_targets w) /\ live_price (Order.symbol (heap w order)) w = None.
Proof.
  intros Hwf Hrun.
  assert (Forall (fun order => Order.order_style (heap w order) = MARKET) (sweep_targets w))
    as Hmarket.
  { apply List.Forall_forall. intros order Hin. unfold sweep_targets in Hin.
    apply filter_In in Hin as [_ Hpending].
    now apply is_pending_market_style in Hpending. }
  destruct (simulate_loop w (sweep_targets w) [] w (sweep_inv_refl w) Hmarket)
    as (trades0 & w0 & Hloop & _ & (Hi & Ho & Hsame) & Hexec & Hkeep & _).
  change (for_each (sweep_targets w) [] TradeService.simulate_body w)
    with (TradeService.simulate_market_execution w) in Hloop.
  rewrite Hrun in Hloop. injection Hloop as -> ->.
  assert (forall order,
             In order (sweep_targets w) ->
             live_price (Order.symbol (heap w order)) w <> None ->
             In order (omap (marked_executed w) (sweep_targets w))) as Hmarked.
  { intros order Hin Hlive.
    apply list_elem_of_In, list_elem_of_omap. exists order.
    split; [now apply list_elem_of_In|].
    unfold marked_executed.
    destruct (live_price (Order.symbol (heap w order)) w); [|congruence].
    now apply marked_executed_self; [|apply sweep_targets_stored]. }
  assert (forall order,
             In order (omap (marked_executed w) (sweep_targets w)) ->
             In order (sweep_targets w)
             /\ live_price (Order.symbol (heap w order)) w <> None) as Hunmarked.
  { intros order Hin.
    apply list_elem_of_In, list_elem_of_omap in Hin as (other & Hother & Heq).
    apply list_elem_of_In in Hother. unfold marked_executed in Heq.
    destruct (live_price (Order.symbol (heap w other)) w) eqn:Hlive; [|discriminate].
    rewrite (marked_executed_self w other Hwf (sweep_targets_stored _ _ Hother)) in Heq.
    injection Heq as <-. split; [assumption|congruence]. }
  split; [exact Hi|]. split.
  { intros r. now apply same_order_attrs. }
  intros order. split.
  - intros Hin. unfold sweep_targets in Hin. apply filter_In in Hin as [Hstored Hpending].
    rewrite Ho in Hstored.
    destruct (In_dec Nat.eq_dec order (omap (marked_executed w) (sweep_targets w)))
      as [Hin|Hout].
    + apply Hexec in Hin. apply is_pending_market_style in Hpending as [Hplaced _].
      congruence.
    + unfold TradeService.is_pending_market in Hpending. rewrite (Hkeep order Hout) in Hpending.
      assert (In order (sweep_targets w)) as Htarget
          by (unfold sweep_targets; apply filter_In; now split).
      split; [exact Htarget|].
      destruct (live_price (Order.symbol (heap w order)) w) eqn:Hlive; [|reflexivity].
      exfalso. apply Hout, Hmarked; [assumption|congruence].
  - intros [Htarget Hlive].
    assert (~ In order (omap (marked_executed w) (sweep_targets w))) as Hout.
    { intros Hin. apply Hunmarked in Hin as [_ Hsome]. contradiction. }
    unfold sweep_targets in Htarget |- *. apply filter_In in Htarget as [Hstored Hpending].
    apply filter_In. rewrite Ho. split; [assumption|].
    unfold TradeService.is_pending_market in *. now rewrite (Hkeep order Hout).
Qed.

(** X16.  One sweep is enough.  With orders stored under their own ids, a
    sweep run right after a sweep executes nothing: it returns no trade
    and changes nothing but the log, to which it adds one line for each
    order still pending; these are exactly the pending MARKET orders of
    the first sweep whose symbol has no instrument. *)
Theorem sweep_settles_once :
  forall w,
    orders_wf w ->
    exists trades w' lines,
      TradeService.simulate_market_execution w = (Return trades, w')
      /\ TradeService.simulate_market_execution w'
         = (Return [], set_stdout (stdout w' ++ lines) w')
      /\ length lines = length (sweep_targets w')
      /\ forall order,
           In order (sweep_targets w')
           <-> In order (sweep_targets w)
               /\ live_price (Order.symbol (heap w order)) w = None.
Proof.
  intros w Hwf.
  destruct (TradeService.simulate_market_execution w) as [[trades|e] w'] eqn:Hrun.
  2:{ exfalso.
      assert (Forall (fun order => Order.order_style (heap w order) = MARKET)
                (sweep_targets w)) as Hmarket.
      { apply List.Forall_forall. intros order Hin. unfold sweep_targets in Hin.
        apply filter_In in Hin as [_ Hpending].
        now apply is_pending_market_style in Hpending. }
      destruct (simulate_loop w (sweep_targets w) [] w (sweep_inv_refl w) Hmarket)
        as (trades0 & w0 & Hloop & _).
      change (for_each (sweep_targets w) [] TradeService.simulate_body w)
        with (TradeService.simulate_market_execution w) in Hloop.
      congruence. }
  destruct (sweep_leftovers w trades w' Hwf Hrun) as (Hi & Hsym & Hleft).
  destruct (simulate_loop_all_fail (sweep_targets w') [] w') as (lines & Hloop & Hlen).
  { apply List.Forall_forall. intros order Hin. right.
    apply Hleft in Hin as [_ Hlive]. rewrite Hsym, Hi.
    unfold live_price in Hlive.
    now destruct (Dict.get (Order.symbol (heap w order)) (_instruments w)). }
  exists trades, w', lines. split; [reflexivity|]. split; [exact Hloop|].
  split; [exact Hlen|exact Hleft].
Qed.

(** After the sweep of the orders on TCS, NOPE and INFY, a second sweep
    only reports the order on NOPE again. *)
Lemma sweep_settles_once_witness :
  exists trades w' lines,
    TradeService.simulate_market_execution world_three_orders = (Return trades, w')
    /\ TradeService.simulate_market_execution w'
       = (Return [], set_stdout (stdout w' ++ lines) w')
    /\ length lines = length (sweep_targets w').
Proof.
  destruct (sweep_settles_once world_three_orders)
    as (trades & w' & lines & Hrun & Hagain & Hlen & _).
  - split.
    + unfold unique_keys. vm_compute.
      repeat (apply NoDup_cons; split;
              [rewrite list_elem_of_In; cbn; intuition discriminate|]).
      apply NoDup_nil. exact I.
    + vm_compute. repeat constructor.
  - exists trades, w', lines. repeat split; assumption.
Defined.

(** ** Execution and the status of the order *)

Lemma execute_market_order_error w order :
  Order.order_style (heap w order) <> MARKET
  \/ Dict.get (Order.symbol (heap w order)) (_instruments w) = None ->
  TradeService.execute_market_order order w
  = (Raise (ValueError
              (match Order.order_style (heap w order) with
               | MARKET =>
                   String.concat "" ["Instrument "; Order.symbol (heap w order); " not found"]
               | LIMIT => "Only market orders can be executed immediately"
               end)), w).
Proof.
  intros H. unfold TradeService.execute_market_order.
  unfold bind at 1, getattr at 1, gets at 1.
  destruct (Order.order_style (heap w order)) eqn:Hstyle; cbn [OrderStyle_eqb negb].
  - destruct H as [H|H]; [congruence|].
    unfold bind at 1, getattr at 1, gets at 1.
    unfold bind at 1, InMemoryStorage.get_instrument at 1, gets at 1.
    rewrite H. reflexivity.
  - reflexivity.
Qed.

Lemma with_status_attr {A} (attr : Order.t -> A) s order w r :
  (forall o, attr (Order.set_status s o) = attr o) ->
  attr (heap (with_status s order w) r) = attr (heap w r).
Proof. intros H. cbn. now apply heap_alter_status_attr. Qed.

(** [settle] does not read the status. *)
Lemma settle_ignores_status order P s w :
  fill order P (with_status s order w) = fill order P w
  /\ _trades (exec (settle order P) (with_status s order w))
     = _trades (exec (settle order P) w)
  /\ _portfolio (exec (settle order P) (with_status s order w))
     = _portfolio (exec (settle order P) w).
Proof.
  assert (fill order P (with_status s order w) = fill order P w) as Hfill.
  { unfold fill. now rewrite !with_status_attr by reflexivity. }
  split; [exact Hfill|].
  destruct (settle_run order P (with_status s order w))
    as (ws' & Hruns & Htrades_s & _ & _ & _ & Hport_s & _).
  destruct (settle_run order P w) as (w' & Hrun & Htrades & _ & _ & _ & Hport & _).
  assert (exec (settle order P) (with_status s order w) = ws') as ->
      by (unfold exec; now rewrite Hruns).
  assert (exec (settle order P) w = w') as -> by (unfold exec; now rewrite Hrun).
  rewrite Htrades_s, Htrades, Hport_s, Hport, Hfill.
  split; [reflexivity|].
  rewrite !with_status_attr by reflexivity.
  now apply update_portfolio_position_frame.
Qed.

(** X17.  Execution never looks at the status of the order.  With the
    status of the order replaced by any other one (EXECUTED and CANCELLED
    included), [execute_market_order] and [execute_limit_order] return the
    same result or raise the same error, store the same trades and leave
    the same portfolio: an order that was executed or cancelled is
    executed again like a pending one. *)
Theorem execution_ignores_status :
  forall w order s,
    let ws := with_status s order w in
    (fst (TradeService.execute_market_order order ws)
     = fst (TradeService.execute_market_order order w)
     /\ _trades (exec (TradeService.execute_market_order order) ws)
        = _trades (exec (TradeService.execute_market_order order) w)
     /\ _portfolio (exec (TradeService.execute_market_order order) ws)
        = _portfolio (exec (TradeService.execute_market_order order) w))
    /\ (forall R,
           fst (TradeService.execute_limit_order order R ws)
           = fst (TradeService.execute_limit_order order R w)
           /\ _trades (exec (TradeService.execute_limit_order order R) ws)
              = _trades (exec (TradeService.execute_limit_order order R) w)
           /\ _portfolio (exec (TradeService.execute_limit_order order R) ws)
              = _portfolio (exec (TradeService.execute_limit_order order R) w)).
Proof.
  intros w order s ws.
  assert (Order.order_style (heap ws order) = Order.order_style (heap w order)) as Hstyle
      by (apply with_status_attr; reflexivity).
  assert (Order.symbol (heap ws order) = Order.symbol (heap w order)) as Hsym
      by (apply with_status_attr; reflexivity).
  assert (Order.price (heap ws order) = Order.price (heap w order)) as Hprice
      by (apply with_status_attr; reflexivity).
  assert (Order.order_type (heap ws order) = Order.order_type (heap w order)) as Htype
      by (apply with_status_attr; reflexivity).
  split.
  - destruct (Order.order_style (heap w order)) eqn:Hm.
    + destruct (Dict.get (Order.symbol (heap w order)) (_instruments w)) as [ins|] eqn:Hins.
      * assert (Dict.get (Order.symbol (heap ws order)) (_instruments ws) = Some ins) as Hins'
            by (rewrite Hsym; exact Hins).
        unfold exec.
        rewrite (execute_market_order_settles ws order ins Hstyle Hins'),
          (execute_market_order_settles w order ins Hm Hins), !settle_exec.
        cbn [fst snd].
        destruct (settle_ignores_status order (Instrument.last_traded_price ins) s w)
          as (Hf & Ht & Hp).
        fold ws in Hf, Ht, Hp. rewrite Hf. now repeat split.
      * unfold exec.
        rewrite (execute_market_order_error ws order)
          by (right; rewrite Hsym; exact Hins).
        rewrite (execute_market_order_error w order) by now right.
        rewrite Hstyle, Hsym, Hm. now repeat split.
    + unfold exec.
      rewrite (execute_market_order_error ws order) by (left; congruence).
      rewrite (execute_market_order_error w order) by (left; congruence).
      rewrite Hstyle, Hm. now repeat split.
  - intros R.
    destruct (Order.order_style (heap w order)) eqn:Hm.
    { unfold exec.
      rewrite (execute_limit_order_raises ws order R) by (left; congruence).
      rewrite (execute_limit_order_raises w order R) by (left; congruence).
      now repeat split. }
    destruct (Order.price (heap w order)) as [L|] eqn:HL.
    2:{ unfold exec.
        rewrite (execute_limit_order_raises ws order R) by (right; congruence).
        rewrite (execute_limit_order_raises w order R) by now right.
        now repeat split. }
    destruct (limit_eligible_dec (Order.order_type (heap w order)) R L) as [Hyes|Hno].
    + unfold exec.
      rewrite (execute_limit_order_fills ws order R L Hstyle Hprice)
        by (rewrite Htype; exact Hyes).
      rewrite (execute_limit_order_fills w order R L Hm HL Hyes).
      cbn [fst snd].
      destruct (settle_ignores_status order L s w) as (Hf & Ht & Hp).
      fold ws in Hf, Ht, Hp. rewrite Hf. now repeat split.
    + unfold exec.
      rewrite (execute_limit_order_declines ws order R L Hstyle Hprice)
        by (rewrite Htype; exact Hno).
      rewrite (execute_limit_order_declines w order R L Hm HL Hno).
      now repeat split.
Qed.

(** ** The order book *)

(** X18.  Orders are listed in the order they were placed: when the id
    drawn for a valid request is not in use, [place_order] appends the new
    order to what [get_all_orders] lists and every order listed before is
    still found under its id.  When the id is in use, the new order takes
    the entry of the older one, which [get_order_status] no longer finds,
    and the number of orders listed stays the same. *)
Theorem order_book_appends :
  forall req w,
    valid_request req w ->
    let id := uuid4_oracle w (uuid4_calls w) in
    exists w',
      OrderService.place_order req w = (Return (next_ref w), w')
      /\ OrderService.get_order_status id w' = (Return (Some (next_ref w)), w')
      /\ (forall other, other <> id ->
                        fst (OrderService.get_order_status other w')
                        = fst (OrderService.get_order_status other w))
      /\ match Dict.get id (_orders w) with
         | None =>
             exists before,
               OrderService.get_all_orders w = (Return before, w)
               /\ OrderService.get_all_orders w' = (Return (before ++ [next_ref w]), w')
         | Some older =>
             exists before after,
               OrderService.get_all_orders w = (Return before, w)
               /\ OrderService.get_all_orders w' = (Return after, w')
               /\ length after = length before
         end.
Proof.
  intros req w Hvalid id.
  destruct (place_order_after_validation req w (valid_request_passes req w Hvalid))
    as (order & w' & Hrun).
  destruct (place_order_placed req w order w' Hrun) as (-> & _ & Horders & _).
  fold id in Horders.
  exists w'. split; [exact Hrun|].
  unfold OrderService.get_order_status, InMemoryStorage.get_order,
    OrderService.get_all_orders, InMemoryStorage.get_all_orders, gets.
  rewrite Horders. cbn [fst].
  split; [now rewrite DictFacts.get_set_eq|].
  split.
  { intros other Hne. rewrite DictFacts.get_set_ne by congruence. reflexivity. }
  destruct (Dict.get id (_orders w)) as [older|] eqn:Hold.
  - do 2 eexists. split; [reflexivity|]. split; [reflexivity|].
    now apply (values_set_present _ _ _ older).
  - eexists. split; [reflexivity|]. now rewrite values_set_absent.
Qed.

(** Two requests in a row: the book lists them in that order. *)
Lemma order_book_appends_witness :
  exists w',
    OrderService.place_order (OrderRequest.mk "INFY" SELL LIMIT 5 (Some (Dec.of_int 1600)))
      world_buy_limit
    = (Return 1, w')
    /\ OrderService.get_all_orders w' = (Return [0; 1], w').
Proof.
  destruct (order_book_appends
              (OrderRequest.mk "INFY" SELL LIMIT 5 (Some (Dec.of_int 1600))) world_buy_limit)
    as (w' & Hrun & _ & _ & Hbook).
  - split; [reflexivity|]. split; [|discriminate].
    intros _. eexists. split; reflexivity.
  - exists w'. split; [exact Hrun|].
    change (Dict.get (uuid4_oracle world_buy_limit (uuid4_calls world_buy_limit))
              (_orders world_buy_limit)) with (@None ref) in Hbook.
    destruct Hbook as (before & Hb & Ha). injection Hb as <-. exact Ha.
Defined.

(** ** Purchases add up *)

(** The portfolio a valid request leaves: untouched for LIMIT, moved by
    the signed quantity at some price for MARKET. *)
Lemma place_order_portfolio req w :
  valid_request req w ->
  exists order w',
    OrderService.place_order req w = (Return order, w')
    /\ _instruments w' = _instruments w
    /\ match OrderRequest.order_style req with
       | LIMIT => _portfolio w' = _portfolio w
       | MARKET =>
           exists P,
             _portfolio w'
             = _portfolio
                 (exec (InMemoryStorage.update_portfolio_position (OrderRequest.symbol req)
                          (TradeService.quantity_change_of (OrderRequest.order_type req)
                             (OrderRequest.quantity req)) P) w)
       end.
Proof.
  intros Hvalid.
  pose proof (place_order_run req w (valid_request_passes req w Hvalid)) as Hplace.
  destruct (placed_order_run (OrderRequest.symbol req) (OrderRequest.order_type req)
              (OrderRequest.order_style req) (OrderRequest.quantity req)
              (OrderRequest.price req) w)
    as (_ & Hheap & _ & _ & _ & Hi1 & _ & Hp1 & _).
  cbv zeta in Hplace.
  set (w1 := exec (placed_order _ _ _ _ _) w) in *.
  set (order := next_ref w) in *.
  destruct (OrderRequest.order_style req) eqn:Hstyle.
  - destruct Hvalid as (_ & _ & Hlisted).
    destruct (Dict.get (OrderRequest.symbol req) (_instruments w)) as [ins|] eqn:Hins;
      [|congruence].
    assert (Order.order_style (heap w1 order) = MARKET) as Hm by now rewrite Hheap.
    assert (Dict.get (Order.symbol (heap w1 order)) (_instruments w1) = Some ins) as Hins1
        by (rewrite Hheap, Hi1; exact Hins).
    assert (exec (OrderService._execute_market_order order) w1
            = exec (settle order (Instrument.last_traded_price ins)) w1) as Hexec.
    { unfold exec, OrderService._execute_market_order, try_except, bind.
      rewrite (execute_market_order_settles w1 order ins Hm Hins1), settle_exec.
      reflexivity. }
    rewrite Hexec in Hplace.
    destruct (settle_run order (Instrument.last_traded_price ins) w1)
      as (w' & Hrun & _ & _ & Hi' & _ & Hport & _).
    assert (exec (settle order (Instrument.last_traded_price ins)) w1 = w') as Hw'
        by (unfold exec; now rewrite Hrun).
    rewrite Hw' in Hplace.
    exists order, w'. split; [exact Hplace|]. split; [now rewrite Hi'|].
    exists (Instrument.last_traded_price ins).
    rewrite Hport, Hheap, <- quantity_change_of_signed.
    cbn [Order.symbol Order.order_type Order.quantity].
    now apply update_portfolio_position_frame.
  - exists order, w1. split; [exact Hplace|]. split; assumption.
Qed.

Lemma place_all_bought requests : forall acc w,
  Forall (fun req =>
            valid_request req w
            /\ (OrderRequest.order_style req = MARKET -> OrderRequest.order_type req = BUY))
    requests ->
  exists ids w',
    for_each requests acc
      (fun ids request =>
         order <- OrderService.place_order request ;;
         id <- getattr Order.id order ;;
         ret (ids ++ [id])) w
    = (Return ids, w')
    /\ forall symbol,
         held_quantity symbol w' = (held_quantity symbol w + bought symbol requests)%Z.
Proof.
  induction requests as [|req requests IH]; intros acc w Hall.
  - exists acc, w. split; [reflexivity|]. intros symbol. cbn. lia.
  - apply List.Forall_cons_iff in Hall as [[Hvalid Hbuy] Hrest].
    destruct (place_order_portfolio req w Hvalid) as (order & w1 & Hrun & Hi & Hport).
    cbn [for_each]. unfold bind at 1. unfold bind at 1. rewrite Hrun.
    unfold bind at 1, getattr at 1, gets at 1, ret at 1.
    destruct (IH (acc ++ [Order.id (heap w1 order)]) w1) as (ids & w' & Hloop & Hheld).
    { eapply List.Forall_impl; [|exact Hrest].
      intros r [Hv Hb]. split; [|exact Hb]. now apply (valid_request_frame r w). }
    exists ids, w'. split; [exact Hloop|].
    intros symbol. rewrite Hheld. cbn [bought].
    destruct (OrderRequest.order_style req) eqn:Hstyle.
    + rewrite (Hbuy eq_refl) in *. destruct Hport as [P Hport].
      change (TradeService.quantity_change_of BUY (OrderRequest.quantity req))
        with (OrderRequest.quantity req) in Hport.
      destruct Hvalid as (Hq & _).
      destruct (String.eqb_spec (OrderRequest.symbol req) symbol) as [<-|Hne].
      * pose proof (held_quantity_update w (OrderRequest.symbol req)
                      (OrderRequest.quantity req) P) as Hupd.
        unfold held_quantity in Hupd |- *. rewrite Hport, Hupd.
        destruct (Dict.get (OrderRequest.symbol req) (_portfolio w)); lia.
      * unfold held_quantity. rewrite Hport.
        rewrite update_portfolio_position_other by congruence. lia.
    + unfold held_quantity. rewrite Hport.
      destruct (OrderRequest.order_type req); lia.
Qed.

(** X19.  Purchases add up.  After any run of valid requests in which
    every MARKET request is a BUY (LIMIT requests of either side may be
    mixed in), the net position in every symbol is the position before plus
    the quantities of the MARKET requests for that symbol: every market
    purchase is counted once, resting LIMIT orders not at all. *)
Theorem purchases_accumulate :
  forall requests w,
    Forall (fun req =>
              valid_request req w
              /\ (OrderRequest.order_style req = MARKET -> OrderRequest.order_type req = BUY))
      requests ->
    exists ids w',
      place_all requests w = (Return ids, w')
      /\ forall symbol,
           held_quantity symbol w' = (held_quantity symbol w + bought symbol requests)%Z.
Proof. intros requests w. apply place_all_bought. Qed.

(** 10 TCS, a resting SELL LIMIT, then 15 more TCS: 25 TCS are held. *)
Lemma purchases_accumulate_witness :
  exists ids w',
    place_all [OrderRequest.mk "TCS" BUY MARKET 10 None;
               OrderRequest.mk "TCS" SELL LIMIT 5 (Some (Dec.of_int 4000));
               OrderRequest.mk "TCS" BUY MARKET 15 None] world0
    = (Return ids, w')
    /\ held_quantity "TCS" w' = 25%Z
    /\ held_quantity "INFY" w' = 0%Z.
Proof.
  destruct (purchases_accumulate
              [OrderRequest.mk "TCS" BUY MARKET 10 None;
               OrderRequest.mk "TCS" SELL LIMIT 5 (Some (Dec.of_int 4000));
               OrderRequest.mk "TCS" BUY MARKET 15 None] world0)
    as (ids & w' & Hrun & Hheld).
  - repeat constructor; try discriminate.
    intros _. eexists. split; reflexivity.
  - exists ids, w'. split; [exact Hrun|]. split; apply Hheld.
Defined.
